(** * semantic_search: a shallow embedding of the ingestion and search services

    The development follows the Python sources of the backend:
    - [config.py]                       (module [Config])
    - [app/services/document_service.py] (module [DocumentService])
    - [app/services/bootstrap_service.py] (module [BootstrapService])
    - [app/services/search_service.py]   (module [SearchService])
    - [app/routes/search_routes.py]      (module [SearchRoutes])

    Python dictionaries are finite maps with string keys, exceptions are an
    explicit result type, the external services (embedding provider, vector
    index, PDF reader, clock) are functions supplied by the environment, and
    the mutable state a method touches is passed explicitly. *)

From Stdlib Require Import ZArith Lia List String Ascii Bool.
From stdpp Require Import base option list strings pretty gmap.

Local Open Scope string_scope.
Local Open Scope Z_scope.
Local Open Scope list_scope.

(** ** Python values and exceptions *)

(** The values that flow through the services: JSON-like data, plus the
    handle of the vector index. Floats only occur as time stamps and
    scores, which are kept as integers (ticks, fixed-point). *)
#[warnings="-register-all"]
Inductive value :=
  | VNone
  | VStr (s : string)
  | VInt (z : Z)
  | VBool (b : bool)
  | VFloat (ticks : Z)
  | VList (l : list value)
  | VDict (d : gmap string value)
  | VIndex (name : string).

Abbreviation pydict := (gmap string value).

(** [bool(v)] *)
Definition truthy (v : value) : bool :=
  match v with
  | VNone => false
  | VStr s => negb (String.eqb s "")
  | VInt z | VFloat z => negb (z =? 0)
  | VBool b => b
  | VList l => match l with [] => false | _ => true end
  | VDict d => match map_to_list d with [] => false | _ => true end
  | VIndex _ => true
  end.

Inductive exn :=
  | TypeError (msg : string)
  | KeyError (key : string)
  | ValueError (msg : string)
  | AttributeError (msg : string)
  | UnboundLocalError (name : string)
  | ProviderError (msg : string).

(** [str(e)] for an exception [e]. *)
Definition str_exn (e : exn) : string :=
  match e with
  | TypeError m | ValueError m | AttributeError m | ProviderError m => m
  | KeyError k => "'" +:+ k +:+ "'"
  | UnboundLocalError n => "local variable '" +:+ n +:+ "' referenced before assignment"
  end.

Inductive result (A : Type) :=
  | Ok (a : A)
  | Raise (e : exn).
Arguments Ok {A} a.
Arguments Raise {A} e.

(** [d[key]] on a dictionary: [KeyError] when the key is absent. *)
Definition getitem {V} (d : gmap string V) (key : string) : result V :=
  match d !! key with
  | Some v => Ok v
  | None => Raise (KeyError key)
  end.

(** ** Python slicing [s[start:stop]] on a string

    A negative bound counts from the end, and both bounds are clamped to
    [0 .. len(s)]. *)
Definition slice_bound (len i : Z) : Z :=
  if i <? 0 then Z.max (i + len) 0 else Z.min i len.

Definition py_len (s : string) : Z := Z.of_nat (String.length s).

Definition py_slice (s : string) (start stop : Z) : string :=
  let lo := slice_bound (py_len s) start in
  let hi := slice_bound (py_len s) stop in
  substring (Z.to_nat lo) (Z.to_nat (hi - lo)) s.

(** [s.endswith(suffix)] *)
Definition endswith (s suffix : string) : bool :=
  let n := String.length s in
  let k := String.length suffix in
  (k <=? n)%nat && String.eqb (substring (n - k) k s) suffix.

(** ** config.py *)
Module Config.
Record t := {
  CHUNK_SIZE : Z;
  CHUNK_OVERLAP : Z;
  MAX_SEARCH_RESULTS : Z;
  MAX_CONCURRENT_SEARCHES : Z;
  SEARCH_TIMEOUT : Z;
  CACHE_SIZE : Z;
  CACHE_TTL : Z;
  MAX_WORKERS : Z;
  BATCH_SIZE : Z;
  EMBEDDING_BATCH_SIZE : Z;
  (** [Config] declares no [DEFAULT_TOP_K]; reading the attribute of a
      configuration that lacks it raises [AttributeError]. *)
  DEFAULT_TOP_K : option Z
}.

(** The class [Config] as the source declares it. *)
Definition default : t := {|
  CHUNK_SIZE := 1000;
  CHUNK_OVERLAP := 200;
  MAX_SEARCH_RESULTS := 5;
  MAX_CONCURRENT_SEARCHES := 5;
  SEARCH_TIMEOUT := 5;
  CACHE_SIZE := 3;
  CACHE_TTL := 60;
  MAX_WORKERS := 3;
  BATCH_SIZE := 3;
  EMBEDDING_BATCH_SIZE := 3;
  DEFAULT_TOP_K := None
|}.
End Config.

(** ** app/services/document_service.py *)
Module DocumentService.

Section Chunks.
(** [self.chunk_size] and [self.chunk_overlap] *)
Variables (chunk_size chunk_overlap : Z).
(** [uuid.uuid4()]: the identifier drawn for the chunk of a given index. *)
Variable uuid4 : Z -> string.

(** The dictionary built for one chunk by [create_chunks]. *)
Definition make_chunk (meta : pydict) (chunk_text : string)
    (chunk_index start end_ : Z) : pydict :=
  {[ "chunk_id" := VStr (uuid4 chunk_index);
     "content" := VStr chunk_text;
     "metadata" := VDict
       (<["chunk_end" := VInt end_]>
        (<["chunk_start" := VInt start]>
         (<["is_first_chunk" := VBool (chunk_index =? 0)]>
          (<["chunk_index" := VInt chunk_index]> meta)))) ]}.

(** The [while start < len(text)] loop of [create_chunks]; [None] when
    the fuel runs out before the loop ends. *)
Fixpoint create_chunks_loop (fuel : nat) (text : string) (meta : pydict)
    (start chunk_index : Z) (chunks : list pydict) : option (list pydict) :=
  match fuel with
  | O => None
  | S fuel' =>
      if start <? py_len text then
        let end_ := start + chunk_size in
        let start' := if 0 <? start then start - chunk_overlap else start in
        let chunk_text := py_slice text start' end_ in
        let chunk := make_chunk meta chunk_text chunk_index start' end_ in
        create_chunks_loop fuel' text meta end_ (chunk_index + 1)
          (chunks ++ [chunk])
      else Some chunks
  end.

Definition create_chunks (fuel : nat) (text : string) (meta : pydict)
    : option (list pydict) :=
  create_chunks_loop fuel text meta 0 0 [].
End Chunks.

Section Loader.
(** [self.pdf_dir] *)
Variable pdf_dir : string.
(** [PdfReader(pdf_path)] followed by the extraction of every page: the
    text of the file, or the exception the reader raises. *)
Variable read_pdf : string -> result string.
(** [json.load] of the catalog file and [os.listdir(self.pdf_dir)]. *)
Variable read_catalog : result (list pydict).
Variable listdir : result (list string).

(** [os.path.join(self.pdf_dir, filename)] *)
Definition path_join (dir filename : string) : string :=
  dir +:+ "/" +:+ filename.

Definition load_metadata : result (list pydict) :=
  match read_catalog with
  | Ok catalog => Ok catalog
  | Raise e => Raise e          (* logged, then re-raised *)
  end.

Definition load_pdf_content (pdf_path : string) : result string :=
  match read_pdf pdf_path with
  | Ok text => Ok text
  | Raise e => Raise e          (* logged, then re-raised *)
  end.

(** [m['filename'] == filename] for a string [filename] *)
Definition is_filename (v : value) (filename : string) : bool :=
  match v with
  | VStr s => String.eqb s filename
  | _ => false
  end.

(** [next((m for m in metadata if m['filename'] == filename), None)]:
    the first entry whose [filename] is the given one; an entry without
    that key raises [KeyError] when the search reaches it. *)
Fixpoint find_metadata (catalog : list pydict) (filename : string)
    : result (option pydict) :=
  match catalog with
  | [] => Ok None
  | m :: rest =>
      match getitem m "filename" with
      | Raise e => Raise e
      | Ok v =>
          if is_filename v filename then Ok (Some m)
          else find_metadata rest filename
      end
  end.

(** The dictionary returned for a loaded document. *)
Definition make_document (content : string) (doc_metadata : pydict) : pydict :=
  {[ "content" := VStr content; "metadata" := VDict doc_metadata ]}.

(** [process_single_document]: [None] is Python's [None]. Every
    exception raised in the body is caught, logged and turned into
    [None]. *)
Definition process_single_document (filename : string)
    (catalog : list pydict) : option pydict :=
  if negb (endswith filename ".pdf") then None
  else
    let pdf_path := path_join pdf_dir filename in
    match find_metadata catalog filename with
    | Raise _ => None
    | Ok None => None
    | Ok (Some doc_metadata) =>
        if negb (truthy (VDict doc_metadata)) then None
        else
          match load_pdf_content pdf_path with
          | Raise _ => None
          | Ok content => Some (make_document content doc_metadata)
          end
    end.

(** [process_documents_parallel]: [executor.map] returns the results in
    the order of [filenames]; the [None] results are filtered out. *)
Definition process_documents_parallel : result (list pydict) :=
  match load_metadata with
  | Raise e => Raise e
  | Ok catalog =>
      match listdir with
      | Raise e => Raise e
      | Ok names =>
          let filenames := filter (fun f => endswith f ".pdf" = true) names in
          let futures :=
            map (fun f => process_single_document f catalog) filenames in
          Ok (omap id futures)
      end
  end.
End Loader.

(** The file a loaded document came from, read from its metadata. *)
Definition document_filename (doc : pydict) : option string :=
  match doc !! "metadata" with
  | Some (VDict m) =>
      match m !! "filename" with Some (VStr f) => Some f | _ => None end
  | _ => None
  end.

(** Reading the position fields back from a chunk. *)
Definition chunk_meta (c : pydict) : pydict :=
  match c !! "metadata" with Some (VDict m) => m | _ => ∅ end.
Definition chunk_content (c : pydict) : string :=
  match c !! "content" with Some (VStr s) => s | _ => "" end.
Definition chunk_field (key : string) (c : pydict) : option value :=
  chunk_meta c !! key.

End DocumentService.

(** ** Effects: state passing with exceptions

    A computation takes the state of the world and returns a value or a
    raised exception together with the new state; what was done before an
    exception is raised stays done. *)
Definition M (W A : Type) : Type := W -> result A * W.

Definition ret {W A} (a : A) : M W A := fun w => (Ok a, w).
Definition raise {W A} (e : exn) : M W A := fun w => (Raise e, w).
Definition bind {W A B} (m : M W A) (k : A -> M W B) : M W B :=
  fun w =>
    match m w with
    | (Ok a, w') => k a w'
    | (Raise e, w') => (Raise e, w')
    end.
Definition lift {W A} (r : result A) : M W A := fun w => (r, w).
(** [try: m  except Exception as e: h e] *)
Definition try_except {W A} (m : M W A) (h : exn -> M W A) : M W A :=
  fun w =>
    match m w with
    | (Ok a, w') => (Ok a, w')
    | (Raise e, w') => h e w'
    end.

Notation "x <- m ;; k" := (bind m (fun x => k))
  (at level 100, m at next level, right associativity).

(** ** app/services/bootstrap_service.py *)
Module BootstrapService.

(** The calls that leave the process. *)
Inductive event :=
  | Fetch (ids : list value)
  | EmbeddingsCreate (texts : list value)
  | Upsert (vectors : list value).

(** The vector index (what is stored under each id) and the calls made
    so far. *)
Record world := {
  store : gmap string value;
  trace : list event
}.

Definition record_event (ev : event) (w : world) : world :=
  {| store := store w; trace := trace w ++ [ev] |}.

(** How many embedding calls and upserts a run has made. *)
Definition embedding_calls (t : list event) : nat :=
  length (List.filter (fun ev => match ev with EmbeddingsCreate _ => true | _ => false end) t).
Definition upsert_calls (t : list event) : nat :=
  length (List.filter (fun ev => match ev with Upsert _ => true | _ => false end) t).
(** The vectors handed to [index.upsert] so far. *)
Definition upserted (t : list event) : list value :=
  flat_map (fun ev => match ev with Upsert vs => vs | _ => [] end) t.

(** [chunks[i:i + n]] for [i] in [range(0, len(chunks), n)], [n > 0]. *)
Fixpoint batches_fuel {A} (fuel n : nat) (l : list A) : list (list A) :=
  match fuel with
  | O => []
  | S fuel' =>
      match l with
      | [] => []
      | _ => take n l :: batches_fuel fuel' n (drop n l)
      end
  end.

(** [range(0, len(l), step)] raises [ValueError] for a zero step and is
    empty for a negative one. *)
Definition batches {A} (step : Z) (l : list A) : result (list (list A)) :=
  if step =? 0 then Raise (ValueError "range() arg 3 must not be zero")
  else if step <? 0 then Ok []
  else Ok (batches_fuel (length l) (Z.to_nat step) l).

Section Service.
(** [self.batch_size], from [EMBEDDING_BATCH_SIZE] *)
Variable batch_size : Z.
(** The environment, given the calls made so far: whether
    [index.fetch] fails, what the embedding endpoint answers (one
    embedding per text, or an exception), whether [index.upsert] fails,
    and what [time.time()] reads. *)
Variable fetch_error : list event -> list value -> option exn.
Variable openai_embeddings : list event -> list value -> result (list value).
Variable upsert_error : list event -> list value -> option exn.
Variable time_time : list event -> Z.

(** The entries of the store under the given ids. *)
Definition stored_under (s : gmap string value) (ids : list value)
    : gmap string value :=
  foldr (fun id acc =>
           match id with
           | VStr k => match s !! k with Some v => <[k := v]> acc | None => acc end
           | _ => acc
           end) ∅ ids.

(** [index.fetch(ids).vectors]; an object that is not the index handle
    has no [fetch]. *)
Definition index_fetch (index : value) (ids : list value)
    : M world (gmap string value) :=
  match index with
  | VIndex _ =>
      fun w =>
        let w' := record_event (Fetch ids) w in
        match fetch_error (trace w) ids with
        | Some e => (Raise e, w')
        | None => (Ok (stored_under (store w) ids), w')
        end
  | _ => raise (AttributeError "object has no attribute 'fetch'")
  end.

(** The id a vector is stored under. *)
Definition vector_id (v : value) : option string :=
  match v with
  | VDict d => match d !! "id" with Some (VStr k) => Some k | _ => None end
  | _ => None
  end.

Definition store_upsert (s : gmap string value) (vectors : list value)
    : gmap string value :=
  foldl (fun acc v =>
           match vector_id v with Some k => <[k := v]> acc | None => acc end)
        s vectors.

(** [index.upsert(vectors=vectors)] *)
Definition index_upsert (index : value) (vectors : list value) : M world unit :=
  match index with
  | VIndex _ =>
      fun w =>
        let w' := record_event (Upsert vectors) w in
        match upsert_error (trace w) vectors with
        | Some e => (Raise e, w')
        | None =>
            (Ok tt, {| store := store_upsert (store w') vectors;
                       trace := trace w' |})
        end
  | _ => raise (AttributeError "object has no attribute 'upsert'")
  end.

(** [check_embedding_status(self, chunk_id, index)] *)
Definition check_embedding_status (chunk_id index : value) : M world bool :=
  try_except
    (vectors <- index_fetch index [chunk_id] ;;
     ret (truthy (VDict vectors)))
    (fun _ => ret false).          (* logged *)

(** A call [self.check_embedding_status(...)] with the given positional
    arguments: the method has two parameters besides [self]. *)
Definition call_check_embedding_status (args : list value) : M world bool :=
  match args with
  | [chunk_id; index] => check_embedding_status chunk_id index
  | [] =>
      raise (TypeError "check_embedding_status() missing 2 required positional arguments: 'chunk_id' and 'index'")
  | [_] =>
      raise (TypeError "check_embedding_status() missing 1 required positional argument: 'index'")
  | _ =>
      raise (TypeError "check_embedding_status() takes 3 positional arguments but more were given")
  end.

(** [create_embeddings_batch(self, texts)] *)
Definition create_embeddings_batch (texts : list value) : M world (list value) :=
  fun w =>
    let w' := record_event (EmbeddingsCreate texts) w in
    match openai_embeddings (trace w) texts with
    | Ok embeddings => (Ok embeddings, w')
    | Raise e => (Raise e, w')     (* logged, then re-raised *)
    end.

(** [{**chunk["metadata"], ...}] needs a mapping. *)
Definition as_mapping (v : value) : result pydict :=
  match v with
  | VDict d => Ok d
  | _ => Raise (TypeError "object is not a mapping")
  end.

(** The dictionary literal assigned to [vector] for one chunk and its
    embedding, at time [now]. *)
Definition make_vector (now : Z) (chunk : pydict) (embedding : value)
    : result value :=
  match getitem chunk "chunk_id" with
  | Raise e => Raise e
  | Ok id =>
      match getitem chunk "metadata" with
      | Raise e => Raise e
      | Ok md =>
          match as_mapping md with
          | Raise e => Raise e
          | Ok md =>
              match getitem chunk "content" with
              | Raise e => Raise e
              | Ok content =>
                  Ok (VDict {[ "id" := id;
                               "values" := embedding;
                               "metadata" := VDict
                                 (<["processed_at" := VFloat now]>
                                  (<["content" := content]> md)) ]})
              end
          end
      end
  end.

(** [for chunk, embedding in zip(new_chunks, embeddings): vector = ...]:
    the local variable [vector] after the loop, and the exception that
    ended the loop early, if any. *)
Fixpoint build_vectors (now : Z) (pairs : list (pydict * value))
    (vector : option value) : option value * option exn :=
  match pairs with
  | [] => (vector, None)
  | (chunk, embedding) :: rest =>
      match make_vector now chunk embedding with
      | Raise e => (vector, Some e)
      | Ok v => build_vectors now rest (Some v)
      end
  end.

(** The first loop over a batch: which chunks need processing. [check]
    is what the call [self.check_embedding_status(...)] evaluates to for
    the id of a chunk. *)
Fixpoint select_new_chunks (check : value -> M world bool)
    (batch : list pydict) (new_chunks : list pydict)
    (new_chunks_texts : list value)
    : M world (list pydict * list value) :=
  match batch with
  | [] => ret (new_chunks, new_chunks_texts)
  | chunk :: rest =>
      chunk_id <- lift (getitem chunk "chunk_id") ;;
      present <- check chunk_id ;;
      if negb present then
        text <- lift (getitem chunk "context") ;;
        select_new_chunks check rest (new_chunks ++ [chunk])
          (new_chunks_texts ++ [text])
      else                         (* logged: already exists, skipping *)
        select_new_chunks check rest new_chunks new_chunks_texts
  end.

(** The [try] block of a batch. Any exception is caught and logged and
    the loop goes on with the next batch ([continue]); the block hands
    back the list [vectors] and the local variable [vector]. *)
Definition embed_new_chunks (new_chunks : list pydict)
    (new_chunks_texts : list value) (vectors : list value)
    (vector : option value)
    : world -> (list value * option value) * world :=
  fun w =>
    match new_chunks_texts with
    | [] => ((vectors, vector), w)
    | _ =>
        match create_embeddings_batch new_chunks_texts w with
        | (Raise _, w') => ((vectors, vector), w')
        | (Ok embeddings, w') =>
            match build_vectors (time_time (trace w'))
                    (zip new_chunks embeddings) vector with
            | (vector', Some _) => ((vectors, vector'), w')
            | (None, None) => ((vectors, None), w')   (* UnboundLocalError *)
            | (Some v, None) => ((vectors ++ [v], Some v), w')
            end
        end
    end.

(** The loop over the batches. *)
Fixpoint process_batches (check : value -> M world bool)
    (todo : list (list pydict)) (vectors : list value)
    (vector : option value) : M world (list value) :=
  match todo with
  | [] => ret vectors
  | batch :: rest =>
      sel <- select_new_chunks check batch [] [] ;;
      match fst sel with
      | [] => process_batches check rest vectors vector
      | _ =>
          fun w =>
            let '((vectors', vector'), w') :=
              embed_new_chunks (fst sel) (snd sel) vectors vector w in
            process_batches check rest vectors' vector' w'
      end
  end.

(** [process_chunks_to_vectors] for a given meaning of the call of the
    existence check. *)
Definition process_chunks_to_vectors_with (check : value -> M world bool)
    (chunks : list pydict) (index : value) : M world (list value) :=
  todo <- lift (batches batch_size chunks) ;;
  process_batches check todo [] None.

(** [process_chunks_to_vectors(self, chunks, index)]: the check is
    called with the chunk id alone. *)
Definition process_chunks_to_vectors (chunks : list pydict) (index : value)
    : M world (list value) :=
  process_chunks_to_vectors_with
    (fun chunk_id => call_check_embedding_status [chunk_id]) chunks index.

(** [upsert_vectors_batch(self, index, vectors)] *)
Definition upsert_vectors_batch (index : value) (vectors : list value)
    : M world bool :=
  match vectors with
  | [] => ret false
  | _ =>
      _ <- index_upsert index vectors ;;   (* an exception is logged, re-raised *)
      ret true
  end.

Record stats := {
  chunks_processed : Z;
  new_vectors_created : Z;
  batches_processed : Z
}.

(** The upsert loop of [bootstrap]. *)
Fixpoint upsert_all (index : value) (todo : list (list value))
    (done : Z) : M world Z :=
  match todo with
  | [] => ret done
  | batch :: rest =>
      _ <- upsert_vectors_batch index batch ;;
      upsert_all index rest (done + 1)
  end.

(** [bootstrap], after the index handle and the chunks of the document
    service have been obtained ([index_r], [chunks_r]: what
    [initialize_or_validate_index] and [process_all] returned or
    raised). *)
Definition bootstrap_with (check : value -> M world bool)
    (index_r : result value) (chunks_r : result (list pydict))
    : M world stats :=
  index <- lift index_r ;;
  chunks <- lift chunks_r ;;
  vectors <- process_chunks_to_vectors_with check chunks index ;;
  match vectors with
  | [] =>
      ret {| chunks_processed := Z.of_nat (length chunks);
             new_vectors_created := 0;
             batches_processed := 0 |}
  | _ =>
      todo <- lift (batches batch_size vectors) ;;
      n <- upsert_all index todo 0 ;;
      ret {| chunks_processed := Z.of_nat (length chunks);
             new_vectors_created := Z.of_nat (length vectors);
             batches_processed := n |}
  end.

Definition bootstrap (index_r : result value)
    (chunks_r : result (list pydict)) : M world stats :=
  bootstrap_with (fun chunk_id => call_check_embedding_status [chunk_id])
    index_r chunks_r.
End Service.

End BootstrapService.

(** ** cachetools.TTLCache, as the search service uses it

    The entries are kept from the least to the most recently used; an entry
    is visible until the clock reaches its expiry time. *)
Module TTLCache.
Record entry := { key : string; val : value; expires : Z }.
Record t := { maxsize : Z; ttl : Z; entries : list entry }.

Definition has_key (k : string) (e : entry) : bool := String.eqb (key e) k.
Definition find (k : string) (c : t) : option entry :=
  List.find (has_key k) (entries c).
Definition remove (k : string) (es : list entry) : list entry :=
  List.filter (fun e => negb (has_key k e)) es.
Definition expire (now : Z) (es : list entry) : list entry :=
  List.filter (fun e => now <? expires e) es.

(** [k in cache] *)
Definition contains (now : Z) (c : t) (k : string) : bool :=
  match find k c with
  | Some e => now <? expires e
  | None => false
  end.

(** [cache[k]]: the entry becomes the most recently used one. *)
Definition getitem (now : Z) (c : t) (k : string) : result value * t :=
  match find k c with
  | Some e =>
      if now <? expires e then
        (Ok (val e),
         {| maxsize := maxsize c; ttl := ttl c;
            entries := remove k (entries c) ++ [e] |})
      else (Raise (KeyError k), c)
  | None => (Raise (KeyError k), c)
  end.

(** [cache[k] = v]: expired entries are dropped, then the least recently
    used ones while the cache is full, and the new entry lives for [ttl]
    from now. *)
Definition setitem (now : Z) (c : t) (k : string) (v : value) : result unit * t :=
  let live := expire now (entries c) in
  if maxsize c <? 1 then
    (Raise (ValueError "value too large"),
     {| maxsize := maxsize c; ttl := ttl c; entries := live |})
  else
    let kept :=
      match List.find (has_key k) live with
      | Some _ => remove k live
      | None => drop (length live + 1 - Z.to_nat (maxsize c)) live
      end in
    (Ok tt,
     {| maxsize := maxsize c; ttl := ttl c;
        entries := kept ++ [{| key := k; val := v; expires := now + ttl c |}] |}).

(** [len(cache)] *)
Definition len (now : Z) (c : t) : Z := Z.of_nat (length (expire now (entries c))).
End TTLCache.

(** ** app/services/search_service.py *)
Module SearchService.

Inductive event :=
  | EmbeddingCreate (input : string)
  | IndexQuery (vector : value) (top_k : Z)
  | DescribeIndexStats.

(** The shared state of the service: the cache, the free slots of the
    semaphore, the clock, and the calls made so far. *)
Record world := {
  cache : TTLCache.t;
  semaphore_value : Z;
  now : Z;
  trace : list event
}.

Definition embedding_calls (t : list event) : nat :=
  length (List.filter (fun ev => match ev with EmbeddingCreate _ => true | _ => false end) t).
Definition query_calls (t : list event) : nat :=
  length (List.filter (fun ev => match ev with IndexQuery _ _ => true | _ => false end) t).

(** One match of an index query. *)
Record index_match := { match_metadata : pydict; match_score : value }.

(** An external call: it is recorded and takes its time. *)
Definition external {A} (ev : event) (answer : result A * Z) : M world A :=
  fun w =>
    (fst answer,
     {| cache := cache w; semaphore_value := semaphore_value w;
        now := now w + snd answer; trace := trace w ++ [ev] |}).

Definition set_cache (c : TTLCache.t) (w : world) : world :=
  {| cache := c; semaphore_value := semaphore_value w;
     now := now w; trace := trace w |}.

Section Service.
(** [self.config] *)
Variable config : Config.t.
(** The environment, given the calls made so far: the answer and the
    duration of the embedding endpoint, of [index.query] and of
    [index.describe_index_stats]. *)
Variable openai_embedding : list event -> string -> result value * Z.
Variable index_query : list event -> value -> Z -> result (list index_match) * Z.
Variable index_stats : list event -> result unit * Z.
(** The format [f"{seconds:.2f}s"]. *)
Variable format_seconds : Z -> string.

(** [create_embedding(self, query)] *)
Definition create_embedding (query : string) : M world value :=
  fun w =>
    external (EmbeddingCreate query) (openai_embedding (trace w) query) w.
    (* an exception is logged, then re-raised *)

(** [str(top_k)] *)
Definition str_top_k (top_k : option Z) : string :=
  match top_k with
  | None => "None"
  | Some k => pretty k
  end.

(** [f"{query}:{top_k}"] *)
Definition cache_key (query : string) (top_k : option Z) : string :=
  query +:+ ":" +:+ str_top_k top_k.

(** [self.config.DEFAULT_TOP_K] *)
Definition default_top_k : result Z :=
  match Config.DEFAULT_TOP_K config with
  | Some k => Ok k
  | None => Raise (AttributeError "type object 'DevelopmentConfig' has no attribute 'DEFAULT_TOP_K'")
  end.

(** [top_k or self.config.DEFAULT_TOP_K] *)
Definition top_k_or_default (top_k : option Z) : result Z :=
  match top_k with
  | Some k => if k =? 0 then default_top_k else Ok k
  | None => default_top_k
  end.

(** [d.get(k, "")] *)
Definition get_or_empty (d : pydict) (k : string) : value :=
  match d !! k with Some v => v | None => VStr "" end.

Definition format_match (m : index_match) : value :=
  VDict {[ "content" := get_or_empty (match_metadata m) "content";
           "metadata" := VDict
             {[ "case" := get_or_empty (match_metadata m) "case";
                "year" := get_or_empty (match_metadata m) "year";
                "court" := get_or_empty (match_metadata m) "court";
                "citation" := get_or_empty (match_metadata m) "citation" ]};
           "similarity_score" := match_score m ]}.

Definition make_response (formatted_results : list value) (elapsed : Z) : value :=
  VDict {[ "results" := VList formatted_results;
           "total_results" := VInt (Z.of_nat (length formatted_results));
           "processing_time" := VStr (format_seconds elapsed) ]}.

(** [_execute_search(self, query, top_k)] *)
Definition _execute_search (query : string) (top_k : option Z) : M world value :=
  fun w =>
    let start_time := now w in
    let cache_key := cache_key query top_k in
    if TTLCache.contains (now w) (cache w) cache_key then
      let '(r, c) := TTLCache.getitem (now w) (cache w) cache_key in
      (r, set_cache c w)
    else
      (embedding <- create_embedding query ;;
       k <- lift (top_k_or_default top_k) ;;
       search_results <-
         (fun w1 => external (IndexQuery embedding k)
                      (index_query (trace w1) embedding k) w1) ;;
       fun w2 =>
         let response :=
           make_response (map format_match search_results)
             (now w2 - start_time) in
         let '(r, c) :=
           TTLCache.setitem (now w2) (cache w2) cache_key response in
         match r with
         | Ok _ => (Ok response, set_cache c w2)
         | Raise e => (Raise e, set_cache c w2)
         end) w.
      (* an exception is logged, then re-raised *)

Definition unhealthy (message : string) : value :=
  VDict {[ "status" := VStr "unhealthy"; "error" := VStr message ]}.

Definition healthy (cache_size active_connections : Z) : value :=
  VDict {[ "status" := VStr "healthy";
           "cache_size" := VInt cache_size;
           "active_connections" := VInt active_connections ]}.

(** [health_check(self)] *)
Definition health_check : M world value :=
  try_except
    (test_embedding <- create_embedding "test" ;;
     if negb (truthy test_embedding) then
       ret (unhealthy "Embedding creation failed")
     else
       _ <- (fun w => external DescribeIndexStats (index_stats (trace w)) w) ;;
       fun w =>
         (Ok (healthy (TTLCache.len (now w) (cache w)) (semaphore_value w)), w))
    (fun e => ret (unhealthy (str_exn e))).    (* logged *)
End Service.

End SearchService.

(** ** app/routes/search_routes.py *)
Module SearchRoutes.
Import SearchService.

(** The attributes of a [SearchService] instance: those of the class and
    those [__init__] sets. *)
Definition SearchService_attributes : list string :=
  [ "_instance"; "_lock"; "__new__"; "__init__"; "initialize_connections";
    "create_embedding"; "search_with_timeout"; "_execute_search";
    "health_check";
    "config"; "openai_api_key"; "pinecone_api_key"; "pinecone_env"; "index";
    "max_concurrent_searches"; "search_timeout"; "cache"; "semaphore";
    "initialized" ].

(** [search_service.<name>] *)
Definition getattr (name : string) : result string :=
  if existsb (String.eqb name) SearchService_attributes then Ok name
  else Raise (AttributeError
                ("'SearchService' object has no attribute '" +:+ name +:+ "'")).

(** [request.json.get(key)] *)
Definition json_get (body : value) (k : string) : result value :=
  match body with
  | VDict d => Ok (match d !! k with Some v => v | None => VNone end)
  | _ => Raise (AttributeError "object has no attribute 'get'")
  end.

Definition error_body (message : string) : value :=
  VDict {[ "error" := VStr message ]}.

Section Routes.
(** [SearchService()]: the construction of the service may raise. *)
Variable construct : M world unit.
(** Awaiting the call of an attribute the instance has, with the given
    positional arguments. *)
Variable call_attribute : string -> list value -> M world value.

(** [POST /search/]: the JSON body of the response and its status. *)
Definition search (request_json : value) : M world (value * Z) :=
  try_except
    (query <- lift (json_get request_json "query") ;;
     if negb (truthy query) then
       ret (error_body "No query provided", 400)
     else
       _ <- construct ;;
       method <- lift (getattr "search") ;;
       results <- call_attribute method [query] ;;
       ret (results, 200))
    (fun e => ret (error_body (str_exn e), 500)).
End Routes.
End SearchRoutes.

(** ** app/services/document_service.py: from documents to chunks *)
Module DocumentPipeline.

(** [len(v)] *)
Definition value_len (v : value) : result Z :=
  match v with
  | VStr s => Ok (py_len s)
  | VList l => Ok (Z.of_nat (length l))
  | VDict d => Ok (Z.of_nat (size d))
  | _ => Raise (TypeError "object has no len()")
  end.

(** [l[start:stop]] on a list *)
Definition py_slice_list {A} (l : list A) (start stop : Z) : list A :=
  let lo := slice_bound (Z.of_nat (length l)) start in
  let hi := slice_bound (Z.of_nat (length l)) stop in
  take (Z.to_nat (hi - lo)) (drop (Z.to_nat lo) l).

(** [v[start:stop]]; a dictionary cannot be sliced. *)
Definition value_slice (v : value) (start stop : Z) : result value :=
  match v with
  | VStr s => Ok (VStr (py_slice s start stop))
  | VList l => Ok (VList (py_slice_list l start stop))
  | _ => Raise (TypeError "unhashable type: 'slice'")
  end.

Section Chunks.
(** [self.chunk_size], [self.chunk_overlap], [self.batch_size] *)
Variables (chunk_size chunk_overlap batch_size : Z).

(** The dictionary [create_chunks] builds for one chunk, whatever the
    type of the slice. *)
Definition make_chunk_of (uuid4 : Z -> string) (meta : pydict)
    (chunk_text : value) (chunk_index start end_ : Z) : pydict :=
  {[ "chunk_id" := VStr (uuid4 chunk_index);
     "content" := chunk_text;
     "metadata" := VDict
       (<["chunk_end" := VInt end_]>
        (<["chunk_start" := VInt start]>
         (<["is_first_chunk" := VBool (chunk_index =? 0)]>
          (<["chunk_index" := VInt chunk_index]> meta)))) ]}.

(** The loop of [create_chunks] on a value that has a length. *)
Fixpoint create_chunks_loop_any (uuid4 : Z -> string) (fuel : nat)
    (text : value) (len : Z) (meta : pydict) (start chunk_index : Z)
    (chunks : list pydict) : option (result (list pydict)) :=
  match fuel with
  | O => None
  | S fuel' =>
      if start <? len then
        let end_ := start + chunk_size in
        let start' := if 0 <? start then start - chunk_overlap else start in
        match value_slice text start' end_ with
        | Raise e => Some (Raise e)      (* logged, then re-raised *)
        | Ok chunk_text =>
            create_chunks_loop_any uuid4 fuel' text len meta end_
              (chunk_index + 1)
              (chunks ++ [make_chunk_of uuid4 meta chunk_text chunk_index start' end_])
        end
      else Some (Ok chunks)
  end.

(** [create_chunks(text, metadata)] called with any two values: [None]
    when the loop never ends. A [metadata] that is not a dictionary has no
    [get], which the log lines of the method call. *)
Definition create_chunks_any (uuid4 : Z -> string) (fuel : nat)
    (text metadata : value) : option (result (list pydict)) :=
  match metadata with
  | VDict meta =>
      match value_len text with
      | Raise e => Some (Raise e)        (* logged, then re-raised *)
      | Ok len => create_chunks_loop_any uuid4 fuel text len meta 0 0 []
      end
  | _ => Some (Raise (AttributeError "object has no attribute 'get'"))
  end.

(** The identifiers drawn for the chunks of the document at a position of
    the list, and the fuel given to every call of [create_chunks]. *)
Variable uuid4 : nat -> Z -> string.
Variable fuel : nat.

(** [executor.submit(self.create_chunks, doc['content'], doc['metadata'])]
    for the documents of a batch, in turn: the futures submitted, and the
    exception that ended the comprehension, if any. *)
Fixpoint submit_batch (pos : nat) (batch : list pydict)
    : list (option (result (list pydict))) * option exn :=
  match batch with
  | [] => ([], None)
  | doc :: rest =>
      match getitem doc "content" with
      | Raise e => ([], Some e)
      | Ok content =>
          match getitem doc "metadata" with
          | Raise e => ([], Some e)
          | Ok metadata =>
              let future :=
                create_chunks_any (uuid4 pos) fuel content metadata in
              let '(futures, err) := submit_batch (S pos) rest in
              (future :: futures, err)
          end
      end
  end.

(** [future.result()] for every future in turn; an exception is logged
    and the future skipped. [None] when a future never completes. *)
Fixpoint collect (futures : list (option (result (list pydict))))
    (total_chunks : list pydict) : option (list pydict) :=
  match futures with
  | [] => Some total_chunks
  | None :: _ => None
  | Some (Ok chunks) :: rest => collect rest (total_chunks ++ chunks)
  | Some (Raise _) :: rest => collect rest total_chunks
  end.

(** Leaving the [with ThreadPoolExecutor] block waits for every future. *)
Definition all_done (futures : list (option (result (list pydict)))) : bool :=
  forallb (fun f => match f with Some _ => true | None => false end) futures.

(** The loop over the batches of documents. *)
Fixpoint process_batches (pos : nat) (todo : list (list pydict))
    (total_chunks : list pydict) : option (result (list pydict)) :=
  match todo with
  | [] => Some (Ok total_chunks)
  | batch :: rest =>
      match submit_batch pos batch with
      | (futures, Some e) =>
          if all_done futures then Some (Raise e) else None
      | (futures, None) =>
          match collect futures total_chunks with
          | None => None
          | Some total_chunks' =>
              process_batches (pos + length batch) rest total_chunks'
          end
      end
  end.

(** [process_chunks_in_batches(self, documents)] *)
Definition process_chunks_in_batches (documents : list pydict)
    : option (result (list pydict)) :=
  match BootstrapService.batches batch_size documents with
  | Raise e => Some (Raise e)            (* logged, then re-raised *)
  | Ok todo => process_batches 0 todo []
  end.

(** [process_all(self)], given what [process_documents_parallel]
    returned or raised. *)
Definition process_all (documents_r : result (list pydict))
    : option (result (list pydict)) :=
  match documents_r with
  | Raise e => Some (Raise e)            (* logged, then re-raised *)
  | Ok documents => process_chunks_in_batches documents
  end.
End Chunks.
End DocumentPipeline.

(** ** The routes that call a service method without arguments *)
Module ServiceRoutes.

(** [GET /search/health]: the body of the response and its status. *)
Definition health_check
    (construct : M SearchService.world unit)
    (openai_embedding : list SearchService.event -> string -> result value * Z)
    (index_stats : list SearchService.event -> result unit * Z)
    : M SearchService.world (value * Z) :=
  try_except
    (_ <- construct ;;
     status <- SearchService.health_check openai_embedding index_stats ;;
     ret (status, 200))
    (fun e => ret (SearchRoutes.error_body (str_exn e), 500)).

(** The dictionary [bootstrap] returns. *)
Definition bootstrap_result (st : BootstrapService.stats) (execution_time : Z)
    : value :=
  VDict {[ "status" := VStr "success";
           "stats" := VDict
             {[ "chunks_processed" := VInt (BootstrapService.chunks_processed st);
                "new_vectors_created" := VInt (BootstrapService.new_vectors_created st);
                "batches_processed" := VInt (BootstrapService.batches_processed st) ]};
           "execution_time" := VFloat execution_time ]}.

Section Bootstrap.
Variable batch_size : Z.
Variable fetch_error : list BootstrapService.event -> list value -> option exn.
Variable openai_embeddings : list BootstrapService.event -> list value -> result (list value).
Variable upsert_error : list BootstrapService.event -> list value -> option exn.
Variable time_time : list BootstrapService.event -> Z.
(** [BootstrapService()] *)
Variable construct : M BootstrapService.world unit.

(** [POST /bootstrap/]: the body of the response and its status. *)
Definition initialize_system (index_r : result value)
    (chunks_r : result (list pydict)) : M BootstrapService.world (value * Z) :=
  try_except
    (_ <- construct ;;
     fun w =>
       let start_time := time_time (BootstrapService.trace w) in
       match BootstrapService.bootstrap batch_size fetch_error openai_embeddings
               upsert_error time_time index_r chunks_r w with
       | (Ok st, w') =>
           (Ok (bootstrap_result st
                  (time_time (BootstrapService.trace w') - start_time), 200), w')
       | (Raise e, w') => (Raise e, w')      (* logged, then re-raised *)
       end)
    (fun e => ret (SearchRoutes.error_body (str_exn e), 500)).
End Bootstrap.
End ServiceRoutes.

(** ** app/services/bootstrap_service.py: the index and its status *)
Module BootstrapIndex.

(** The calls to the Pinecone client. *)
Inductive event :=
  | PineconeInit
  | ListIndexes
  | CreateIndex (name : option string) (dimension : Z) (metric : string)
  | Sleep (seconds : Z)
  | OpenIndex (name : option string)
  | DescribeIndexStats.

(** What [index.describe_index_stats()] answers. *)
Record index_stats := { total_vector_count : value; index_fullness : value }.

(** A call to the client: it is recorded, and it answers or raises. *)
Definition call {A} (ev : event) (answer : list event -> result A)
    : M (list event) A :=
  fun t => (answer t, t ++ [ev]).

(** [name in names], for a name read from the environment, which is
    [None] when the variable is not set. *)
Definition listed (name : option string) (names : list string) : bool :=
  match name with
  | Some n => existsb (String.eqb n) names
  | None => false
  end.

(** [{"status": "active", ...}], [{"status": "index_not_found"}] and
    [{"status": "error", "message": ...}] *)
Definition active (stats : index_stats) : value :=
  VDict {[ "status" := VStr "active";
           "vector_count" := total_vector_count stats;
           "index_fullness" := index_fullness stats ]}.
Definition index_not_found : value :=
  VDict {[ "status" := VStr "index_not_found" ]}.
Definition error (message : string) : value :=
  VDict {[ "status" := VStr "error"; "message" := VStr message ]}.

Section Service.
(** [self.config.PINECONE_INDEX] *)
Variable PINECONE_INDEX : option string.
(** The client, given the calls made so far. *)
Variable pinecone_init : list event -> result unit.
Variable list_indexes : list event -> result (list string).
Variable create_index : list event -> result unit.
Variable pinecone_Index : list event -> result value.
Variable describe_index_stats : list event -> result index_stats.

(** [initialize_or_validate_index(self)] *)
Definition initialize_or_validate_index : M (list event) value :=
  _ <- call PineconeInit pinecone_init ;;
  names <- call ListIndexes list_indexes ;;
  _ <- (if negb (listed PINECONE_INDEX names) then
          _ <- call (CreateIndex PINECONE_INDEX 1536 "cosine") create_index ;;
          call (Sleep 7) (fun _ => Ok tt)
        else ret tt) ;;
  index <- call (OpenIndex PINECONE_INDEX) pinecone_Index ;;
  _ <- call DescribeIndexStats describe_index_stats ;;
  ret index.
  (* an exception is logged, then re-raised *)

(** [get_status(self)] *)
Definition get_status : M (list event) value :=
  try_except
    (_ <- call PineconeInit pinecone_init ;;
     names <- call ListIndexes list_indexes ;;
     if listed PINECONE_INDEX names then
       _ <- call (OpenIndex PINECONE_INDEX) pinecone_Index ;;
       stats <- call DescribeIndexStats describe_index_stats ;;
       ret (active stats)
     else ret index_not_found)
    (fun e => ret (error (str_exn e))).     (* logged *)

(** [GET /bootstrap/status]: the body of the response and its status. *)
Definition get_status_route (construct : M (list event) unit)
    : M (list event) (value * Z) :=
  try_except
    (_ <- construct ;;
     status <- get_status ;;
     ret (status, 200))
    (fun e => ret (SearchRoutes.error_body (str_exn e), 500)).
End Service.
End BootstrapIndex.

(** * Observations and examples

    What the properties below read off the results, and small concrete
    inputs. *)

(** A text of a given length, for concrete runs. *)
Fixpoint text_of_length (n : nat) : string :=
  match n with
  | O => ""
  | S n' => String "a" (text_of_length n')
  end.

(** The number of chunks of a text of length [len] with chunk size [cs]:
    the loop advances [start] by [cs] per chunk, whatever the overlap. *)
Definition chunk_count (cs len start : Z) : nat :=
  Z.to_nat ((len - start + cs - 1) / cs).

(** The position fields and the lengths of a list of chunks. *)
Definition chunk_starts (chunks : list pydict) : list (option value) :=
  map (DocumentService.chunk_field "chunk_start") chunks.
Definition chunk_ends (chunks : list pydict) : list (option value) :=
  map (DocumentService.chunk_field "chunk_end") chunks.
Definition chunk_indexes (chunks : list pydict) : list (option value) :=
  map (DocumentService.chunk_field "chunk_index") chunks.
Definition chunk_first_flags (chunks : list pydict) : list (option value) :=
  map (DocumentService.chunk_field "is_first_chunk") chunks.
Definition chunk_lengths (chunks : list pydict) : list Z :=
  map (fun c => py_len (DocumentService.chunk_content c)) chunks.

(** The documents of a listing, one file after the other. *)
Definition loaded (pdf_dir : string) (read_pdf : string -> result string)
    (catalog : list pydict) (names : list string) : list pydict :=
  omap id (map (fun f => DocumentService.process_single_document pdf_dir read_pdf f catalog)
             (filter (fun f => endswith f ".pdf" = true) names)).

(** The documents of the result that come from the file [f]. *)
Definition documents_of (f : string) (docs : list pydict) : list pydict :=
  filter (fun d => DocumentService.document_filename d = Some f) docs.

(** A small directory: [a.pdf] is in the catalog and readable, [b.pdf] has
    no catalog entry, [c.pdf] is in the catalog but unreadable. *)
Definition example_catalog : list pydict :=
  [ {[ "filename" := VStr "a.pdf"; "case" := VStr "A v B"; "year" := VInt 1999 ]};
    {[ "filename" := VStr "c.pdf"; "case" := VStr "C v D" ]} ].
Definition example_names : list string := ["a.pdf"; "b.pdf"; "c.pdf"; "notes.txt"].
Definition example_read_pdf (path : string) : result string :=
  if String.eqb path "pdfs/a.pdf" then Ok "text of a"
  else Raise (ValueError "EOF marker not found").

(** A small ingestion run: three chunks of one document, an index that
    answers every call, an embedding endpoint that returns one embedding
    per text, and a clock that reads 42. *)
Module IngestionExample.
Import BootstrapService.

Definition index : value := VIndex "cases".
Definition chunk (id text : string) : pydict :=
  {[ "chunk_id" := VStr id; "context" := VStr text; "content" := VStr text;
     "metadata" := VDict {[ "filename" := VStr "a.pdf" ]} ]}.
Definition c1 : pydict := chunk "id1" "one".
Definition c2 : pydict := chunk "id2" "two".

(** The vector [process_chunks_to_vectors] builds for such a chunk. *)
Definition vector (id text : string) : value :=
  VDict {[ "id" := VStr id;
           "values" := VList [VStr text];
           "metadata" := VDict
             (<["processed_at" := VFloat 42]>
              (<["content" := VStr text]> {[ "filename" := VStr "a.pdf" ]})) ]}.

Definition no_error : list event -> list value -> option exn := fun _ _ => None.
Definition fetch_fails : list event -> list value -> option exn :=
  fun _ _ => Some (ProviderError "connection reset").
Definition embed_ok : list event -> list value -> result (list value) :=
  fun _ texts => Ok (map (fun t => VList [t]) texts).
(** The first embedding call of a run fails, the later ones succeed. *)
Definition embed_fails_first : list event -> list value -> result (list value) :=
  fun t texts =>
    match embedding_calls t with
    | O => Raise (ProviderError "rate limit exceeded")
    | S _ => embed_ok t texts
    end.
Definition clock : list event -> Z := fun _ => 42.

Definition empty_index : world := {| store := ∅; trace := [] |}.

(** The existence check called with both of its arguments. This is not
    the call [process_chunks_to_vectors] makes, which passes the chunk id
    alone: it serves to look at the loops behind that call. *)
Definition check (fetch_error : list event -> list value -> option exn)
    : value -> M world bool :=
  fun chunk_id => check_embedding_status fetch_error chunk_id index.

(** The chunks [create_chunks] makes of a short text. *)
Definition pipeline_chunks : list pydict :=
  default [] (DocumentService.create_chunks 2 0 (fun i => "id" +:+ pretty i)
                5 "abcd" {[ "filename" := VStr "a.pdf" ]}).
End IngestionExample.

(** A small search: an empty cache of three entries that live 60 ticks, an
    embedding endpoint that answers in 2 ticks and an index that returns
    one match in 3 ticks. *)
Module SearchExample.
Import SearchService.

Definition embedding : value := VList [VFloat 1; VFloat 2].
Definition openai_embedding : list event -> string -> result value * Z :=
  fun _ _ => (Ok embedding, 2).
(** An endpoint that answers with an empty embedding. *)
Definition openai_empty : list event -> string -> result value * Z :=
  fun _ _ => (Ok (VList []), 2).
Definition a_match : index_match :=
  {| match_metadata := {[ "content" := VStr "the contract was breached";
                          "case" := VStr "A v B"; "year" := VInt 1999 ]};
     match_score := VFloat 87 |}.
Definition index_query : list event -> value -> Z -> result (list index_match) * Z :=
  fun _ _ _ => (Ok [a_match], 3).
Definition index_stats : list event -> result unit * Z := fun _ => (Ok tt, 1).
Definition format_seconds (elapsed : Z) : string := pretty elapsed +:+ "s".

Definition start : world :=
  {| cache := {| TTLCache.maxsize := 3; TTLCache.ttl := 60; TTLCache.entries := [] |};
     semaphore_value := 5;
     now := 100;
     trace := [] |}.

Definition query : string := "breach of contract".

(** The response to the first search, and the world it leaves. *)
Definition response : value :=
  make_response format_seconds [format_match a_match] 5.
Definition after_first : world :=
  {| cache := {| TTLCache.maxsize := 3; TTLCache.ttl := 60;
                 TTLCache.entries :=
                   [ {| TTLCache.key := "breach of contract:3";
                        TTLCache.val := response;
                        TTLCache.expires := 165 |} ] |};
     semaphore_value := 5;
     now := 105;
     trace := [EmbeddingCreate query; IndexQuery embedding 3] |}.
(** The same world 45 ticks later. *)
Definition later : world :=
  {| cache := cache after_first; semaphore_value := 5; now := 150;
     trace := trace after_first |}.
End SearchExample.

(** Whether every character of a string satisfies a test; the characters
    of a printed integer; every character but the colon. *)
Fixpoint all_chars (P : ascii -> bool) (s : string) : bool :=
  match s with
  | EmptyString => true
  | String c s' => P c && all_chars P s'
  end.

Definition digit_or_dash (c : ascii) : bool :=
  existsb (Ascii.eqb c) ["0";"1";"2";"3";"4";"5";"6";"7";"8";"9";"-"]%char.

Definition not_colon (c : ascii) : bool := negb (Ascii.eqb c ":").

(** A chunk whose id is in the store. *)
Definition is_stored (s : gmap string value) (c : pydict) : Prop :=
  exists k v, c !! "chunk_id" = Some (VStr k) /\ s !! k = Some v.

(** The second world has the store of the first one and no more
    embedding calls or upserts: only fetches were made in between. *)
Definition only_fetched (w w' : BootstrapService.world) : Prop :=
  BootstrapService.store w' = BootstrapService.store w
  /\ BootstrapService.embedding_calls (BootstrapService.trace w')
     = BootstrapService.embedding_calls (BootstrapService.trace w)
  /\ BootstrapService.upsert_calls (BootstrapService.trace w')
     = BootstrapService.upsert_calls (BootstrapService.trace w).

(** The start offset [create_chunks] records for the chunk of index [i]. *)
Definition chunk_start_at (cs ov i : Z) : Z :=
  if 0 <? i * cs then i * cs - ov else i * cs.

(** The chunk [create_chunks] makes for index [i]. *)
Definition chunk_at (cs ov : Z) (uuid4 : Z -> string) (text : string)
    (meta : pydict) (i : Z) : pydict :=
  DocumentService.make_chunk uuid4 meta
    (py_slice text (chunk_start_at cs ov i) ((i + 1) * cs))
    i (chunk_start_at cs ov i) ((i + 1) * cs).

(** [s[n:]] *)
Definition py_tail (s : string) (n : Z) : string := py_slice s n (py_len s).

(** ["".join(l)] *)
Definition string_concat (l : list string) : string := foldr String.append "" l.

(** The text put back together from its chunks: the first chunk, then
    every later chunk without its first [ov] characters. *)
Definition reassemble (ov : Z) (chunks : list pydict) : string :=
  match chunks with
  | [] => ""
  | c0 :: rest =>
      DocumentService.chunk_content c0
      +:+ string_concat
            (map (fun c => py_tail (DocumentService.chunk_content c) ov) rest)
  end.

(** The keys [create_chunks] writes into the metadata of every chunk. *)
Definition position_keys : list string :=
  ["chunk_index"; "is_first_chunk"; "chunk_start"; "chunk_end"].

(** A catalog entry that names another file than [f]. *)
Definition names_other_file (f : string) (m : pydict) : Prop :=
  exists v, m !! "filename" = Some v /\ v <> VStr f.

(** A short text split with chunk size 2 and overlap 1. *)
Definition example_uuid4 (i : Z) : string := "id" +:+ pretty i.
Definition example_meta : pydict := {[ "filename" := VStr "a.pdf"; "year" := VInt 1999 ]}.
Definition example_chunks : list pydict :=
  default [] (DocumentService.create_chunks 2 1 example_uuid4 6 "abcde" example_meta).

(** A catalog with two entries for [a.pdf], and one whose second entry has
    no [filename]. *)
Definition catalog_with_duplicate : list pydict :=
  [ {[ "filename" := VStr "b.pdf"; "case" := VStr "B v C" ]};
    {[ "filename" := VStr "a.pdf"; "case" := VStr "first" ]};
    {[ "filename" := VStr "a.pdf"; "case" := VStr "second" ]} ].
Definition catalog_with_bad_entry : list pydict :=
  [ {[ "filename" := VStr "b.pdf"; "case" := VStr "B v C" ]};
    {[ "case" := VStr "no file name" ]};
    {[ "filename" := VStr "a.pdf"; "case" := VStr "A v B" ]} ].

(** The chunks [process_chunks_in_batches] keeps for the document at
    position [pos]: those [create_chunks] returns, none when it raises. *)
Definition document_chunks (cs ov : Z) (uuid4 : nat -> Z -> string)
    (fuel : nat) (pos : nat) (doc : pydict) : list pydict :=
  match doc !! "content", doc !! "metadata" with
  | Some content, Some metadata =>
      match DocumentPipeline.create_chunks_any cs ov (uuid4 pos) fuel
              content metadata with
      | Some (Ok chunks) => chunks
      | _ => []
      end
  | _, _ => []
  end.

Fixpoint all_document_chunks (cs ov : Z) (uuid4 : nat -> Z -> string)
    (fuel : nat) (pos : nat) (docs : list pydict) : list pydict :=
  match docs with
  | [] => []
  | doc :: rest =>
      document_chunks cs ov uuid4 fuel pos doc
      ++ all_document_chunks cs ov uuid4 fuel (S pos) rest
  end.

(** A document that has both keys and whose call of [create_chunks]
    ends, by returning or by raising. *)
Definition submittable (cs ov : Z) (uuid4 : nat -> Z -> string)
    (fuel : nat) (pos : nat) (doc : pydict) : Prop :=
  exists content metadata r,
    doc !! "content" = Some content
    /\ doc !! "metadata" = Some metadata
    /\ DocumentPipeline.create_chunks_any cs ov (uuid4 pos) fuel content metadata
       = Some r.

(** A document that has the two keys [process_chunks_in_batches] reads. *)
Definition has_document_keys (doc : pydict) : Prop :=
  is_Some (doc !! "content") /\ is_Some (doc !! "metadata").

(** Three documents: one with a text, one whose content is [None], one
    with a short text; and a list whose second document has no content. *)
Definition example_uuid4_at (pos : nat) (i : Z) : string :=
  "doc" +:+ pretty pos +:+ "-" +:+ pretty i.
Definition example_documents : list pydict :=
  [ DocumentService.make_document "abcde" example_meta;
    {[ "content" := VNone; "metadata" := VDict example_meta ]};
    DocumentService.make_document "xy" example_meta ].
Definition documents_without_content : list pydict :=
  [ DocumentService.make_document "abcde" example_meta;
    {[ "metadata" := VDict example_meta ]} ].

(** ** Observations of the ingestion loops *)

(** The value of the local variable [vector] after the loop over the
    pairs of a batch, when a vector was built for every pair. *)
Definition last_assigned (vector : option value) (made : list value) : option value :=
  match last made with
  | Some v => Some v
  | None => vector
  end.

(** [vectors.append(vector)], when the variable is bound. *)
Definition appended (vectors : list value) (vector : option value) : list value :=
  match vector with
  | Some v => vectors ++ [v]
  | None => vectors
  end.

(** An index that refuses the upsert of a single vector. *)
Definition upsert_fails_on_single : list BootstrapService.event -> list value -> option exn :=
  fun _ b => match b with [_] => Some (ProviderError "write failed") | _ => None end.

(** A chunk that has a text to embed and no [content]. *)
Definition chunk_without_content : pydict :=
  {[ "chunk_id" := VStr "id9"; "context" := VStr "nine";
     "metadata" := VDict {[ "filename" := VStr "a.pdf" ]} ]}.

(** ** Observations of the index administration *)

(** The creations of an index asked for so far. *)
Definition creations (t : list BootstrapIndex.event)
    : list (option string * Z * string) :=
  flat_map (fun ev => match ev with
                      | BootstrapIndex.CreateIndex n d m => [(n, d, m)]
                      | _ => []
                      end) t.

(** ** Observations for the revised claims *)

(** An embedding endpoint that refuses every batch. *)
Definition embed_fails : list BootstrapService.event -> list value -> result (list value) :=
  fun _ _ => Raise (ProviderError "rate limit exceeded").

(** The same service [d] ticks later: nothing but the clock has moved. *)
Definition later_by (d : Z) (w : SearchService.world) : SearchService.world :=
  {| SearchService.cache := SearchService.cache w;
     SearchService.semaphore_value := SearchService.semaphore_value w;
     SearchService.now := SearchService.now w + d;
     SearchService.trace := SearchService.trace w |}.

(** A configuration that declares the default the spec speaks of. *)
Definition config_with_default_top_k (k : Z) : Config.t :=
  {| Config.CHUNK_SIZE := Config.CHUNK_SIZE Config.default;
     Config.CHUNK_OVERLAP := Config.CHUNK_OVERLAP Config.default;
     Config.MAX_SEARCH_RESULTS := Config.MAX_SEARCH_RESULTS Config.default;
     Config.MAX_CONCURRENT_SEARCHES := Config.MAX_CONCURRENT_SEARCHES Config.default;
     Config.SEARCH_TIMEOUT := Config.SEARCH_TIMEOUT Config.default;
     Config.CACHE_SIZE := Config.CACHE_SIZE Config.default;
     Config.CACHE_TTL := Config.CACHE_TTL Config.default;
     Config.MAX_WORKERS := Config.MAX_WORKERS Config.default;
     Config.BATCH_SIZE := Config.BATCH_SIZE Config.default;
     Config.EMBEDDING_BATCH_SIZE := Config.EMBEDDING_BATCH_SIZE Config.default;
     Config.DEFAULT_TOP_K := Some k |}.

(** The world after a sequence of searches, one after the other. *)
Definition after_searches (config : Config.t)
    (requests : list (string * option Z)) (w : SearchService.world)
    : SearchService.world :=
  foldl (fun w rq =>
           snd (SearchService._execute_search config
                  SearchExample.openai_embedding SearchExample.index_query
                  SearchExample.format_seconds (fst rq) (snd rq) w))
        w requests.

(** * Properties *)

(** ** Slicing *)

Lemma length_substring (s : string) (n m : nat) :
  String.length (substring n m s) = Nat.min m (String.length s - n).
Proof.
  revert n m.
  induction s as [|c s IH]; intros [|n] [|m];
    cbn [substring String.length]; rewrite ?IH; lia.
Qed.

Lemma py_len_slice (s : string) (start stop : Z) :
  0 <= start -> start <= stop ->
  py_len (py_slice s start stop) = Z.min stop (py_len s) - Z.min start (py_len s).
Proof.
  intros Hs Hst. unfold py_slice, py_len, slice_bound.
  rewrite length_substring.
  destruct (Z.ltb_spec start 0); [lia|].
  destruct (Z.ltb_spec stop 0); lia.
Qed.

Lemma length_text_of_length n : String.length (text_of_length n) = n.
Proof. induction n; simpl; congruence. Qed.

(** ** ChunkSplitter: [create_chunks] *)
Section ChunkProperties.
Import DocumentService.
Variable uuid4 : Z -> string.

Lemma create_chunks_loop_step cs ov fuel text meta start idx chunks :
  start < py_len text ->
  create_chunks_loop cs ov uuid4 (S fuel) text meta start idx chunks =
  create_chunks_loop cs ov uuid4 fuel text meta (start + cs) (idx + 1)
    (chunks ++ [make_chunk uuid4 meta
                  (py_slice text (if 0 <? start then start - ov else start) (start + cs))
                  idx (if 0 <? start then start - ov else start) (start + cs)]).
Proof.
  intros H. simpl. destruct (Z.ltb_spec start (py_len text)); [reflexivity|lia].
Qed.

Lemma create_chunks_loop_stop cs ov fuel text meta start idx chunks :
  py_len text <= start ->
  create_chunks_loop cs ov uuid4 (S fuel) text meta start idx chunks = Some chunks.
Proof.
  intros H. simpl. destruct (Z.ltb_spec start (py_len text)); [lia|reflexivity].
Qed.

Lemma chunk_field_make_chunk meta txt idx start end_ :
  chunk_field "chunk_start" (make_chunk uuid4 meta txt idx start end_) = Some (VInt start)
  /\ chunk_field "chunk_end" (make_chunk uuid4 meta txt idx start end_) = Some (VInt end_)
  /\ chunk_field "chunk_index" (make_chunk uuid4 meta txt idx start end_) = Some (VInt idx)
  /\ chunk_field "is_first_chunk" (make_chunk uuid4 meta txt idx start end_)
     = Some (VBool (idx =? 0))
  /\ chunk_content (make_chunk uuid4 meta txt idx start end_) = txt.
Proof.
  unfold chunk_field, chunk_meta, chunk_content, make_chunk.
  repeat split; by simplify_map_eq.
Qed.

Lemma chunk_count_step cs len start :
  0 < cs -> start < len ->
  chunk_count cs len start = S (chunk_count cs len (start + cs)).
Proof.
  intros Hcs Hlt. unfold chunk_count.
  replace (len - start + cs - 1) with ((len - (start + cs) + cs - 1) + 1 * cs) by lia.
  rewrite Z.div_add by lia.
  assert (0 <= (len - (start + cs) + cs - 1) / cs).
  { apply Z.div_pos; lia. }
  lia.
Qed.

Lemma chunk_count_stop cs len start :
  0 < cs -> len <= start -> chunk_count cs len start = O.
Proof.
  intros Hcs Hle. unfold chunk_count.
  assert ((len - start + cs - 1) / cs <= 0); [|lia].
  destruct (Z.le_gt_cases 0 (len - start + cs - 1)).
  - rewrite Z.div_small; lia.
  - assert ((len - start + cs - 1) / cs < 0); [|lia].
    apply Z.div_lt_upper_bound; lia.
Qed.

(** With a positive chunk size the loop ends, whatever the overlap, and
    adds one chunk per stride. *)
Lemma create_chunks_loop_terminates cs ov text meta :
  0 < cs ->
  forall fuel start idx chunks,
    (Z.to_nat (py_len text - start) < fuel)%nat ->
    exists added,
      create_chunks_loop cs ov uuid4 fuel text meta start idx chunks
        = Some (chunks ++ added)
      /\ length added = chunk_count cs (py_len text) start.
Proof.
  intros Hcs fuel. induction fuel as [|fuel IH]; intros start idx chunks Hf; [lia|].
  destruct (Z.lt_ge_cases start (py_len text)) as [Hlt|Hge].
  - rewrite create_chunks_loop_step by assumption.
    destruct (IH (start + cs) (idx + 1)
                (chunks ++ [make_chunk uuid4 meta
                  (py_slice text (if 0 <? start then start - ov else start) (start + cs))
                  idx (if 0 <? start then start - ov else start) (start + cs)]))
      as (added & Heq & Hlen); [lia|].
    eexists (_ :: added). split.
    + rewrite Heq. rewrite <- app_assoc. reflexivity.
    + simpl. rewrite Hlen. symmetry. apply chunk_count_step; assumption.
  - rewrite create_chunks_loop_stop by assumption.
    exists []. split; [by rewrite app_nil_r|].
    simpl. symmetry. apply chunk_count_stop; assumption.
Qed.
(** What does keep the loop from ending is a chunk size that is not
    positive: on a text that is not empty no amount of fuel is enough. *)
Lemma create_chunks_loop_diverges cs ov text meta :
  cs <= 0 ->
  forall fuel start idx chunks,
    start < py_len text ->
    create_chunks_loop cs ov uuid4 fuel text meta start idx chunks = None.
Proof.
  intros Hcs fuel. induction fuel as [|fuel IH]; intros start idx chunks Hlt;
    [reflexivity|].
  rewrite create_chunks_loop_step by assumption. apply IH. lia.
Qed.
End ChunkProperties.

Section ChunkExamples.
Import DocumentService.

(** The run of [create_chunks] on a text of 2500 characters with the
    configured sizes, iteration by iteration. *)
Lemma create_chunks_2500_run uuid4 text meta fuel :
  py_len text = 2500 -> (4 <= fuel)%nat ->
  create_chunks 1000 200 uuid4 fuel text meta =
  Some [ make_chunk uuid4 meta (py_slice text 0 1000) 0 0 1000;
         make_chunk uuid4 meta (py_slice text 800 2000) 1 800 2000;
         make_chunk uuid4 meta (py_slice text 1800 3000) 2 1800 3000 ].
Proof.
  intros Hlen Hfuel.
  destruct fuel as [|[|[|[|fuel]]]]; try lia.
  unfold create_chunks.
  rewrite create_chunks_loop_step by lia.
  rewrite create_chunks_loop_step by lia.
  rewrite create_chunks_loop_step by lia.
  rewrite create_chunks_loop_stop by lia.
  reflexivity.
Qed.

Lemma create_chunks_2500_fields uuid4 text meta :
  py_len text = 2500 ->
  let chunks :=
    [ make_chunk uuid4 meta (py_slice text 0 1000) 0 0 1000;
      make_chunk uuid4 meta (py_slice text 800 2000) 1 800 2000;
      make_chunk uuid4 meta (py_slice text 1800 3000) 2 1800 3000 ] in
  chunk_starts chunks = [Some (VInt 0); Some (VInt 800); Some (VInt 1800)]
  /\ chunk_ends chunks = [Some (VInt 1000); Some (VInt 2000); Some (VInt 3000)]
  /\ chunk_lengths chunks = [1000; 1200; 700]
  /\ chunk_indexes chunks = [Some (VInt 0); Some (VInt 1); Some (VInt 2)]
  /\ chunk_first_flags chunks
     = [Some (VBool true); Some (VBool false); Some (VBool false)].
Proof.
  intros Hlen chunks. subst chunks.
  unfold chunk_starts, chunk_ends, chunk_lengths, chunk_indexes, chunk_first_flags.
  cbn [map].
  repeat match goal with
  | |- context [chunk_field _ (make_chunk ?u ?m ?t ?i ?s ?e)] =>
      let H := fresh in
      pose proof (chunk_field_make_chunk u m t i s e) as H;
      destruct H as (-> & -> & -> & -> & _)
  end.
  repeat match goal with
  | |- context [chunk_content (make_chunk ?u ?m ?t ?i ?s ?e)] =>
      let H := fresh in
      pose proof (chunk_field_make_chunk u m t i s e) as H;
      destruct H as (_ & _ & _ & _ & ->)
  end.
  rewrite !py_len_slice by lia. rewrite Hlen.
  repeat split; reflexivity.
Qed.
End ChunkExamples.

(** C3, as amended. For every text of 2500 characters, [create_chunks] with
    chunk size 1000 and overlap 200 returns three chunks whose start
    offsets are 0, 800 and 1800 (each later start is the previous end minus
    the overlap, each end is the previous end plus the chunk size), whose
    lengths are 1000, 1200 and 700 (at most chunk size plus overlap), with
    [is_first_chunk] true only for index 0 and [chunk_index] 0, 1, 2. *)
Theorem create_chunks_2500 (uuid4 : Z -> string) (text : string)
    (meta : pydict) (fuel : nat) :
  py_len text = 2500 -> (4 <= fuel)%nat ->
  exists chunks,
    DocumentService.create_chunks 1000 200 uuid4 fuel text meta = Some chunks
    /\ chunk_starts chunks = [Some (VInt 0); Some (VInt 800); Some (VInt 1800)]
    /\ chunk_ends chunks = [Some (VInt 1000); Some (VInt 2000); Some (VInt 3000)]
    /\ chunk_lengths chunks = [1000; 1200; 700]
    /\ Forall (fun n => n <= 1000 + 200) (chunk_lengths chunks)
    /\ chunk_indexes chunks = [Some (VInt 0); Some (VInt 1); Some (VInt 2)]
    /\ chunk_first_flags chunks
       = [Some (VBool true); Some (VBool false); Some (VBool false)].
Proof.
  intros Hlen Hfuel. eexists. split.
  - apply create_chunks_2500_run; assumption.
  - destruct (create_chunks_2500_fields uuid4 text meta Hlen)
      as (Hs & He & Hl & Hi & Hf).
    repeat split; try assumption.
    rewrite Hl. repeat constructor; lia.
Qed.

Lemma create_chunks_2500_witness :
  py_len (text_of_length 2500) = 2500 /\ (4 <= 4)%nat /\
  exists chunks,
    DocumentService.create_chunks 1000 200 (fun _ => "id") 4
      (text_of_length 2500) ∅ = Some chunks
    /\ chunk_starts chunks = [Some (VInt 0); Some (VInt 800); Some (VInt 1800)]
    /\ chunk_ends chunks = [Some (VInt 1000); Some (VInt 2000); Some (VInt 3000)]
    /\ chunk_lengths chunks = [1000; 1200; 700]
    /\ Forall (fun n => n <= 1000 + 200) (chunk_lengths chunks)
    /\ chunk_indexes chunks = [Some (VInt 0); Some (VInt 1); Some (VInt 2)]
    /\ chunk_first_flags chunks
       = [Some (VBool true); Some (VBool false); Some (VBool false)].
Proof.
  split; [vm_compute; reflexivity|]. split; [lia|].
  apply (create_chunks_2500 (fun _ => "id") (text_of_length 2500) ∅ 4);
    [vm_compute; reflexivity | lia].
Defined.

(** C3 as stated fails on a text of 2500 characters: the third chunk
    starts at 1800, not 1600, and the second chunk is 1200 characters
    long, more than the chunk size. *)
Lemma create_chunks_2500_counterexample :
  exists chunks,
    DocumentService.create_chunks 1000 200 (fun _ => "id") 4
      (text_of_length 2500) ∅ = Some chunks
    /\ chunk_starts chunks <> [Some (VInt 0); Some (VInt 800); Some (VInt 1600)]
    /\ ~ Forall (fun n => n <= 1000) (chunk_lengths chunks).
Proof.
  assert (Hlen : py_len (text_of_length 2500) = 2500) by (vm_compute; reflexivity).
  eexists. split; [apply create_chunks_2500_run; [exact Hlen | lia]|].
  destruct (create_chunks_2500_fields (fun _ => "id") (text_of_length 2500) ∅ Hlen)
    as (Hs & _ & Hl & _).
  split.
  - rewrite Hs. discriminate.
  - rewrite Hl. intros HF.
    inversion HF as [|? ? _ HF1]. inversion HF1 as [|? ? Hbad _]. lia.
Qed.

(** C6, as amended. [create_chunks] validates nothing: with a positive
    chunk size and an overlap that is at least the chunk size it raises no
    error, ends (any fuel above the length of the text is enough) and
    returns one chunk per stride of the chunk size, so at least one chunk
    for a text that is not empty; on the empty text it returns no chunk,
    whatever the sizes. *)
Theorem create_chunks_overlap_not_rejected (uuid4 : Z -> string)
    (meta : pydict) :
  (forall cs ov text fuel,
      0 < cs -> cs <= ov -> (String.length text < fuel)%nat ->
      exists chunks,
        DocumentService.create_chunks cs ov uuid4 fuel text meta = Some chunks
        /\ length chunks = chunk_count cs (py_len text) 0
        /\ (text <> "" -> chunks <> []))
  /\ (forall cs ov fuel,
        DocumentService.create_chunks cs ov uuid4 (S fuel) "" meta = Some []).
Proof.
  split.
  - intros cs ov text fuel Hcs _ Hfuel.
    destruct (create_chunks_loop_terminates uuid4 cs ov text meta Hcs fuel 0 0 [])
      as (added & Heq & Hlen).
    { unfold py_len. lia. }
    exists added. split; [exact Heq|]. split; [exact Hlen|].
    intros Hne ->. simpl in Hlen.
    rewrite chunk_count_step in Hlen; [discriminate|assumption|].
    unfold py_len. destruct text; [congruence|simpl; lia].
  - intros cs ov fuel. reflexivity.
Qed.

Lemma create_chunks_overlap_not_rejected_witness :
  0 < 2 /\ 2 <= 3 /\ (String.length "abcde" < 6)%nat /\
  exists chunks,
    DocumentService.create_chunks 2 3 (fun _ => "id") 6 "abcde" ∅ = Some chunks
    /\ length chunks = chunk_count 2 (py_len "abcde") 0
    /\ ("abcde" <> "" -> chunks <> []).
Proof.
  split; [lia|]. split; [lia|]. split; [simpl; lia|].
  apply (proj1 (create_chunks_overlap_not_rejected (fun _ => "id") ∅) 2 3 "abcde" 6%nat);
    [lia | lia | simpl; lia].
Defined.

(** C6 as stated fails: with chunk size 2 and overlap 3 the text "abcde" is
    split into three chunks and nothing is raised. *)
Lemma create_chunks_overlap_counterexample :
  exists chunks,
    DocumentService.create_chunks 2 3 (fun _ => "id") 6 "abcde" ∅ = Some chunks
    /\ map DocumentService.chunk_content chunks = ["ab"; ""; "bcde"]
    /\ chunks <> [].
Proof.
  eexists. split; [vm_compute; reflexivity|].
  split; [vm_compute; reflexivity | discriminate].
Qed.

(** ** DocumentLoader: [process_single_document], [process_documents_parallel] *)
Section LoaderProperties.
Import DocumentService.
Variable pdf_dir : string.
Variable read_pdf : string -> result string.

Lemma is_filename_true v f : is_filename v f = true <-> v = VStr f.
Proof.
  destruct v; simpl; try (split; [discriminate|congruence]).
  rewrite String.eqb_eq. split; congruence.
Qed.

(** A catalog entry is found only by an exact match of its [filename]. *)
Lemma find_metadata_some (catalog : list pydict) f m :
  find_metadata catalog f = Ok (Some m) ->
  m ∈ catalog /\ m !! "filename" = Some (VStr f).
Proof.
  induction catalog as [|m0 rest IH]; simpl; [discriminate|].
  unfold getitem. destruct (m0 !! "filename") as [v|] eqn:Hv; [|discriminate].
  destruct (is_filename v f) eqn:Hf.
  - intros [= <-]. apply is_filename_true in Hf. subst v.
    split; [left | assumption].
  - intros H. destruct (IH H) as [Hin Hk]. split; [by right | assumption].
Qed.

Lemma truthy_dict_lookup (d : pydict) k v : d !! k = Some v -> truthy (VDict d) = true.
Proof.
  intros H. simpl. destruct (map_to_list d) eqn:Hl; [|reflexivity].
  apply map_to_list_empty_iff in Hl. subst d. by rewrite lookup_empty in H.
Qed.

Lemma process_single_document_some (catalog : list pydict) f d :
  process_single_document pdf_dir read_pdf f catalog = Some d <->
  exists m text,
    endswith f ".pdf" = true
    /\ find_metadata catalog f = Ok (Some m)
    /\ read_pdf (path_join pdf_dir f) = Ok text
    /\ d = make_document text m.
Proof.
  unfold process_single_document, load_pdf_content. split.
  - destruct (endswith f ".pdf"); simpl; [|discriminate].
    destruct (find_metadata catalog f) as [[m|]|] eqn:Hfind; try discriminate.
    destruct (match map_to_list m with [] => false | _ => true end);
      simpl; [|discriminate].
    destruct (read_pdf (path_join pdf_dir f)) as [text|] eqn:Hread; [|discriminate].
    intros [= <-]. eauto 10.
  - intros (m & text & -> & Hfind & Hread & ->). simpl. rewrite Hfind.
    destruct (find_metadata_some _ _ _ Hfind) as [_ Hk].
    pose proof (truthy_dict_lookup _ _ _ Hk) as Ht. simpl in Ht. rewrite Ht.
    simpl. rewrite Hread. reflexivity.
Qed.

Lemma document_filename_make text m f :
  m !! "filename" = Some (VStr f) ->
  document_filename (make_document text m) = Some f.
Proof.
  intros H. unfold document_filename, make_document.
  simplify_map_eq. reflexivity.
Qed.

Lemma loaded_cons catalog f names :
  loaded pdf_dir read_pdf catalog (f :: names) =
  match process_single_document pdf_dir read_pdf f catalog with
  | Some d => d :: loaded pdf_dir read_pdf catalog names
  | None => loaded pdf_dir read_pdf catalog names
  end.
Proof.
  unfold loaded. rewrite filter_cons.
  destruct (decide (endswith f ".pdf" = true)) as [He|He]; simpl.
  - destruct (process_single_document pdf_dir read_pdf f catalog); reflexivity.
  - unfold process_single_document.
    destruct (endswith f ".pdf"); [congruence|]. reflexivity.
Qed.

Lemma elem_of_loaded catalog names d :
  d ∈ loaded pdf_dir read_pdf catalog names <->
  exists f, f ∈ names /\ process_single_document pdf_dir read_pdf f catalog = Some d.
Proof.
  induction names as [|f names IH].
  - split; [intros H; inversion H | intros (f & H & _); inversion H].
  - rewrite loaded_cons.
    destruct (process_single_document pdf_dir read_pdf f catalog) as [d0|] eqn:Hf.
    + rewrite elem_of_cons, IH. split.
      * intros [-> | (f' & Hin & Hd)]; [exists f | exists f']; split;
          try assumption; [left | by right].
      * intros (f' & Hin & Hd). apply elem_of_cons in Hin as [-> | Hin].
        -- left. congruence.
        -- right. eauto.
    + rewrite IH. split.
      * intros (f' & Hin & Hd). exists f'. split; [by right | assumption].
      * intros (f' & Hin & Hd). apply elem_of_cons in Hin as [-> | Hin];
          [congruence | eauto].
Qed.

Lemma process_single_document_filename catalog f d :
  process_single_document pdf_dir read_pdf f catalog = Some d ->
  document_filename d = Some f.
Proof.
  intros H. apply process_single_document_some in H
    as (m & text & _ & Hfind & _ & ->).
  apply document_filename_make.
  destruct (find_metadata_some _ _ _ Hfind) as [_ Hk]. exact Hk.
Qed.

Lemma documents_of_loaded catalog names f :
  NoDup names ->
  documents_of f (loaded pdf_dir read_pdf catalog names) =
  match process_single_document pdf_dir read_pdf f catalog with
  | Some d => if decide (f ∈ names) then [d] else []
  | None => []
  end.
Proof.
  unfold documents_of. induction 1 as [|f0 names Hnotin Hnd IH].
  - destruct (process_single_document pdf_dir read_pdf f catalog); reflexivity.
  - rewrite loaded_cons.
    destruct (process_single_document pdf_dir read_pdf f0 catalog) as [d0|] eqn:Hf0.
    + pose proof (process_single_document_filename _ _ _ Hf0) as Hname.
      rewrite filter_cons. destruct (decide (f0 = f)) as [->|Hne].
      * rewrite decide_True by assumption. rewrite IH, Hf0.
        rewrite decide_False by assumption.
        rewrite decide_True by left. reflexivity.
      * rewrite decide_False by congruence. rewrite IH.
        destruct (process_single_document pdf_dir read_pdf f catalog); [|reflexivity].
        destruct (decide (f ∈ names)) as [Hin|Hin].
        -- rewrite decide_True by (by right). reflexivity.
        -- rewrite decide_False; [reflexivity|].
           intros [?|?]%elem_of_cons; congruence.
    + rewrite IH.
      destruct (process_single_document pdf_dir read_pdf f catalog) eqn:Hf;
        [|reflexivity].
      destruct (decide (f ∈ names)) as [Hin|Hin].
      * rewrite decide_True by (by right). reflexivity.
      * rewrite decide_False; [reflexivity|].
        intros [?|?]%elem_of_cons; congruence.
Qed.
End LoaderProperties.

(** C9. For every catalog and every listing of the directory (a listing
    names each file once): a document is in the result exactly when its
    file is a listed PDF, the catalog has an entry whose [filename] is
    exactly the name of the file, and the extraction of its text succeeded,
    and it then carries the extracted text and that whole entry; a file
    without such an entry, or whose extraction raised, contributes no
    document and changes nothing for the other files; and each loaded file
    has exactly one document in the result. *)
Theorem process_documents_parallel_result (pdf_dir : string)
    (read_pdf : string -> result string) (catalog : list pydict)
    (names : list string) :
  NoDup names ->
  exists docs,
    DocumentService.process_documents_parallel pdf_dir read_pdf
      (Ok catalog) (Ok names) = Ok docs
    /\ (forall d, d ∈ docs <->
          exists f m text,
            f ∈ names
            /\ endswith f ".pdf" = true
            /\ DocumentService.find_metadata catalog f = Ok (Some m)
            /\ m ∈ catalog /\ m !! "filename" = Some (VStr f)
            /\ read_pdf (DocumentService.path_join pdf_dir f) = Ok text
            /\ d = DocumentService.make_document text m)
    /\ (forall f,
          (forall m, m ∈ catalog -> m !! "filename" <> Some (VStr f)) ->
          documents_of f docs = [])
    /\ (forall f e,
          read_pdf (DocumentService.path_join pdf_dir f) = Raise e ->
          documents_of f docs = [])
    /\ (forall f m text,
          f ∈ names ->
          endswith f ".pdf" = true ->
          DocumentService.find_metadata catalog f = Ok (Some m) ->
          read_pdf (DocumentService.path_join pdf_dir f) = Ok text ->
          documents_of f docs = [DocumentService.make_document text m]).
Proof.
  intros Hnd. exists (loaded pdf_dir read_pdf catalog names).
  split; [reflexivity|]. split; [|split; [|split]].
  - intros d. rewrite elem_of_loaded. split.
    + intros (f & Hin & Hd).
      apply process_single_document_some in Hd as (m & text & He & Hfind & Hr & ->).
      destruct (find_metadata_some _ _ _ Hfind) as [Hm Hk].
      exists f, m, text. auto 10.
    + intros (f & m & text & Hin & He & Hfind & _ & _ & Hr & ->).
      exists f. split; [assumption|].
      apply process_single_document_some. eauto 10.
  - intros f Hno. rewrite documents_of_loaded by assumption.
    destruct (DocumentService.process_single_document pdf_dir read_pdf f catalog)
      as [d|] eqn:Hd; [|reflexivity].
    apply process_single_document_some in Hd as (m & text & _ & Hfind & _).
    destruct (find_metadata_some _ _ _ Hfind) as [Hm Hk].
    destruct (Hno m Hm Hk).
  - intros f e Hraise. rewrite documents_of_loaded by assumption.
    destruct (DocumentService.process_single_document pdf_dir read_pdf f catalog)
      as [d|] eqn:Hd; [|reflexivity].
    apply process_single_document_some in Hd as (m & text & _ & _ & Hr & _).
    congruence.
  - intros f m text Hin He Hfind Hr. rewrite documents_of_loaded by assumption.
    assert (Hd : DocumentService.process_single_document pdf_dir read_pdf f catalog
                 = Some (DocumentService.make_document text m)).
    { apply process_single_document_some. eauto 10. }
    rewrite Hd. rewrite decide_True by assumption. reflexivity.
Qed.

Lemma process_documents_parallel_result_witness :
  NoDup example_names /\
  exists docs,
    DocumentService.process_documents_parallel "pdfs" example_read_pdf
      (Ok example_catalog) (Ok example_names) = Ok docs
    /\ documents_of "a.pdf" docs
       = [DocumentService.make_document "text of a"
            {[ "filename" := VStr "a.pdf"; "case" := VStr "A v B"; "year" := VInt 1999 ]}]
    /\ documents_of "b.pdf" docs = []
    /\ documents_of "c.pdf" docs = [].
Proof.
  assert (Hnd : NoDup example_names).
  { apply (bool_decide_unpack _). vm_compute. reflexivity. }
  split; [exact Hnd|].
  destruct (process_documents_parallel_result "pdfs" example_read_pdf
              example_catalog example_names Hnd)
    as (docs & Heq & _ & Hno & Hraise & Honce).
  exists docs. split; [exact Heq|]. split; [|split].
  - apply Honce.
    + apply (bool_decide_unpack _). vm_compute. reflexivity.
    + vm_compute. reflexivity.
    + vm_compute. reflexivity.
    + vm_compute. reflexivity.
  - apply Hno. intros m Hm.
    apply elem_of_cons in Hm as [->|Hm]; [vm_compute; discriminate|].
    apply elem_of_cons in Hm as [->|Hm]; [vm_compute; discriminate|].
    inversion Hm.
  - apply (Hraise "c.pdf" (ValueError "EOF marker not found")).
    vm_compute. reflexivity.
Defined.

(** ** IngestionPipeline: [process_chunks_to_vectors], [bootstrap] *)
Section IngestionProperties.
Import BootstrapService.
Variable batch_size : Z.
Variable fetch_error : list event -> list value -> option exn.
Variable openai_embeddings : list event -> list value -> result (list value).
Variable upsert_error : list event -> list value -> option exn.
Variable time_time : list event -> Z.

Lemma batches_cons {A} (c : A) (l : list A) :
  0 < batch_size ->
  exists first rest, batches batch_size (c :: l) = Ok ((c :: first) :: rest).
Proof.
  intros Hpos. unfold batches.
  destruct (Z.eqb_spec batch_size 0) as [?|_]; [lia|].
  destruct (Z.ltb_spec batch_size 0) as [?|_]; [lia|].
  destruct (Z.to_nat batch_size) as [|k] eqn:Hk; [lia|].
  simpl. eauto.
Qed.

(** The existence check, called as [process_chunks_to_vectors] calls it,
    raises [TypeError] before anything is fetched. *)
Lemma call_check_one_argument chunk_id w :
  exists msg,
    call_check_embedding_status fetch_error [chunk_id] w = (Raise (TypeError msg), w).
Proof. eexists. reflexivity. Qed.

(** So a run over chunks, as the method is written, never returns: it
    raises at the first chunk, with nothing fetched, embedded or
    upserted. *)
Lemma process_chunks_to_vectors_raises chunks index w :
  0 < batch_size -> chunks <> [] ->
  exists e,
    process_chunks_to_vectors batch_size fetch_error openai_embeddings
      time_time chunks index w = (Raise e, w).
Proof.
  intros Hpos Hne. destruct chunks as [|c l]; [congruence|].
  destruct (batches_cons c l Hpos) as (first & rest & Hb).
  unfold process_chunks_to_vectors, process_chunks_to_vectors_with, bind, lift.
  rewrite Hb. simpl. unfold bind, lift.
  destruct (getitem c "chunk_id") as [id|e]; [|eauto].
  simpl. eauto.
Qed.

(** [check_embedding_status] itself never raises and never writes to the
    store. *)
Lemma check_embedding_status_total chunk_id index w :
  exists b w',
    check_embedding_status fetch_error chunk_id index w = (Ok b, w')
    /\ store w' = store w.
Proof.
  unfold check_embedding_status, try_except, bind, index_fetch, raise, ret.
  destruct index; simpl; eauto.
  destruct (fetch_error (trace w) [chunk_id]); simpl; eauto.
Qed.

Lemma check_embedding_status_fetch_raises chunk_id name w e :
  fetch_error (trace w) [chunk_id] = Some e ->
  check_embedding_status fetch_error chunk_id (VIndex name) w
    = (Ok false, record_event (Fetch [chunk_id]) w).
Proof.
  intros H. unfold check_embedding_status, try_except, bind, index_fetch, ret.
  rewrite H. reflexivity.
Qed.

Lemma check_embedding_status_fetch_returns chunk_id name w :
  fetch_error (trace w) [chunk_id] = None ->
  check_embedding_status fetch_error chunk_id (VIndex name) w
    = (Ok (truthy (VDict (stored_under (store w) [chunk_id]))),
       record_event (Fetch [chunk_id]) w).
Proof.
  intros H. unfold check_embedding_status, try_except, bind, index_fetch, ret.
  rewrite H. reflexivity.
Qed.

(** One step of the selection loop, for a chunk the check reports as
    absent and for one it reports as present. *)
Lemma select_new_chunks_absent check chunk rest nc nt w w1 id text :
  chunk !! "chunk_id" = Some id ->
  check id w = (Ok false, w1) ->
  chunk !! "context" = Some text ->
  select_new_chunks check (chunk :: rest) nc nt w
    = select_new_chunks check rest (nc ++ [chunk]) (nt ++ [text]) w1.
Proof.
  intros Hid Hc Ht. simpl. unfold bind, lift, getitem.
  rewrite Hid, Hc. simpl. rewrite Ht. reflexivity.
Qed.

Lemma select_new_chunks_present check chunk rest nc nt w w1 id :
  chunk !! "chunk_id" = Some id ->
  check id w = (Ok true, w1) ->
  select_new_chunks check (chunk :: rest) nc nt w
    = select_new_chunks check rest nc nt w1.
Proof.
  intros Hid Hc. simpl. unfold bind, lift, getitem.
  rewrite Hid, Hc. reflexivity.
Qed.

(** The [try] block never raises; when the embedding call raises, the
    block leaves [vectors] and [vector] as they were. *)
Lemma embed_new_chunks_failure new_chunks texts vectors vector w e :
  texts <> [] ->
  openai_embeddings (trace w) texts = Raise e ->
  embed_new_chunks openai_embeddings time_time new_chunks texts vectors vector w
    = ((vectors, vector), record_event (EmbeddingsCreate texts) w).
Proof.
  intros Hne He. unfold embed_new_chunks, create_embeddings_batch.
  destruct texts; [congruence|]. rewrite He. reflexivity.
Qed.

(** The [try] block appends at most one vector to [vectors]. *)
Lemma embed_new_chunks_at_most_one new_chunks texts vectors vector w :
  let r := embed_new_chunks openai_embeddings time_time new_chunks texts
             vectors vector w in
  fst (fst r) = vectors \/ exists v, fst (fst r) = vectors ++ [v].
Proof.
  unfold embed_new_chunks, create_embeddings_batch.
  destruct texts; simpl; [by left|].
  destruct (openai_embeddings (trace w) (v :: texts)); simpl; [|by left].
  destruct (build_vectors _ _ _) as [[v'|] [e|]]; simpl; eauto.
Qed.
End IngestionProperties.

Section IngestionLoop.
Import BootstrapService.
Variable openai_embeddings : list event -> list value -> result (list value).
Variable time_time : list event -> Z.
Variable check : value -> M world bool.

Lemma select_new_chunks_lengths batch : forall nc nt w sel w',
  select_new_chunks check batch nc nt w = (Ok sel, w') ->
  length nc = length nt ->
  length (fst sel) = length (snd sel).
Proof.
  induction batch as [|chunk rest IH]; intros nc nt w sel w'; simpl.
  - unfold ret. intros [= <- <-]. auto.
  - unfold bind, lift.
    destruct (getitem chunk "chunk_id") as [id|e]; [|discriminate].
    destruct (check id w) as [[[|]|e] w1]; simpl; try discriminate.
    + apply IH.
    + destruct (getitem chunk "context") as [text|e]; [|discriminate].
      intros H Hlen. eapply IH; [exact H|].
      rewrite !length_app. simpl. lia.
Qed.

(** A batch whose embedding call raises contributes nothing, and the loop
    goes on with the batches that follow. *)
Lemma process_batches_embedding_failure batch rest vectors vector w sel w1 e :
  select_new_chunks check batch [] [] w = (Ok sel, w1) ->
  fst sel <> [] ->
  openai_embeddings (trace w1) (snd sel) = Raise e ->
  process_batches openai_embeddings time_time check (batch :: rest) vectors vector w
  = process_batches openai_embeddings time_time check rest vectors vector
      (record_event (EmbeddingsCreate (snd sel)) w1).
Proof.
  intros Hsel Hne He.
  assert (Htexts : snd sel <> []).
  { pose proof (select_new_chunks_lengths _ _ _ _ _ _ Hsel eq_refl) as Hlen.
    destruct (fst sel); [congruence|]. destruct (snd sel); [discriminate|congruence]. }
  cbn [process_batches]. unfold bind at 1. rewrite Hsel.
  destruct (fst sel) as [|c0 l0] eqn:Hfst; [congruence|].
  rewrite (embed_new_chunks_failure openai_embeddings time_time
             (c0 :: l0) (snd sel) vectors vector w1 e Htexts He).
  reflexivity.
Qed.

(** Whatever the check answers, every batch adds at most one vector to
    the result: the vectors of the other new chunks of the batch are
    lost. *)
Lemma process_batches_at_most_one_per_batch todo : forall vectors vector w vs w',
  process_batches openai_embeddings time_time check todo vectors vector w
    = (Ok vs, w') ->
  (length vs <= length vectors + length todo)%nat.
Proof.
  induction todo as [|batch rest IH]; intros vectors vector w vs w'.
  - simpl. unfold ret. intros [= <- <-]. lia.
  - cbn [process_batches]. unfold bind at 1.
    destruct (select_new_chunks check batch [] [] w) as [[sel|e] w1];
      [|discriminate].
    destruct (fst sel) as [|c0 l0].
    + intros H. apply IH in H. simpl. lia.
    + pose proof (embed_new_chunks_at_most_one openai_embeddings time_time
                    (c0 :: l0) (snd sel) vectors vector w1) as Hone.
      destruct (embed_new_chunks openai_embeddings time_time (c0 :: l0)
                  (snd sel) vectors vector w1) as [[vectors' vector'] w2].
      simpl in Hone. intros H. apply IH in H.
      destruct Hone as [->|[v ->]]; [|rewrite length_app in H]; simpl in *; lia.
Qed.
End IngestionLoop.

(** C1 at a batch of two new chunks. As the method is written, the run
    raises [TypeError] at the first existence check, which is called
    without the index, and no vector is produced. With the check called
    with both arguments, the chunks [create_chunks] makes have no key
    [context] and the run raises [KeyError]; for chunks that have it, both
    texts are embedded but only the vector of the last chunk of the batch
    is returned and upserted: the vector of the first one is dropped. *)
Theorem new_vectors_dropped_before_upsert :
  let run := BootstrapService.process_chunks_to_vectors 3
               IngestionExample.no_error IngestionExample.embed_ok
               IngestionExample.clock in
  let run_with := BootstrapService.process_chunks_to_vectors_with 3
               IngestionExample.embed_ok IngestionExample.clock
               (IngestionExample.check IngestionExample.no_error) in
  let boot_with := BootstrapService.bootstrap_with 3
               IngestionExample.embed_ok IngestionExample.no_error
               IngestionExample.clock
               (IngestionExample.check IngestionExample.no_error) in
  run [IngestionExample.c1; IngestionExample.c2] IngestionExample.index
      IngestionExample.empty_index
  = (Raise (TypeError "check_embedding_status() missing 1 required positional argument: 'index'"),
     IngestionExample.empty_index)
  /\ length IngestionExample.pipeline_chunks = 2%nat
  /\ fst (run_with IngestionExample.pipeline_chunks IngestionExample.index
            IngestionExample.empty_index)
     = Raise (KeyError "context")
  /\ fst (run_with [IngestionExample.c1; IngestionExample.c2]
            IngestionExample.index IngestionExample.empty_index)
     = Ok [IngestionExample.vector "id2" "two"]
  /\ BootstrapService.trace
       (snd (run_with [IngestionExample.c1; IngestionExample.c2]
               IngestionExample.index IngestionExample.empty_index))
     = [ BootstrapService.Fetch [VStr "id1"];
         BootstrapService.Fetch [VStr "id2"];
         BootstrapService.EmbeddingsCreate [VStr "one"; VStr "two"] ]
  /\ BootstrapService.upserted
       (BootstrapService.trace
          (snd (boot_with (Ok IngestionExample.index)
                  (Ok [IngestionExample.c1; IngestionExample.c2])
                  IngestionExample.empty_index)))
     = [IngestionExample.vector "id2" "two"].
Proof.
  cbv zeta. repeat split; vm_compute; reflexivity.
Qed.

Section Selection.
Import BootstrapService.
Variable check : value -> M world bool.

(** What the selection loop returns: the chunks and texts it was given,
    followed by those of the chunks of the batch it kept, text by text
    the [context] of the chunk. *)
Lemma select_new_chunks_inv batch : forall nc nt w sel w',
  select_new_chunks check batch nc nt w = (Ok sel, w') ->
  Forall2 (fun c t => c !! "context" = Some t) nc nt ->
  Forall2 (fun c t => c !! "context" = Some t) (fst sel) (snd sel)
  /\ (forall c, c ∈ nc -> c ∈ fst sel).
Proof.
  induction batch as [|chunk rest IH]; intros nc nt w sel w'; simpl.
  - unfold ret. intros [= <- <-]. auto.
  - unfold bind, lift.
    destruct (getitem chunk "chunk_id") as [id|e]; [|discriminate].
    destruct (check id w) as [[[|]|e] w1]; simpl; try discriminate.
    + apply IH.
    + unfold getitem.
      destruct (chunk !! "context") as [text|] eqn:Ht; [|discriminate].
      intros H Hinv. apply IH in H as [H1 H2].
      * split; [exact H1|]. intros c Hc. apply H2.
        apply elem_of_app. by left.
      * apply Forall2_app; [exact Hinv|]. by constructor.
Qed.

(** A chunk of the batch whose check answers false, whenever it is made,
    is among the chunks the loop keeps. *)
Lemma select_new_chunks_keeps batch : forall nc nt w sel w' chunk id,
  select_new_chunks check batch nc nt w = (Ok sel, w') ->
  Forall2 (fun c t => c !! "context" = Some t) nc nt ->
  chunk ∈ batch ->
  chunk !! "chunk_id" = Some id ->
  (forall w0, exists w1, check id w0 = (Ok false, w1)) ->
  chunk ∈ fst sel.
Proof.
  induction batch as [|c0 rest IH]; intros nc nt w sel w' chunk id Hsel Hinv Hin Hid Hc.
  - inversion Hin.
  - apply elem_of_cons in Hin as [<-|Hin].
    + simpl in Hsel. unfold bind, lift, getitem in Hsel. rewrite Hid in Hsel.
      destruct (Hc w) as [w1 Hw1]. rewrite Hw1 in Hsel. simpl in Hsel.
      destruct (chunk !! "context") as [text|] eqn:Ht; [|discriminate].
      apply select_new_chunks_inv in Hsel as [_ H2].
      * apply H2. apply elem_of_app. right. by left.
      * apply Forall2_app; [exact Hinv|]. by constructor.
    + simpl in Hsel. unfold bind, lift in Hsel.
      destruct (getitem c0 "chunk_id") as [id0|e]; [|discriminate].
      destruct (check id0 w) as [[[|]|e] w1]; simpl in Hsel; try discriminate.
      * eapply IH; eauto.
      * unfold getitem in Hsel.
        destruct (c0 !! "context") as [text|] eqn:Ht; [|discriminate].
        eapply IH; eauto.
        apply Forall2_app; [exact Hinv|]. by constructor.
Qed.
End Selection.

Section Skipping.
Import BootstrapService.
Variable batch_size : Z.
Variable fetch_error : list event -> list value -> option exn.
Variable openai_embeddings : list event -> list value -> result (list value).
Variable upsert_error : list event -> list value -> option exn.
Variable time_time : list event -> Z.
Variable name : string.
Hypothesis fetch_returns : forall t ids, fetch_error t ids = None.

Lemma only_fetched_refl w : only_fetched w w.
Proof. by repeat split. Qed.

Lemma only_fetched_step w w' ids :
  only_fetched w w' -> only_fetched w (record_event (Fetch ids) w').
Proof.
  intros (Hs & He & Hu). unfold only_fetched, record_event, embedding_calls,
    upsert_calls in *. simpl.
  rewrite !List.filter_app, !length_app. simpl. repeat split; [done|lia..].
Qed.

Lemma check_stored k v w :
  store w !! k = Some v ->
  check_embedding_status fetch_error (VStr k) (VIndex name) w
  = (Ok true, record_event (Fetch [VStr k]) w).
Proof.
  intros Hk. rewrite check_embedding_status_fetch_returns by apply fetch_returns.
  f_equal. f_equal. simpl stored_under. rewrite Hk.
  apply truthy_dict_lookup with (k := k) (v := v). apply lookup_insert_eq.
Qed.

Lemma select_new_chunks_all_stored batch : forall nc nt w w0,
  Forall (is_stored (store w)) batch ->
  only_fetched w0 w ->
  exists w',
    select_new_chunks
      (fun id => check_embedding_status fetch_error id (VIndex name))
      batch nc nt w = (Ok (nc, nt), w')
    /\ only_fetched w0 w'.
Proof.
  induction batch as [|c rest IH]; intros nc nt w w0 Hall Hw.
  - exists w. split; [reflexivity | exact Hw].
  - inversion Hall as [|? ? (k & v & Hid & Hk) Hrest]; subst.
    erewrite select_new_chunks_present; [|exact Hid|by apply check_stored with (v := v)].
    apply IH; [exact Hrest | by apply only_fetched_step].
Qed.

Lemma process_batches_all_stored todo : forall vectors vector w w0,
  Forall (Forall (is_stored (store w))) todo ->
  only_fetched w0 w ->
  exists w',
    process_batches openai_embeddings time_time
      (fun id => check_embedding_status fetch_error id (VIndex name))
      todo vectors vector w = (Ok vectors, w')
    /\ only_fetched w0 w'.
Proof.
  induction todo as [|batch rest IH]; intros vectors vector w w0 Hall Hw.
  - exists w. split; [reflexivity | exact Hw].
  - inversion Hall as [|? ? Hbatch Hrest]; subst.
    destruct (select_new_chunks_all_stored batch [] [] w w0 Hbatch Hw)
      as (w1 & Hsel & Hw1).
    cbn [process_batches]. unfold bind at 1. rewrite Hsel. simpl.
    apply IH; [|exact Hw1].
    destruct Hw1 as (Hs1 & _). destruct Hw as (Hs & _).
    rewrite Hs1, <- Hs. exact Hrest.
Qed.

Lemma batches_fuel_Forall {A} (P : A -> Prop) fuel n (l : list A) :
  Forall P l -> Forall (Forall P) (batches_fuel fuel n l).
Proof.
  revert l. induction fuel as [|fuel IH]; intros l Hl; simpl; [constructor|].
  destruct l as [|a l]; [constructor|]. constructor.
  - by apply Forall_take.
  - apply IH. by apply Forall_drop.
Qed.

(** A run over chunks that are all in the index, with the check called
    with both arguments: every chunk is skipped, nothing is embedded and
    nothing is upserted. *)
Lemma bootstrap_all_stored chunks w :
  0 < batch_size ->
  Forall (is_stored (store w)) chunks ->
  exists w',
    bootstrap_with batch_size openai_embeddings upsert_error time_time
      (fun id => check_embedding_status fetch_error id (VIndex name))
      (Ok (VIndex name)) (Ok chunks) w
    = (Ok {| chunks_processed := Z.of_nat (length chunks);
             new_vectors_created := 0;
             batches_processed := 0 |}, w')
    /\ only_fetched w w'.
Proof.
  intros Hpos Hall.
  unfold bootstrap_with, process_chunks_to_vectors_with, bind, lift, batches.
  destruct (Z.eqb_spec batch_size 0) as [?|_]; [lia|].
  destruct (Z.ltb_spec batch_size 0) as [?|_]; [lia|].
  destruct (process_batches_all_stored
              (batches_fuel (length chunks) (Z.to_nat batch_size) chunks)
              [] None w w) as (w' & Hrun & Hw').
  - by apply batches_fuel_Forall.
  - apply only_fetched_refl.
  - rewrite Hrun. exists w'. split; [reflexivity | exact Hw'].
Qed.
End Skipping.

Lemma embed_new_chunks_calls
    (openai_embeddings : list BootstrapService.event -> list value -> result (list value))
    (time_time : list BootstrapService.event -> Z)
    new_chunks texts vectors vector w :
  texts <> [] ->
  BootstrapService.trace
    (snd (BootstrapService.embed_new_chunks openai_embeddings time_time
            new_chunks texts vectors vector w))
  = BootstrapService.trace w ++ [BootstrapService.EmbeddingsCreate texts].
Proof.
  intros Hne. unfold BootstrapService.embed_new_chunks,
    BootstrapService.create_embeddings_batch.
  destruct texts as [|t texts]; [congruence|].
  destruct (openai_embeddings (BootstrapService.trace w) (t :: texts)); simpl;
    [|reflexivity].
  destruct (BootstrapService.build_vectors _ _ _) as [[v'|] [e|]]; reflexivity.
Qed.

Section AsWritten.
Import BootstrapService.
Variable batch_size : Z.
Variable fetch_error : list event -> list value -> option exn.
Variable openai_embeddings : list event -> list value -> result (list value).
Variable upsert_error : list event -> list value -> option exn.
Variable time_time : list event -> Z.


End AsWritten.



(** C5, as amended. When the embedding call of a batch raises,
    [create_embeddings_batch] re-raises the exception to the [try] block
    of [process_chunks_to_vectors] that made the call, and the handler of
    that block swallows it: the block ends without an exception, having
    added no vector to the result. *)
Theorem embedding_failure_is_swallowed
    (openai_embeddings : list BootstrapService.event -> list value -> result (list value))
    (time_time : list BootstrapService.event -> Z)
    (new_chunks : list pydict) (texts vectors : list value)
    (vector : option value) (w : BootstrapService.world) (e : exn) :
  texts <> [] ->
  openai_embeddings (BootstrapService.trace w) texts = Raise e ->
  BootstrapService.create_embeddings_batch openai_embeddings texts w
  = (Raise e,
     BootstrapService.record_event (BootstrapService.EmbeddingsCreate texts) w)
  /\ BootstrapService.embed_new_chunks openai_embeddings time_time
       new_chunks texts vectors vector w
     = ((vectors, vector),
        BootstrapService.record_event (BootstrapService.EmbeddingsCreate texts) w).
Proof.
  intros Hne He. split.
  - unfold BootstrapService.create_embeddings_batch. rewrite He. reflexivity.
  - by apply embed_new_chunks_failure with (e := e).
Qed.

Lemma embedding_failure_is_swallowed_witness :
  BootstrapService.create_embeddings_batch embed_fails [VStr "one"]
    IngestionExample.empty_index
  = (Raise (ProviderError "rate limit exceeded"),
     BootstrapService.record_event
       (BootstrapService.EmbeddingsCreate [VStr "one"]) IngestionExample.empty_index)
  /\ BootstrapService.embed_new_chunks embed_fails IngestionExample.clock
       [IngestionExample.c1] [VStr "one"] [] None IngestionExample.empty_index
     = (([], None),
        BootstrapService.record_event
          (BootstrapService.EmbeddingsCreate [VStr "one"]) IngestionExample.empty_index).
Proof.
  apply (embedding_failure_is_swallowed embed_fails IngestionExample.clock
           [IngestionExample.c1] [VStr "one"] [] None
           IngestionExample.empty_index (ProviderError "rate limit exceeded")).
  - discriminate.
  - reflexivity.
Defined.

(** C5 as stated fails: with an endpoint that refuses the batch,
    [create_embeddings_batch] raises, and the [try] block around the call
    ends normally with the vectors it was given: the failure does not
    leave the block. *)
Lemma embedding_failure_is_not_surfaced :
  fst (BootstrapService.create_embeddings_batch embed_fails [VStr "one"]
         IngestionExample.empty_index)
  = Raise (ProviderError "rate limit exceeded")
  /\ BootstrapService.embed_new_chunks embed_fails IngestionExample.clock
       [IngestionExample.c1] [VStr "one"] [IngestionExample.vector "id0" "zero"]
       None IngestionExample.empty_index
     = (([IngestionExample.vector "id0" "zero"], None),
        {| BootstrapService.store := ∅;
           BootstrapService.trace :=
             [BootstrapService.EmbeddingsCreate [VStr "one"]] |}).
Proof. split; reflexivity. Qed.

(** C10. [check_embedding_status] answers false when the fetch raises,
    and raises nothing itself. But [process_chunks_to_vectors] never makes
    that fetch: for every corpus that is not empty it raises at the first
    chunk, with nothing fetched, embedded or upserted, and so does
    [bootstrap]: the chunk does not proceed to embedding and upsert. *)
Theorem failed_fetch_is_absence_but_never_fetched (batch_size : Z)
    (fetch_error : list BootstrapService.event -> list value -> option exn)
    (openai_embeddings : list BootstrapService.event -> list value -> result (list value))
    (upsert_error : list BootstrapService.event -> list value -> option exn)
    (time_time : list BootstrapService.event -> Z)
    (chunk_id : value) (name : string) (chunks : list pydict)
    (w : BootstrapService.world) (e : exn) :
  0 < batch_size -> chunks <> [] ->
  fetch_error (BootstrapService.trace w) [chunk_id] = Some e ->
  BootstrapService.check_embedding_status fetch_error chunk_id (VIndex name) w
  = (Ok false, BootstrapService.record_event (BootstrapService.Fetch [chunk_id]) w)
  /\ (exists e',
        BootstrapService.process_chunks_to_vectors batch_size fetch_error
          openai_embeddings time_time chunks (VIndex name) w = (Raise e', w))
  /\ (exists e',
        BootstrapService.bootstrap batch_size fetch_error openai_embeddings
          upsert_error time_time (Ok (VIndex name)) (Ok chunks) w = (Raise e', w)).
Proof.
  intros Hpos Hne Hf. split; [|split].
  - by apply check_embedding_status_fetch_raises with (e := e).
  - by apply process_chunks_to_vectors_raises.
  - destruct (process_chunks_to_vectors_raises batch_size fetch_error
                openai_embeddings time_time chunks (VIndex name) w Hpos Hne)
      as [e' He'].
    exists e'. unfold BootstrapService.bootstrap, BootstrapService.bootstrap_with,
      bind, lift.
    unfold BootstrapService.process_chunks_to_vectors in He'. rewrite He'.
    reflexivity.
Qed.

Lemma failed_fetch_is_absence_but_never_fetched_witness :
  BootstrapService.check_embedding_status IngestionExample.fetch_fails
    (VStr "id1") (VIndex "cases") IngestionExample.empty_index
  = (Ok false,
     BootstrapService.record_event (BootstrapService.Fetch [VStr "id1"])
       IngestionExample.empty_index)
  /\ (exists e',
        BootstrapService.process_chunks_to_vectors 3 IngestionExample.fetch_fails
          IngestionExample.embed_ok IngestionExample.clock [IngestionExample.c1]
          (VIndex "cases") IngestionExample.empty_index
        = (Raise e', IngestionExample.empty_index))
  /\ (exists e',
        BootstrapService.bootstrap 3 IngestionExample.fetch_fails
          IngestionExample.embed_ok IngestionExample.no_error
          IngestionExample.clock (Ok (VIndex "cases")) (Ok [IngestionExample.c1])
          IngestionExample.empty_index
        = (Raise e', IngestionExample.empty_index)).
Proof.
  apply (failed_fetch_is_absence_but_never_fetched 3 IngestionExample.fetch_fails
           IngestionExample.embed_ok IngestionExample.no_error
           IngestionExample.clock (VStr "id1") "cases" [IngestionExample.c1]
           IngestionExample.empty_index (ProviderError "connection reset")).
  - lia.
  - discriminate.
  - reflexivity.
Defined.

(** ** The cache *)
Section CacheProperties.
Import TTLCache.

Lemma find_app_fresh k (es : list entry) (e : entry) :
  List.find (has_key k) es = None -> has_key k e = true ->
  List.find (has_key k) (es ++ [e]) = Some e.
Proof.
  intros Hnone Hk. induction es as [|e0 es IH]; simpl in *.
  - by rewrite Hk.
  - destruct (has_key k e0); [discriminate|]. by apply IH.
Qed.

Lemma find_remove k (es : list entry) :
  List.find (has_key k) (remove k es) = None.
Proof.
  induction es as [|e0 es IH]; simpl; [reflexivity|].
  destruct (has_key k e0) eqn:Hk; simpl; [exact IH|]. by rewrite Hk.
Qed.

Lemma find_drop_none k n (es : list entry) :
  List.find (has_key k) es = None -> List.find (has_key k) (drop n es) = None.
Proof.
  revert n. induction es as [|e0 es IH]; intros [|n] H; simpl in *;
    try assumption.
  destruct (has_key k e0); [discriminate|]. by apply IH.
Qed.

Lemma find_has_key k (es : list entry) e :
  List.find (has_key k) es = Some e -> has_key k e = true.
Proof. intros H. by apply List.find_some in H as [_ H]. Qed.

(** After [cache[k] = v] the entry of [k] holds [v] and lives for the
    time to live of the cache. *)
Lemma find_setitem now c k v c' :
  setitem now c k v = (Ok tt, c') ->
  find k c' = Some {| key := k; val := v; expires := now + ttl c |}
  /\ ttl c' = ttl c.
Proof.
  unfold setitem, find. destruct (maxsize c <? 1); [discriminate|].
  intros [= <-]. simpl. split; [|reflexivity].
  apply find_app_fresh; [|unfold has_key; simpl; apply String.eqb_refl].
  destruct (List.find (has_key k) (expire now (entries c))) eqn:Hf.
  - apply find_remove.
  - by apply find_drop_none.
Qed.

(** Reading a visible entry returns its value and keeps the entry. *)
Lemma getitem_hit now c k e :
  find k c = Some e -> now < expires e ->
  exists c', getitem now c k = (Ok (val e), c') /\ find k c' = Some e.
Proof.
  intros Hf Hlive. unfold getitem. rewrite Hf.
  destruct (Z.ltb_spec now (expires e)); [|lia].
  eexists. split; [reflexivity|]. unfold find. simpl.
  apply find_app_fresh; [apply find_remove | by apply find_has_key in Hf].
Qed.

Lemma contains_true now c k :
  contains now c k = true <-> exists e, find k c = Some e /\ now < expires e.
Proof.
  unfold contains. destruct (find k c) as [e|].
  - rewrite Z.ltb_lt. split; [eauto | by intros (? & [= <-] & ?)].
  - split; [discriminate | by intros (? & [=] & _)].
Qed.
End CacheProperties.

(** ** The key of the cache *)

Lemma all_chars_app P s t :
  all_chars P (s +:+ t) = all_chars P s && all_chars P t.
Proof. induction s; simpl; [reflexivity|]. rewrite IHs. by rewrite andb_assoc. Qed.

Lemma pretty_N_char_digit x : digit_or_dash (pretty_N_char x) = true.
Proof. unfold pretty_N_char. by repeat case_match. Qed.

Lemma pretty_N_go_digits x s :
  all_chars digit_or_dash s = true -> all_chars digit_or_dash (pretty_N_go x s) = true.
Proof.
  revert s. induction (N.lt_wf_0 x) as [x _ IH]; intros s Hs.
  assert (x = 0 ∨ 0 < x)%N as [->|?] by lia.
  - by rewrite pretty_N_go_0.
  - rewrite pretty_N_go_step by done. apply IH; [by apply N.div_lt|].
    simpl. by rewrite pretty_N_char_digit.
Qed.

Lemma pretty_Z_digits (z : Z) : all_chars digit_or_dash (pretty z) = true.
Proof.
  assert (HN : forall n : N, all_chars digit_or_dash (pretty n) = true).
  { intros n. unfold pretty, pretty_N. case_decide; [reflexivity|].
    by apply pretty_N_go_digits. }
  destruct z as [|p|p]; unfold pretty, pretty_Z; [reflexivity|apply HN|].
  rewrite all_chars_app. simpl. apply HN.
Qed.

Lemma all_chars_weaken (P Q : ascii -> bool) s :
  (forall c, P c = true -> Q c = true) -> all_chars P s = true -> all_chars Q s = true.
Proof.
  intros H. induction s; simpl; [done|].
  intros [? ?]%andb_true_iff. rewrite H by done. simpl. auto.
Qed.

Lemma str_top_k_no_colon k : all_chars not_colon (SearchService.str_top_k k) = true.
Proof.
  destruct k as [z|]; [|reflexivity]. simpl.
  apply all_chars_weaken with (P := digit_or_dash); [|apply pretty_Z_digits].
  intros c Hc. unfold not_colon.
  destruct (Ascii.eqb_spec c ":") as [->|_]; [vm_compute in Hc; discriminate|reflexivity].
Qed.

Lemma str_top_k_inj k k' :
  SearchService.str_top_k k = SearchService.str_top_k k' -> k = k'.
Proof.
  destruct k as [z|], k' as [z'|]; simpl; intros H; try reflexivity.
  - f_equal. by apply (inj pretty).
  - pose proof (pretty_Z_digits z) as Hd. rewrite H in Hd. discriminate.
  - pose proof (pretty_Z_digits z') as Hd. rewrite <- H in Hd. discriminate.
Qed.

Lemma string_app_nil (s : string) : "" +:+ s = s.
Proof. reflexivity. Qed.
Lemma string_app_cons c (s t : string) : String c s +:+ t = String c (s +:+ t).
Proof. reflexivity. Qed.

Lemma all_chars_colon q t : all_chars not_colon (q +:+ String ":" t) = false.
Proof.
  induction q as [|c q IH]; [reflexivity|].
  rewrite string_app_cons. cbn [all_chars]. rewrite IH. apply andb_false_r.
Qed.

Lemma split_at_last_colon q q' t t' :
  all_chars not_colon t = true -> all_chars not_colon t' = true ->
  q +:+ ":" +:+ t = q' +:+ ":" +:+ t' -> q = q' /\ t = t'.
Proof.
  intros Ht Ht'. revert q'.
  induction q as [|c q IH]; intros [|c' q'];
    repeat (rewrite string_app_cons || rewrite string_app_nil).
  - intros [= ->]. done.
  - intros [= _ H]. rewrite H, all_chars_colon in Ht. discriminate.
  - intros [= _ H]. rewrite <- H, all_chars_colon in Ht'. discriminate.
  - intros [= -> H]. apply IH in H as [-> ->]. done.
Qed.

(** The key of the cache determines the query and the [top_k] of the
    request: two different requests never share an entry. *)
Lemma cache_key_inj q k q' k' :
  SearchService.cache_key q k = SearchService.cache_key q' k' -> q = q' /\ k = k'.
Proof.
  unfold SearchService.cache_key. intros H.
  apply split_at_last_colon in H as [-> H]; auto using str_top_k_no_colon.
  split; [done|]. by apply str_top_k_inj.
Qed.

(** ** SearchEngine: [_execute_search], [health_check] *)
Section SearchProperties.
Import SearchService.
Variable config : Config.t.
Variable openai_embedding : list event -> string -> result value * Z.
Variable index_query : list event -> value -> Z -> result (list index_match) * Z.
Variable index_stats : list event -> result unit * Z.
Variable format_seconds : Z -> string.

(** A search that finds its key in the cache answers from the cache: no
    call leaves the process and the clock does not move. *)
Lemma execute_search_hit query top_k w e :
  TTLCache.find (cache_key query top_k) (cache w) = Some e ->
  now w < TTLCache.expires e ->
  exists w',
    _execute_search config openai_embedding index_query format_seconds
      query top_k w = (Ok (TTLCache.val e), w')
    /\ trace w' = trace w /\ now w' = now w
    /\ semaphore_value w' = semaphore_value w
    /\ TTLCache.find (cache_key query top_k) (cache w') = Some e.
Proof.
  intros Hf Hlive. unfold _execute_search.
  assert (Hc : TTLCache.contains (now w) (cache w) (cache_key query top_k) = true).
  { apply contains_true. eauto. }
  rewrite Hc.
  destruct (getitem_hit (now w) (cache w) _ e Hf Hlive) as (c' & Hg & Hf').
  rewrite Hg. eexists. split; [reflexivity|]. simpl. auto.
Qed.

(** A search that returns a response leaves it in the cache under its
    key; after a miss the entry is new and lives for the time to live of
    the cache from the moment it was stored. *)
Lemma execute_search_caches query top_k w r w1 :
  _execute_search config openai_embedding index_query format_seconds
      query top_k w = (Ok r, w1) ->
  exists e,
    TTLCache.find (cache_key query top_k) (cache w1) = Some e
    /\ TTLCache.val e = r
    /\ (TTLCache.contains (now w) (cache w) (cache_key query top_k) = true ->
        w1 = set_cache (cache w1) w /\ now w < TTLCache.expires e)
    /\ (TTLCache.contains (now w) (cache w) (cache_key query top_k) = false ->
        TTLCache.expires e = now w1 + TTLCache.ttl (cache w)).
Proof.
  unfold _execute_search.
  destruct (TTLCache.contains (now w) (cache w) (cache_key query top_k)) eqn:Hc.
  - apply contains_true in Hc as (e & Hf & Hlive).
    destruct (getitem_hit (now w) (cache w) _ e Hf Hlive) as (c' & Hg & Hf').
    rewrite Hg. intros [= <- <-]. exists e. simpl.
    split; [exact Hf'|]. split; [reflexivity|]. split; [auto | discriminate].
  - unfold bind, create_embedding, external, lift. simpl.
    destruct (openai_embedding (trace w) query) as [[embedding|e] d1]; simpl;
      [|discriminate].
    destruct (top_k_or_default config top_k) as [k|e]; simpl; [|discriminate].
    destruct (index_query _ embedding k) as [[results|e] d2]; simpl;
      [|discriminate].
    destruct (TTLCache.setitem _ _ _ _) as [[[]|e] c'] eqn:Hset; [|discriminate].
    intros [= <- <-]. simpl.
    apply find_setitem in Hset as [Hf Httl].
    eexists. split; [exact Hf|]. simpl.
    split; [reflexivity|]. split; [discriminate|]. auto.
Qed.
End SearchProperties.

(** With the configuration of the source, which declares no
    [DEFAULT_TOP_K], a search without [top_k] that misses the cache makes
    its embedding call and then raises [AttributeError]; nothing is
    cached. *)
Lemma execute_search_without_top_k :
  let run := SearchService._execute_search Config.default
               SearchExample.openai_embedding SearchExample.index_query
               SearchExample.format_seconds SearchExample.query None
               SearchExample.start in
  fst run = Raise (AttributeError "type object 'DevelopmentConfig' has no attribute 'DEFAULT_TOP_K'")
  /\ SearchService.trace (snd run)
     = [SearchService.EmbeddingCreate SearchExample.query]
  /\ SearchService.cache (snd run) = SearchService.cache SearchExample.start.
Proof. cbv zeta. repeat split; vm_compute; reflexivity. Qed.

(** C7, as amended. The cache is keyed by the query and the [top_k] as
    they are given (the text of the key determines both), not by the query
    and the effective top-k. When a search that missed the cache returns a
    response, the same request issued again less than the time to live
    later, with no other search in between, returns the same response and
    makes no embedding call and no index query. *)
Theorem cache_round_trip_raw_key (config : Config.t)
    (openai_embedding : list SearchService.event -> string -> result value * Z)
    (index_query : list SearchService.event -> value -> Z
                   -> result (list SearchService.index_match) * Z)
    (format_seconds : Z -> string)
    (query : string) (top_k : option Z)
    (w w1 : SearchService.world) (r : value) (d : Z) :
  SearchService._execute_search config openai_embedding index_query
    format_seconds query top_k w = (Ok r, w1) ->
  TTLCache.contains (SearchService.now w) (SearchService.cache w)
    (SearchService.cache_key query top_k) = false ->
  0 <= d < TTLCache.ttl (SearchService.cache w) ->
  (exists w3,
     SearchService._execute_search config openai_embedding index_query
       format_seconds query top_k (later_by d w1) = (Ok r, w3)
     /\ SearchService.trace w3 = SearchService.trace w1
     /\ SearchService.embedding_calls (SearchService.trace w3)
        = SearchService.embedding_calls (SearchService.trace w1)
     /\ SearchService.query_calls (SearchService.trace w3)
        = SearchService.query_calls (SearchService.trace w1))
  /\ (forall query' top_k',
        SearchService.cache_key query' top_k' = SearchService.cache_key query top_k ->
        query' = query /\ top_k' = top_k).
Proof.
  intros Hfirst Hmiss Hd. split.
  - destruct (execute_search_caches _ _ _ _ _ _ _ _ _ Hfirst)
      as (e & Hfind & Hval & _ & Hexp).
    specialize (Hexp Hmiss).
    destruct (execute_search_hit config openai_embedding index_query
                format_seconds query top_k (later_by d w1) e)
      as (w3 & Hrun & Htrace & _).
    + exact Hfind.
    + simpl. lia.
    + exists w3. rewrite Hval in Hrun. split; [exact Hrun|].
      simpl in Htrace. rewrite Htrace. auto.
  - intros query' top_k' H. by apply cache_key_inj.
Qed.

Lemma cache_round_trip_raw_key_witness :
  (exists w3,
     SearchService._execute_search Config.default SearchExample.openai_embedding
       SearchExample.index_query SearchExample.format_seconds
       SearchExample.query (Some 3) (later_by 45 SearchExample.after_first)
     = (Ok SearchExample.response, w3)
     /\ SearchService.trace w3 = SearchService.trace SearchExample.after_first
     /\ SearchService.embedding_calls (SearchService.trace w3)
        = SearchService.embedding_calls (SearchService.trace SearchExample.after_first)
     /\ SearchService.query_calls (SearchService.trace w3)
        = SearchService.query_calls (SearchService.trace SearchExample.after_first))
  /\ (forall query' top_k',
        SearchService.cache_key query' top_k'
        = SearchService.cache_key SearchExample.query (Some 3) ->
        query' = SearchExample.query /\ top_k' = Some 3).
Proof.
  apply (cache_round_trip_raw_key Config.default SearchExample.openai_embedding
           SearchExample.index_query SearchExample.format_seconds
           SearchExample.query (Some 3) SearchExample.start
           SearchExample.after_first SearchExample.response 45).
  - vm_compute. reflexivity.
  - vm_compute. reflexivity.
  - simpl. lia.
Defined.

(** C7 as stated fails. With the cache of the source (three entries that
    live 60 ticks), three other searches evict the response of the first
    one within its time to live, and the same request issued again makes
    an embedding call and an index query. And with a configuration whose
    default top-k is 3, a search without [top_k] and the same search with
    [top_k] 3 do not share an entry: the second one makes its own two
    calls. *)
Lemma cache_round_trip_counterexample :
  let others := [("negligence", Some 3); ("estoppel", Some 3); ("laches", Some 3)] in
  let before := after_searches Config.default others SearchExample.after_first in
  let again := after_searches Config.default [(SearchExample.query, Some 3)] before in
  SearchService.now before < SearchService.now SearchExample.after_first + 60
  /\ SearchService.embedding_calls (SearchService.trace before) = 4%nat
  /\ SearchService.embedding_calls (SearchService.trace again) = 5%nat
  /\ SearchService.query_calls (SearchService.trace again) = 5%nat
  /\ (let first := after_searches (config_with_default_top_k 3)
                     [(SearchExample.query, None)] SearchExample.start in
      let second := after_searches (config_with_default_top_k 3)
                      [(SearchExample.query, Some 3)] first in
      SearchService.trace first
      = [SearchService.EmbeddingCreate SearchExample.query;
         SearchService.IndexQuery SearchExample.embedding 3]
      /\ SearchService.trace second
         = [SearchService.EmbeddingCreate SearchExample.query;
            SearchService.IndexQuery SearchExample.embedding 3;
            SearchService.EmbeddingCreate SearchExample.query;
            SearchService.IndexQuery SearchExample.embedding 3]).
Proof. cbv zeta. repeat split; vm_compute; reflexivity. Qed.

(** C8. With an embedding endpoint that keeps its contract (an embedding
    it returns is not empty), [health_check] never raises. When the
    embedding call raises it returns [unhealthy] with the message of the
    exception, and the index is not asked; otherwise it asks the index for
    its statistics, once, and returns [unhealthy] with the message of the
    exception when that call raises, and else [healthy] with the number of
    live cache entries and the free slots of the semaphore. The cache and
    the semaphore are left as they were. *)
Theorem health_check_report
    (openai_embedding : list SearchService.event -> string -> result value * Z)
    (index_stats : list SearchService.event -> result unit * Z)
    (w : SearchService.world) :
  (forall v, fst (openai_embedding (SearchService.trace w) "test") = Ok v ->
             truthy v = true) ->
  exists v w',
    SearchService.health_check openai_embedding index_stats w = (Ok v, w')
    /\ SearchService.cache w' = SearchService.cache w
    /\ SearchService.semaphore_value w' = SearchService.semaphore_value w
    /\ match fst (openai_embedding (SearchService.trace w) "test") with
       | Raise e =>
           v = SearchService.unhealthy (str_exn e)
           /\ SearchService.trace w'
              = SearchService.trace w ++ [SearchService.EmbeddingCreate "test"]
       | Ok _ =>
           SearchService.trace w'
           = SearchService.trace w ++ [SearchService.EmbeddingCreate "test";
                                       SearchService.DescribeIndexStats]
           /\ match fst (index_stats (SearchService.trace w
                                       ++ [SearchService.EmbeddingCreate "test"])) with
              | Raise e => v = SearchService.unhealthy (str_exn e)
              | Ok _ =>
                  v = SearchService.healthy
                        (TTLCache.len (SearchService.now w') (SearchService.cache w'))
                        (SearchService.semaphore_value w')
              end
       end.
Proof.
  intros Hcontract.
  unfold SearchService.health_check, try_except, bind,
    SearchService.create_embedding, SearchService.external, ret.
  destruct (openai_embedding (SearchService.trace w) "test")
    as [[test_embedding|e] d1]; simpl in *.
  - rewrite (Hcontract test_embedding eq_refl). simpl.
    destruct (index_stats _) as [[[]|e] d2]; simpl;
      eexists _, _; (split; [reflexivity|]); simpl;
      rewrite <- app_assoc; auto.
  - eexists _, _. split; [reflexivity|]. simpl. auto.
Qed.

Lemma health_check_report_witness :
  exists v w',
    SearchService.health_check SearchExample.openai_embedding
      SearchExample.index_stats SearchExample.start = (Ok v, w')
    /\ SearchService.cache w' = SearchService.cache SearchExample.start
    /\ SearchService.semaphore_value w'
       = SearchService.semaphore_value SearchExample.start
    /\ (SearchService.trace w'
        = SearchService.trace SearchExample.start
          ++ [SearchService.EmbeddingCreate "test"; SearchService.DescribeIndexStats]
        /\ v = SearchService.healthy
                 (TTLCache.len (SearchService.now w') (SearchService.cache w'))
                 (SearchService.semaphore_value w')).
Proof.
  apply (health_check_report SearchExample.openai_embedding
           SearchExample.index_stats SearchExample.start).
  intros v [= <-]. reflexivity.
Defined.

(** ** HTTP boundary: [POST /search/] *)

Lemma getattr_search :
  SearchRoutes.getattr "search"
  = Raise (AttributeError "'SearchService' object has no attribute 'search'").
Proof. vm_compute. reflexivity. Qed.

(** C4 fails on every request with a query: the route asks the service
    for an attribute [search], which [SearchService] does not have, so the
    request ends in the handler of the route with status 500 and a body
    that holds only the error message; no method of the service is called
    and [topK] is never read. *)
Theorem search_route_answers_500
    (construct : M SearchService.world unit)
    (call_attribute : string -> list value -> M SearchService.world value)
    (body : pydict) (query : value) (w : SearchService.world) :
  body !! "query" = Some query ->
  truthy query = true ->
  (exists message w',
     SearchRoutes.search construct call_attribute (VDict body) w
     = (Ok (SearchRoutes.error_body message, 500), w'))
  /\ (forall w1,
        construct w = (Ok tt, w1) ->
        SearchRoutes.search construct call_attribute (VDict body) w
        = (Ok (SearchRoutes.error_body
                 "'SearchService' object has no attribute 'search'", 500), w1)).
Proof.
  intros Hq Ht.
  unfold SearchRoutes.search, try_except, bind, lift, SearchRoutes.json_get, ret.
  rewrite Hq, Ht. simpl.
  destruct (construct w) as [[[]|e] w1].
  - split.
    + exists "'SearchService' object has no attribute 'search'", w1. reflexivity.
    + intros w2 [= <-]. reflexivity.
  - split; [eauto | discriminate].
Qed.

Lemma search_route_answers_500_witness :
  let body : pydict := {[ "query" := VStr "breach of contract"; "topK" := VInt 3 ]} in
  SearchRoutes.search (ret tt)
    (fun _ _ => SearchService.health_check SearchExample.openai_embedding
                  SearchExample.index_stats)
    (VDict body) SearchExample.start
  = (Ok (SearchRoutes.error_body
           "'SearchService' object has no attribute 'search'", 500),
     SearchExample.start).
Proof.
  cbv zeta.
  apply (search_route_answers_500 (ret tt) _
           {[ "query" := VStr "breach of contract"; "topK" := VInt 3 ]}
           (VStr "breach of contract") SearchExample.start).
  - vm_compute. reflexivity.
  - vm_compute. reflexivity.
  - reflexivity.
Defined.

(** * Further properties of the code *)

(** ** [create_chunks]: the chunks of a text *)

Section ChunkStructure.
Import DocumentService.
Variable uuid4 : Z -> string.

Lemma create_chunks_loop_closed_form cs ov text meta :
  0 < cs ->
  forall fuel i chunks,
    0 <= i ->
    (Z.to_nat (py_len text - i * cs) < fuel)%nat ->
    create_chunks_loop cs ov uuid4 fuel text meta (i * cs) i chunks
    = Some (chunks ++ map (fun j => chunk_at cs ov uuid4 text meta (i + Z.of_nat j))
                        (seq 0 (chunk_count cs (py_len text) (i * cs)))).
Proof.
  intros Hcs fuel. induction fuel as [|fuel IH]; intros i chunks Hi Hf; [lia|].
  destruct (Z.lt_ge_cases (i * cs) (py_len text)) as [Hlt|Hge].
  - rewrite create_chunks_loop_step by assumption.
    replace (i * cs + cs) with ((i + 1) * cs) by lia.
    rewrite IH by lia.
    rewrite (chunk_count_step cs (py_len text) (i * cs)) by assumption.
    replace (i * cs + cs) with ((i + 1) * cs) by lia.
    rewrite <- app_assoc. f_equal. f_equal. cbn [seq map app].
    f_equal.
    + unfold chunk_at, chunk_start_at. rewrite Z.add_0_r. reflexivity.
    + rewrite <- seq_shift, map_map. apply map_ext. intros j.
      f_equal. lia.
  - rewrite create_chunks_loop_stop by assumption.
    rewrite chunk_count_stop by assumption. simpl. by rewrite app_nil_r.
Qed.

Lemma create_chunks_closed_form cs ov text meta fuel :
  0 < cs -> (String.length text < fuel)%nat ->
  create_chunks cs ov uuid4 fuel text meta
  = Some (map (fun j => chunk_at cs ov uuid4 text meta (Z.of_nat j))
            (seq 0 (chunk_count cs (py_len text) 0))).
Proof.
  intros Hcs Hf. unfold create_chunks.
  pose proof (create_chunks_loop_closed_form cs ov text meta Hcs fuel 0 []) as H.
  change (0 * cs) with 0 in H. rewrite H; [|lia|unfold py_len; lia].
  reflexivity.
Qed.
End ChunkStructure.

(** ** Slices of slices *)

Lemma substring_app (s : string) : forall n m k,
  substring n m s +:+ substring (n + m) k s = substring n (m + k) s.
Proof.
  induction s as [|c s IH]; intros n m k.
  - destruct n, m, k; reflexivity.
  - destruct n as [|n]; [destruct m as [|m]|].
    + reflexivity.
    + cbn [substring Nat.add]. rewrite string_app_cons. f_equal.
      apply (IH 0%nat m k).
    + cbn [substring Nat.add]. apply IH.
Qed.

Lemma substring_all (s : string) : forall m,
  (String.length s <= m)%nat -> substring 0 m s = s.
Proof.
  induction s as [|c s IH]; intros [|m] H; cbn [substring]; simpl in H;
    try reflexivity; try lia.
  f_equal. apply IH. lia.
Qed.

Lemma substring_nil n m : substring n m "" = "".
Proof. destruct n, m; reflexivity. Qed.

Lemma substring_zero n (s : string) : substring n 0 s = "".
Proof.
  revert n. induction s as [|c s IH]; intros [|n]; cbn [substring]; auto.
Qed.

Lemma substring_substring (s : string) : forall n m a b,
  substring a b (substring n m s) = substring (n + a) (Nat.min b (m - a)) s.
Proof.
  induction s as [|c s IH]; intros n m a b.
  - rewrite !substring_nil. reflexivity.
  - destruct n as [|n]; [|cbn [substring Nat.add]; apply IH].
    destruct m as [|m].
    + change (substring 0 0 (String c s)) with "".
      rewrite substring_nil.
      replace (Nat.min b (0 - a)) with 0%nat by lia.
      rewrite substring_zero. reflexivity.
    + cbn [substring Nat.add]. destruct a as [|a].
      * destruct b as [|b]; [reflexivity|].
        cbn [substring Nat.min Nat.sub]. f_equal.
        rewrite (IH 0%nat m 0%nat b). f_equal. lia.
      * cbn [substring Nat.sub]. apply (IH 0%nat m a b).
Qed.

Lemma py_slice_nat (s : string) (a b : Z) :
  0 <= a -> 0 <= b ->
  py_slice s a b
  = substring (Nat.min (Z.to_nat a) (String.length s))
      (Nat.min (Z.to_nat b) (String.length s)
       - Nat.min (Z.to_nat a) (String.length s)) s.
Proof.
  intros Ha Hb. unfold py_slice, slice_bound, py_len.
  destruct (Z.ltb_spec a 0); [lia|]. destruct (Z.ltb_spec b 0); [lia|].
  f_equal; lia.
Qed.

Lemma py_slice_app (s : string) (a b c : Z) :
  0 <= a -> a <= b -> b <= c ->
  py_slice s a b +:+ py_slice s b c = py_slice s a c.
Proof.
  intros Ha Hab Hbc. rewrite !py_slice_nat by lia.
  set (L := String.length s).
  replace (Nat.min (Z.to_nat b) L)
    with (Nat.min (Z.to_nat a) L
          + (Nat.min (Z.to_nat b) L - Nat.min (Z.to_nat a) L))%nat at 2 by lia.
  rewrite substring_app. f_equal. lia.
Qed.

Lemma py_slice_whole (s : string) (c : Z) :
  py_len s <= c -> py_slice s 0 c = s.
Proof.
  intros Hc. unfold py_len in Hc. rewrite py_slice_nat by lia.
  simpl. apply substring_all. lia.
Qed.

Lemma py_slice_of_nat (s : string) (n m : nat) :
  py_slice s (Z.of_nat n) (Z.of_nat m)
  = substring (Nat.min n (String.length s))
      (Nat.min m (String.length s) - Nat.min n (String.length s)) s.
Proof.
  rewrite py_slice_nat; [|apply Nat2Z.is_nonneg|apply Nat2Z.is_nonneg].
  rewrite !Nat2Z.id. reflexivity.
Qed.

Lemma substring_tail (s : string) (na nk M : nat) :
  (na + nk <= M)%nat -> (M <= String.length s)%nat ->
  substring nk (String.length (substring na (M - na) s) - nk)
    (substring na (M - na) s)
  = substring (na + nk) (M - (na + nk)) s.
Proof.
  intros HM HL. rewrite length_substring.
  rewrite (Nat.min_l (M - na) (String.length s - na)) by lia.
  rewrite substring_substring.
  rewrite (Nat.min_l (M - na - nk) (M - na - nk)) by apply Nat.le_refl.
  f_equal. lia.
Qed.

Lemma py_tail_slice (s : string) (a c k : Z) :
  0 <= a -> 0 <= k -> a + k <= c -> a + k <= py_len s ->
  py_tail (py_slice s a c) k = py_slice s (a + k) c.
Proof.
  intros Ha Hk Hc HL. unfold py_tail, py_len in *.
  assert (H0c : 0 <= c) by lia.
  rewrite <- (Z2Nat.id a Ha), <- (Z2Nat.id k Hk), <- (Z2Nat.id c H0c) in *.
  set (na := Z.to_nat a) in *. set (nk := Z.to_nat k) in *.
  set (nc := Z.to_nat c) in *. clearbody na nk nc. clear Ha Hk H0c.
  rewrite <- Nat2Z.inj_add in *.
  apply Nat2Z.inj_le in Hc, HL.
  rewrite !py_slice_of_nat.
  set (L := String.length s) in *.
  rewrite (Nat.min_l na L) by lia.
  rewrite (Nat.min_l (na + nk) L) by exact HL.
  assert (HM : (na + nk <= Nat.min nc L)%nat) by (apply Nat.min_glb; assumption).
  assert (HML : (Nat.min nc L <= L)%nat) by apply Nat.le_min_r.
  set (M := Nat.min nc L) in *. clearbody M.
  rewrite (Nat.min_id (String.length (substring na (M - na) s))).
  assert (Hlen : String.length (substring na (M - na) s) = (M - na)%nat).
  { rewrite length_substring. apply Nat.min_l. subst L. lia. }
  rewrite (Nat.min_l nk (String.length (substring na (M - na) s)))
    by (rewrite Hlen; lia).
  apply substring_tail; assumption.
Qed.

(** ** The chunks of a text *)

Lemma chunk_count_covers cs len :
  0 < cs -> 0 <= len -> len <= Z.of_nat (chunk_count cs len 0) * cs.
Proof.
  intros Hcs Hlen. unfold chunk_count. rewrite Z.sub_0_r.
  pose proof (Z.div_mod (len + cs - 1) cs ltac:(lia)) as Hdm.
  pose proof (Z.mod_pos_bound (len + cs - 1) cs Hcs) as Hm.
  assert (0 <= (len + cs - 1) / cs) by (apply Z.div_pos; lia).
  rewrite Z2Nat.id by assumption. nia.
Qed.

Lemma chunk_count_inside cs len (j : nat) :
  0 < cs -> 0 <= len -> (j < chunk_count cs len 0)%nat -> Z.of_nat j * cs < len.
Proof.
  intros Hcs Hlen. unfold chunk_count. rewrite Z.sub_0_r.
  pose proof (Z.div_mod (len + cs - 1) cs ltac:(lia)) as Hdm.
  pose proof (Z.mod_pos_bound (len + cs - 1) cs Hcs) as Hm.
  assert (0 <= (len + cs - 1) / cs) by (apply Z.div_pos; lia).
  intros Hj. assert (Z.of_nat j + 1 <= (len + cs - 1) / cs) by lia. nia.
Qed.

Section ChunkTheorems.
Import DocumentService.
Variable uuid4 : Z -> string.

Lemma lookup_chunks cs ov text meta (i : nat) c :
  map (fun j => chunk_at cs ov uuid4 text meta (Z.of_nat j))
      (seq 0 (chunk_count cs (py_len text) 0)) !! i = Some c ->
  (i < chunk_count cs (py_len text) 0)%nat
  /\ c = chunk_at cs ov uuid4 text meta (Z.of_nat i).
Proof.
  intros H. rewrite list_lookup_fmap in H.
  destruct (seq 0 (chunk_count cs (py_len text) 0) !! i) as [j|] eqn:Hj;
    [|discriminate].
  apply lookup_seq in Hj as [-> Hlt]. simpl in H. injection H as <-. auto.
Qed.
End ChunkTheorems.

Lemma py_slice_empty (s : string) (a : Z) : 0 <= a -> py_slice s a a = "".
Proof.
  intros Ha. rewrite py_slice_nat by lia. rewrite Nat.sub_diag.
  apply substring_zero.
Qed.

Lemma strides_concat (s : string) (cs : Z) :
  0 < cs ->
  forall m k,
    string_concat
      (map (fun j => py_slice s (Z.of_nat j * cs) ((Z.of_nat j + 1) * cs)) (seq k m))
    = py_slice s (Z.of_nat k * cs) (Z.of_nat (k + m) * cs).
Proof.
  intros Hcs m. induction m as [|m IH]; intros k.
  - simpl. rewrite Nat.add_0_r. symmetry. apply py_slice_empty. lia.
  - cbn [seq map string_concat foldr]. fold (string_concat
      (map (fun j => py_slice s (Z.of_nat j * cs) ((Z.of_nat j + 1) * cs))
         (seq (S k) m))).
    rewrite IH. replace ((Z.of_nat k + 1) * cs) with (Z.of_nat (S k) * cs) by lia.
    replace (S k + m)%nat with (k + S m)%nat by lia.
    apply py_slice_app; nia.
Qed.

(** X1. With a positive chunk size, whatever the overlap, [create_chunks]
    returns one chunk per stride of the chunk size, and the chunk at
    position [i] has the [i]-th identifier drawn, [chunk_index] [i],
    [is_first_chunk] true only for [i = 0], [chunk_end] [(i + 1) *
    chunk_size] (not clamped to the length of the text), [chunk_start] 0
    for the first chunk and [i * chunk_size - overlap] for the others, and
    as content the slice of the text between these two offsets. *)
Theorem create_chunks_positions (uuid4 : Z -> string) (cs ov : Z)
    (text : string) (meta : pydict) (fuel : nat) (chunks : list pydict) :
  0 < cs -> (String.length text < fuel)%nat ->
  DocumentService.create_chunks cs ov uuid4 fuel text meta = Some chunks ->
  length chunks = chunk_count cs (py_len text) 0
  /\ forall (i : nat) (c : pydict),
       chunks !! i = Some c ->
       let start := match i with O => 0 | S _ => Z.of_nat i * cs - ov end in
       let end_ := (Z.of_nat i + 1) * cs in
       c !! "chunk_id" = Some (VStr (uuid4 (Z.of_nat i)))
       /\ DocumentService.chunk_field "chunk_index" c = Some (VInt (Z.of_nat i))
       /\ DocumentService.chunk_field "is_first_chunk" c
          = Some (VBool (match i with O => true | S _ => false end))
       /\ DocumentService.chunk_field "chunk_start" c = Some (VInt start)
       /\ DocumentService.chunk_field "chunk_end" c = Some (VInt end_)
       /\ DocumentService.chunk_content c = py_slice text start end_.
Proof.
  intros Hcs Hfuel Hrun.
  rewrite (create_chunks_closed_form uuid4 cs ov text meta fuel Hcs Hfuel) in Hrun.
  injection Hrun as <-. split; [by rewrite length_map, length_seq|].
  intros i c Hi. apply lookup_chunks in Hi as [_ ->].
  assert (Hstart : chunk_start_at cs ov (Z.of_nat i)
                   = match i with O => 0 | S _ => Z.of_nat i * cs - ov end).
  { unfold chunk_start_at. destruct i as [|i]; [reflexivity|].
    destruct (Z.ltb_spec 0 (Z.of_nat (S i) * cs)); [reflexivity|nia]. }
  cbv zeta. rewrite <- Hstart. unfold chunk_at.
  destruct (chunk_field_make_chunk uuid4 meta
              (py_slice text (chunk_start_at cs ov (Z.of_nat i)) ((Z.of_nat i + 1) * cs))
              (Z.of_nat i) (chunk_start_at cs ov (Z.of_nat i)) ((Z.of_nat i + 1) * cs))
    as (H1 & H2 & H3 & H4 & H5).
  split; [unfold DocumentService.make_chunk; by simplify_map_eq|].
  split; [exact H3|]. split.
  { rewrite H4. destruct i; reflexivity. }
  split; [exact H1|]. split; [exact H2 | exact H5].
Qed.

Lemma create_chunks_positions_witness :
  length example_chunks = 3%nat
  /\ forall (i : nat) (c : pydict),
       example_chunks !! i = Some c ->
       DocumentService.chunk_field "chunk_index" c = Some (VInt (Z.of_nat i))
       /\ DocumentService.chunk_field "chunk_end" c
          = Some (VInt ((Z.of_nat i + 1) * 2)).
Proof.
  destruct (create_chunks_positions example_uuid4 2 1 "abcde" example_meta 6
              example_chunks) as [Hlen Hpos];
    [lia | simpl; lia | vm_compute; reflexivity |].
  split.
  - rewrite Hlen. vm_compute. reflexivity.
  - intros i c Hi. destruct (Hpos i c Hi) as (_ & H1 & _ & _ & H2 & _). auto.
Defined.

Lemma string_length_zero (s : string) : String.length s = 0%nat -> s = "".
Proof. destruct s; [reflexivity|discriminate]. Qed.

(** X2. With [0 <= overlap <= chunk_size] the chunks cover the text
    without a gap: the content of the first chunk followed by the content
    of every later chunk without its first [overlap] characters is the
    text. *)
Theorem create_chunks_reassemble (uuid4 : Z -> string) (cs ov : Z)
    (text : string) (meta : pydict) (fuel : nat) (chunks : list pydict) :
  0 < cs -> 0 <= ov -> ov <= cs -> (String.length text < fuel)%nat ->
  DocumentService.create_chunks cs ov uuid4 fuel text meta = Some chunks ->
  reassemble ov chunks = text.
Proof.
  intros Hcs Hov Hovcs Hfuel Hrun.
  rewrite (create_chunks_closed_form uuid4 cs ov text meta fuel Hcs Hfuel) in Hrun.
  injection Hrun as <-.
  pose proof (chunk_count_covers cs (py_len text) Hcs ltac:(unfold py_len; lia)) as Hcov.
  pose proof (fun j => chunk_count_inside cs (py_len text) j Hcs
                         ltac:(unfold py_len; lia)) as Hin.
  destruct (chunk_count cs (py_len text) 0) as [|n] eqn:Hn.
  - simpl. symmetry. apply string_length_zero. unfold py_len in Hcov. lia.
  - cbn [seq map reassemble].
    assert (H0 : DocumentService.chunk_content
                   (chunk_at cs ov uuid4 text meta (Z.of_nat 0))
                 = py_slice text 0 cs).
    { unfold chunk_at.
      destruct (chunk_field_make_chunk uuid4 meta
                  (py_slice text (chunk_start_at cs ov (Z.of_nat 0))
                     ((Z.of_nat 0 + 1) * cs))
                  (Z.of_nat 0) (chunk_start_at cs ov (Z.of_nat 0))
                  ((Z.of_nat 0 + 1) * cs))
        as (_ & _ & _ & _ & ->).
      unfold chunk_start_at. simpl. f_equal. lia. }
    rewrite H0. rewrite map_map.
    rewrite (map_ext_in _ (fun j => py_slice text (Z.of_nat j * cs) ((Z.of_nat j + 1) * cs))).
    + rewrite (strides_concat text cs Hcs n 1).
      replace (Z.of_nat 1 * cs) with cs by lia.
      rewrite py_slice_app by nia.
      apply py_slice_whole. lia.
    + intros j Hj. apply in_seq in Hj.
      unfold chunk_at.
      destruct (chunk_field_make_chunk uuid4 meta
                  (py_slice text (chunk_start_at cs ov (Z.of_nat j)) ((Z.of_nat j + 1) * cs))
                  (Z.of_nat j) (chunk_start_at cs ov (Z.of_nat j)) ((Z.of_nat j + 1) * cs))
        as (_ & _ & _ & _ & ->).
      assert (Hs : chunk_start_at cs ov (Z.of_nat j) = Z.of_nat j * cs - ov).
      { unfold chunk_start_at.
        destruct (Z.ltb_spec 0 (Z.of_nat j * cs)); [reflexivity|nia]. }
      rewrite Hs. rewrite py_tail_slice; [f_equal; lia|nia|lia|nia|].
      replace (Z.of_nat j * cs - ov + ov) with (Z.of_nat j * cs) by lia.
      specialize (Hin j ltac:(lia)). lia.
Qed.

Lemma create_chunks_reassemble_witness : reassemble 1 example_chunks = "abcde".
Proof.
  apply (create_chunks_reassemble example_uuid4 2 1 "abcde" example_meta 6);
    [lia | lia | lia | simpl; lia | vm_compute; reflexivity].
Defined.

(** X3. With [0 <= overlap <= chunk_size] no chunk is empty, the first one
    is at most [chunk_size] long, every other one is longer than the
    overlap (it brings at least one new character) and at most
    [chunk_size + overlap] long. *)
Theorem create_chunks_lengths (uuid4 : Z -> string) (cs ov : Z)
    (text : string) (meta : pydict) (fuel : nat) (chunks : list pydict) :
  0 < cs -> 0 <= ov -> ov <= cs -> (String.length text < fuel)%nat ->
  DocumentService.create_chunks cs ov uuid4 fuel text meta = Some chunks ->
  forall (i : nat) (c : pydict),
    chunks !! i = Some c ->
    let n := py_len (DocumentService.chunk_content c) in
    1 <= n /\ n <= cs + ov /\ (i = 0%nat -> n <= cs) /\ (i <> 0%nat -> ov < n).
Proof.
  intros Hcs Hov Hovcs Hfuel Hrun i c Hi.
  destruct (create_chunks_positions uuid4 cs ov text meta fuel chunks Hcs Hfuel Hrun)
    as [Hlen Hpos].
  destruct (Hpos i c Hi) as (_ & _ & _ & _ & _ & Hcontent).
  cbv zeta in *. rewrite Hcontent.
  apply lookup_lt_Some in Hi. rewrite Hlen in Hi.
  pose proof (chunk_count_inside cs (py_len text) i Hcs
                ltac:(unfold py_len; lia) Hi) as Hin.
  destruct i as [|i].
  - rewrite py_len_slice by lia. lia.
  - rewrite py_len_slice by nia. nia.
Qed.

Lemma create_chunks_lengths_witness :
  let n := py_len (DocumentService.chunk_content
                     (chunk_at 2 1 example_uuid4 "abcde" example_meta 1)) in
  1 <= n /\ n <= 2 + 1 /\ (1%nat = 0%nat -> n <= 2) /\ (1%nat <> 0%nat -> 1 < n).
Proof.
  apply (create_chunks_lengths example_uuid4 2 1 "abcde" example_meta 6
           example_chunks ltac:(lia) ltac:(lia) ltac:(lia)
           ltac:(simpl; lia) ltac:(vm_compute; reflexivity) 1%nat
           (chunk_at 2 1 example_uuid4 "abcde" example_meta 1)).
  vm_compute. reflexivity.
Defined.

(** X4. With a chunk size that is zero or negative, [create_chunks] on a
    text that is not empty never returns: no amount of fuel lets the loop
    end. *)
Theorem create_chunks_never_returns (uuid4 : Z -> string) (cs ov : Z)
    (text : string) (meta : pydict) :
  cs <= 0 -> text <> "" ->
  forall fuel, DocumentService.create_chunks cs ov uuid4 fuel text meta = None.
Proof.
  intros Hcs Hne fuel. unfold DocumentService.create_chunks.
  apply create_chunks_loop_diverges; [assumption|].
  unfold py_len. destruct text; [congruence|simpl; lia].
Qed.

Lemma create_chunks_never_returns_witness :
  DocumentService.create_chunks 0 200 example_uuid4 1000 "a" example_meta = None.
Proof.
  apply (create_chunks_never_returns example_uuid4 0 200 "a" example_meta);
    [lia | discriminate].
Defined.

(** X5. Every chunk has exactly the keys [chunk_id], [content] and
    [metadata], and its metadata holds every entry of the metadata of the
    document unchanged, except under the four position keys, which
    [create_chunks] overwrites. *)
Theorem create_chunks_keeps_metadata (uuid4 : Z -> string) (cs ov : Z)
    (text : string) (meta : pydict) (fuel : nat) (chunks : list pydict) :
  0 < cs -> (String.length text < fuel)%nat ->
  DocumentService.create_chunks cs ov uuid4 fuel text meta = Some chunks ->
  forall c, c ∈ chunks ->
    dom c = {[ "chunk_id"; "content"; "metadata" ]}
    /\ forall k, k ∉ position_keys -> DocumentService.chunk_field k c = meta !! k.
Proof.
  intros Hcs Hfuel Hrun c Hc.
  rewrite (create_chunks_closed_form uuid4 cs ov text meta fuel Hcs Hfuel) in Hrun.
  injection Hrun as <-.
  apply list_elem_of_fmap in Hc as (j & -> & _). unfold chunk_at. split.
  - unfold DocumentService.make_chunk. rewrite !dom_insert_L, dom_singleton_L.
    set_solver.
  - intros k Hk. unfold DocumentService.chunk_field, DocumentService.chunk_meta,
      DocumentService.make_chunk.
    assert (k <> "chunk_index" /\ k <> "is_first_chunk" /\ k <> "chunk_start"
            /\ k <> "chunk_end") as (? & ? & ? & ?).
    { unfold position_keys in Hk. repeat split; intros ->; apply Hk; set_solver. }
    by simplify_map_eq.
Qed.

Lemma create_chunks_keeps_metadata_witness :
  dom (chunk_at 2 1 example_uuid4 "abcde" example_meta 0)
  = {[ "chunk_id"; "content"; "metadata" ]}
  /\ DocumentService.chunk_field "filename"
       (chunk_at 2 1 example_uuid4 "abcde" example_meta 0)
     = example_meta !! "filename".
Proof.
  destruct (create_chunks_keeps_metadata example_uuid4 2 1 "abcde" example_meta 6
              example_chunks ltac:(lia) ltac:(simpl; lia)
              ltac:(vm_compute; reflexivity)
              (chunk_at 2 1 example_uuid4 "abcde" example_meta 0)) as [Hdom Hkeep].
  - apply list_elem_of_lookup. exists 0%nat. vm_compute. reflexivity.
  - split; [exact Hdom|]. apply Hkeep.
    unfold position_keys. intros H. repeat (apply elem_of_cons in H as [H|H];
      [discriminate|]). inversion H.
Defined.

Section CatalogLookup.
Import DocumentService.

Lemma is_filename_false v f : v <> VStr f -> is_filename v f = false.
Proof.
  intros H. destruct (is_filename v f) eqn:E; [|reflexivity].
  by apply is_filename_true in E.
Qed.

Lemma find_metadata_skips before f rest :
  Forall (names_other_file f) before ->
  find_metadata (before ++ rest) f = find_metadata rest f.
Proof.
  induction 1 as [|m before (v & Hv & Hne) _ IH]; [reflexivity|].
  simpl. unfold getitem. rewrite Hv. rewrite is_filename_false by assumption.
  exact IH.
Qed.
End CatalogLookup.

(** X6. When the catalog has several entries for a file, the first one is
    used: the entries before it name other files, and whatever follows it
    is not looked at. *)
Theorem find_metadata_first_match (pdf_dir : string)
    (read_pdf : string -> result string)
    (before after : list pydict) (m : pydict) (f text : string) :
  Forall (names_other_file f) before ->
  m !! "filename" = Some (VStr f) ->
  endswith f ".pdf" = true ->
  read_pdf (DocumentService.path_join pdf_dir f) = Ok text ->
  DocumentService.find_metadata (before ++ m :: after) f = Ok (Some m)
  /\ DocumentService.process_single_document pdf_dir read_pdf f
       (before ++ m :: after)
     = Some (DocumentService.make_document text m).
Proof.
  intros Hbefore Hm Hpdf Hread.
  assert (Hfind : DocumentService.find_metadata (before ++ m :: after) f = Ok (Some m)).
  { rewrite find_metadata_skips by assumption. simpl. unfold getitem.
    rewrite Hm. simpl. by rewrite String.eqb_refl. }
  split; [exact Hfind|].
  apply process_single_document_some. eauto 10.
Qed.

Lemma find_metadata_first_match_witness :
  DocumentService.process_single_document "pdfs" example_read_pdf "a.pdf"
    catalog_with_duplicate
  = Some (DocumentService.make_document "text of a"
            {[ "filename" := VStr "a.pdf"; "case" := VStr "first" ]}).
Proof.
  apply (find_metadata_first_match "pdfs" example_read_pdf
           [ {[ "filename" := VStr "b.pdf"; "case" := VStr "B v C" ]} ]
           [ {[ "filename" := VStr "a.pdf"; "case" := VStr "second" ]} ]
           {[ "filename" := VStr "a.pdf"; "case" := VStr "first" ]}
           "a.pdf" "text of a").
  - constructor; [|constructor].
    exists (VStr "b.pdf"). split; [vm_compute; reflexivity | discriminate].
  - vm_compute. reflexivity.
  - vm_compute. reflexivity.
  - vm_compute. reflexivity.
Defined.

Lemma find_metadata_key_error before bad after f :
  Forall (names_other_file f) before ->
  bad !! "filename" = None ->
  DocumentService.find_metadata (before ++ bad :: after) f
  = Raise (KeyError "filename").
Proof.
  intros Hbefore Hbad. rewrite find_metadata_skips by assumption.
  simpl. unfold getitem. by rewrite Hbad.
Qed.

(** X7. A catalog entry without [filename] makes the lookup of every
    file that is not matched before it raise [KeyError], which
    [process_single_document] turns into [None]: the file is dropped even
    when a later entry names it. *)
Theorem catalog_entry_without_filename (pdf_dir : string)
    (read_pdf : string -> result string)
    (before after : list pydict) (bad : pydict) (f : string) :
  Forall (names_other_file f) before ->
  bad !! "filename" = None ->
  DocumentService.find_metadata (before ++ bad :: after) f
  = Raise (KeyError "filename")
  /\ DocumentService.process_single_document pdf_dir read_pdf f
       (before ++ bad :: after) = None.
Proof.
  intros Hbefore Hbad.
  pose proof (find_metadata_key_error before bad after f Hbefore Hbad) as Hfind.
  split; [exact Hfind|].
  unfold DocumentService.process_single_document. rewrite Hfind.
  destruct (negb (endswith f ".pdf")); reflexivity.
Qed.

Lemma catalog_entry_without_filename_witness :
  DocumentService.process_single_document "pdfs" example_read_pdf "a.pdf"
    catalog_with_bad_entry = None.
Proof.
  apply (catalog_entry_without_filename "pdfs" example_read_pdf
           [ {[ "filename" := VStr "b.pdf"; "case" := VStr "B v C" ]} ]
           [ {[ "filename" := VStr "a.pdf"; "case" := VStr "A v B" ]} ]
           {[ "case" := VStr "no file name" ]} "a.pdf").
  - constructor; [|constructor].
    exists (VStr "b.pdf"). split; [vm_compute; reflexivity | discriminate].
  - vm_compute. reflexivity.
Defined.

(** X8. When the first entry of the catalog has no [filename],
    [process_documents_parallel] returns no document at all, and raises
    nothing. *)
Theorem first_entry_without_filename_loads_nothing (pdf_dir : string)
    (read_pdf : string -> result string)
    (bad : pydict) (rest : list pydict) (names : list string) :
  bad !! "filename" = None ->
  DocumentService.process_documents_parallel pdf_dir read_pdf
    (Ok (bad :: rest)) (Ok names) = Ok [].
Proof.
  intros Hbad. unfold DocumentService.process_documents_parallel,
    DocumentService.load_metadata. f_equal.
  induction names as [|f names IH]; [reflexivity|].
  rewrite filter_cons. destruct (decide (endswith f ".pdf" = true)); [|exact IH].
  cbn [map omap]. unfold DocumentService.process_single_document at 1.
  pose proof (find_metadata_key_error [] bad rest f ltac:(constructor) Hbad) as Hfind.
  cbn [app] in Hfind. rewrite Hfind.
  destruct (negb (endswith f ".pdf")); exact IH.
Qed.

Lemma first_entry_without_filename_loads_nothing_witness :
  DocumentService.process_documents_parallel "pdfs" example_read_pdf
    (Ok ({[ "case" := VStr "no file name" ]} :: example_catalog))
    (Ok example_names) = Ok [].
Proof.
  apply (first_entry_without_filename_loads_nothing "pdfs" example_read_pdf
           {[ "case" := VStr "no file name" ]} example_catalog example_names).
  vm_compute. reflexivity.
Defined.

(** X9. The documents are returned in the order of the directory listing:
    their file names are the listed names for which
    [process_single_document] returned a document, in that order. *)
Theorem process_documents_parallel_order (pdf_dir : string)
    (read_pdf : string -> result string) (catalog : list pydict)
    (names : list string) (docs : list pydict) :
  DocumentService.process_documents_parallel pdf_dir read_pdf
    (Ok catalog) (Ok names) = Ok docs ->
  omap DocumentService.document_filename docs
  = filter (fun f => is_Some (DocumentService.process_single_document
                                pdf_dir read_pdf f catalog)) names.
Proof.
  intros [= <-]. fold (loaded pdf_dir read_pdf catalog names).
  induction names as [|f names IH1]; [reflexivity|].
  rewrite loaded_cons, filter_cons.
  destruct (DocumentService.process_single_document pdf_dir read_pdf f catalog)
    as [d|] eqn:Hd.
  - rewrite decide_True by eauto.
    pose proof (process_single_document_filename _ _ _ _ _ Hd) as Hname.
    simpl. rewrite Hname. simpl. f_equal. exact IH1.
  - rewrite decide_False by (intros [? ?]; discriminate).
    exact IH1.
Qed.

Lemma process_documents_parallel_order_witness :
  omap DocumentService.document_filename
    (loaded "pdfs" example_read_pdf example_catalog example_names)
  = filter (fun f => is_Some (DocumentService.process_single_document
                                "pdfs" example_read_pdf f example_catalog))
      example_names.
Proof.
  apply (process_documents_parallel_order "pdfs" example_read_pdf
           example_catalog example_names
           (loaded "pdfs" example_read_pdf example_catalog example_names)).
  reflexivity.
Defined.

(** ** [process_chunks_in_batches], [process_all]: from documents to chunks *)

Section PipelineProperties.
Import DocumentPipeline.
Variables (cs ov bs : Z).
Variable uuid4 : nat -> Z -> string.
Variable fuel : nat.

Lemma all_document_chunks_app pos (a b : list pydict) :
  all_document_chunks cs ov uuid4 fuel pos (a ++ b)
  = all_document_chunks cs ov uuid4 fuel pos a
    ++ all_document_chunks cs ov uuid4 fuel (pos + length a) b.
Proof.
  revert pos. induction a as [|d a IH]; intros pos; simpl.
  - by rewrite Nat.add_0_r.
  - rewrite IH, <- app_assoc. do 3 f_equal. lia.
Qed.

Lemma batch_collected (batch : list pydict) : forall pos total,
  (forall i doc, batch !! i = Some doc ->
                 submittable cs ov uuid4 fuel (pos + i) doc) ->
  exists futures,
    submit_batch cs ov uuid4 fuel pos batch = (futures, None)
    /\ collect futures total
       = Some (total ++ all_document_chunks cs ov uuid4 fuel pos batch).
Proof.
  induction batch as [|doc rest IH]; intros pos total Hall.
  - exists []. split; [reflexivity|]. simpl. by rewrite app_nil_r.
  - destruct (Hall 0%nat doc eq_refl) as (content & metadata & r & Hc & Hm & Hr).
    rewrite Nat.add_0_r in Hr.
    destruct (IH (S pos)
                (total ++ document_chunks cs ov uuid4 fuel pos doc))
      as (futures & Hsub & Hcol).
    { intros i d Hi. replace (S pos + i)%nat with (pos + S i)%nat by lia.
      by apply Hall. }
    exists (Some r :: futures). split.
    + simpl. unfold getitem. rewrite Hc, Hm, Hr, Hsub. reflexivity.
    + cbn [collect all_document_chunks]. unfold document_chunks in *.
      rewrite Hc, Hm, Hr in *. destruct r as [chunks|e].
      * rewrite Hcol, <- app_assoc. reflexivity.
      * rewrite app_nil_r in Hcol. rewrite Hcol. reflexivity.
Qed.

Lemma process_batches_collected (todo : list (list pydict)) : forall pos total,
  (forall i doc, concat todo !! i = Some doc ->
                 submittable cs ov uuid4 fuel (pos + i) doc) ->
  process_batches cs ov uuid4 fuel pos todo total
  = Some (Ok (total ++ all_document_chunks cs ov uuid4 fuel pos (concat todo))).
Proof.
  induction todo as [|batch rest IH]; intros pos total Hall.
  - simpl. by rewrite app_nil_r.
  - cbn [process_batches concat].
    destruct (batch_collected batch pos total) as (futures & Hsub & Hcol).
    { intros i d Hi. apply Hall. simpl. by apply lookup_app_l_Some. }
    rewrite Hsub, Hcol. rewrite IH.
    + rewrite all_document_chunks_app, <- app_assoc. reflexivity.
    + intros i d Hi. replace (pos + length batch + i)%nat
        with (pos + (length batch + i))%nat by lia.
      apply Hall. simpl. rewrite lookup_app_r by lia.
      replace (length batch + i - length batch)%nat with i by lia. exact Hi.
Qed.

Lemma batches_fuel_concat {A} (n : nat) : forall fuel' (l : list A),
  (0 < n)%nat -> (length l <= fuel')%nat ->
  concat (BootstrapService.batches_fuel fuel' n l) = l.
Proof.
  induction fuel' as [|fuel' IH]; intros l Hn Hl.
  - destruct l; [reflexivity|simpl in Hl; lia].
  - destruct l as [|a l]; [reflexivity|].
    cbn [BootstrapService.batches_fuel concat].
    rewrite IH; [apply take_drop|assumption|].
    rewrite length_drop. simpl in *. lia.
Qed.
End PipelineProperties.

Section PipelineErrors.
Import DocumentPipeline.
Variables (cs ov bs : Z).
Variable uuid4 : nat -> Z -> string.
Variable fuel : nat.

Lemma submit_batch_outcome (batch : list pydict) : forall pos futures err,
  submit_batch cs ov uuid4 fuel pos batch = (futures, err) ->
  match err with
  | None => Forall has_document_keys batch
  | Some e => (e = KeyError "content" \/ e = KeyError "metadata")
              /\ ~ Forall has_document_keys batch
  end.
Proof.
  induction batch as [|doc rest IH]; intros pos futures err; simpl.
  - intros [= <- <-]. constructor.
  - unfold getitem.
    destruct (doc !! "content") as [content|] eqn:Hc.
    + destruct (doc !! "metadata") as [metadata|] eqn:Hm.
      * destruct (submit_batch cs ov uuid4 fuel (S pos) rest) as [fs e'] eqn:Hs.
        intros [= <- <-]. specialize (IH _ _ _ Hs). destruct e' as [e|].
        -- destruct IH as [He Hnot]. split; [exact He|].
           intros HF. apply Hnot. by inversion HF.
        -- constructor; [|exact IH]. split; eauto.
      * intros [= <- <-]. split; [by right|].
        intros HF. inversion HF as [|? ? [_ [? Hx]] _]. congruence.
    + intros [= <- <-]. split; [by left|].
      intros HF. inversion HF as [|? ? [[? Hx] _] _]. congruence.
Qed.

Lemma process_batches_outcome (todo : list (list pydict)) : forall pos total r,
  process_batches cs ov uuid4 fuel pos todo total = Some r ->
  match r with
  | Ok _ => Forall has_document_keys (concat todo)
  | Raise e => (e = KeyError "content" \/ e = KeyError "metadata")
               /\ ~ Forall has_document_keys (concat todo)
  end.
Proof.
  induction todo as [|batch rest IH]; intros pos total r; cbn [process_batches concat].
  - intros [= <-]. constructor.
  - destruct (submit_batch cs ov uuid4 fuel pos batch) as [futures [e|]] eqn:Hs;
      pose proof (submit_batch_outcome _ _ _ _ Hs) as Hout.
    + destruct (all_done futures); [|discriminate]. intros [= <-].
      destruct Hout as [He Hnot]. split; [exact He|].
      intros HF. apply Hnot. by apply Forall_app in HF as [? _].
    + destruct (collect futures total) as [total'|]; [|discriminate].
      intros H. specialize (IH _ _ _ H). destruct r as [chunks|e].
      * apply Forall_app. split; assumption.
      * destruct IH as [He Hnot]. split; [exact He|].
        intros HF. apply Hnot. by apply Forall_app in HF as [_ ?].
Qed.
End PipelineErrors.

(** X10. When every document has its two keys and every call of
    [create_chunks] ends, [process_chunks_in_batches] returns the chunks of
    the documents in document order, whatever the (positive) batch size;
    a document whose call raises is logged and contributes no chunk, and
    the other documents are not affected. *)
Theorem process_chunks_in_batches_result (cs ov bs : Z)
    (uuid4 : nat -> Z -> string) (fuel : nat) (documents : list pydict) :
  0 < bs ->
  (forall i doc, documents !! i = Some doc ->
                 submittable cs ov uuid4 fuel i doc) ->
  DocumentPipeline.process_chunks_in_batches cs ov bs uuid4 fuel documents
  = Some (Ok (all_document_chunks cs ov uuid4 fuel 0 documents)).
Proof.
  intros Hbs Hall. unfold DocumentPipeline.process_chunks_in_batches,
    BootstrapService.batches.
  destruct (Z.eqb_spec bs 0) as [?|_]; [lia|].
  destruct (Z.ltb_spec bs 0) as [?|_]; [lia|].
  rewrite process_batches_collected.
  - rewrite batches_fuel_concat by lia. reflexivity.
  - rewrite batches_fuel_concat by lia. exact Hall.
Qed.

Lemma process_chunks_in_batches_result_witness :
  DocumentPipeline.process_chunks_in_batches 2 1 2 example_uuid4_at 6
    example_documents
  = Some (Ok (all_document_chunks 2 1 example_uuid4_at 6 0 example_documents))
  /\ map DocumentService.chunk_content
       (all_document_chunks 2 1 example_uuid4_at 6 0 example_documents)
     = ["ab"; "bcd"; "de"; "xy"].
Proof.
  split; [|vm_compute; reflexivity].
  apply (process_chunks_in_batches_result 2 1 2 example_uuid4_at 6
           example_documents); [lia|].
  intros [|[|[|i]]] doc Hi; try discriminate; injection Hi as <-;
    eexists _, _, _; (split; [|split]); vm_compute; reflexivity.
Defined.

(** X11. A document without [content] or [metadata] is not skipped: when
    some document lacks one of the keys, a call that ends raises
    [KeyError] for that key and returns no chunk of any document. *)
Theorem process_chunks_in_batches_missing_key (cs ov bs : Z)
    (uuid4 : nat -> Z -> string) (fuel : nat) (documents : list pydict)
    (r : result (list pydict)) :
  0 < bs ->
  ~ Forall has_document_keys documents ->
  DocumentPipeline.process_chunks_in_batches cs ov bs uuid4 fuel documents
  = Some r ->
  r = Raise (KeyError "content") \/ r = Raise (KeyError "metadata").
Proof.
  intros Hbs Hnot. unfold DocumentPipeline.process_chunks_in_batches,
    BootstrapService.batches.
  destruct (Z.eqb_spec bs 0) as [?|_]; [lia|].
  destruct (Z.ltb_spec bs 0) as [?|_]; [lia|].
  intros H. apply process_batches_outcome in H.
  rewrite batches_fuel_concat in H by lia.
  destruct r as [chunks|e]; [contradiction|].
  destruct H as [[->| ->] _]; auto.
Qed.

Lemma process_chunks_in_batches_missing_key_witness :
  DocumentPipeline.process_chunks_in_batches 2 1 2 example_uuid4_at 6
    documents_without_content
  = Some (Raise (KeyError "content"))
  /\ (Raise (KeyError "content") = Raise (A := list pydict) (KeyError "content")
      \/ Raise (KeyError "content") = Raise (A := list pydict) (KeyError "metadata")).
Proof.
  assert (Hrun : DocumentPipeline.process_chunks_in_batches 2 1 2
                   example_uuid4_at 6 documents_without_content
                 = Some (Raise (KeyError "content")))
    by (vm_compute; reflexivity).
  split; [exact Hrun|].
  apply (process_chunks_in_batches_missing_key 2 1 2 example_uuid4_at 6
           documents_without_content (Raise (KeyError "content")));
    [lia | | exact Hrun].
  intros HF. inversion HF as [|? ? _ HF1]. inversion HF1 as [|? ? [[v Hv] _] _].
  vm_compute in Hv. discriminate.
Defined.

Section StringChunks.
Import DocumentPipeline.

Lemma create_chunks_loop_any_string cs ov uuid4 (s : string) meta :
  forall fuel start idx chunks,
    create_chunks_loop_any cs ov uuid4 fuel (VStr s) (py_len s) meta start idx chunks
    = option_map Ok
        (DocumentService.create_chunks_loop cs ov uuid4 fuel s meta start idx chunks).
Proof.
  induction fuel as [|fuel IH]; intros start idx chunks; [reflexivity|].
  simpl. destruct (start <? py_len s); [|reflexivity]. apply IH.
Qed.

(** On a string and a dictionary the method is [create_chunks] as modelled
    on strings. *)
Lemma create_chunks_any_string cs ov uuid4 fuel (s : string) (meta : pydict) :
  create_chunks_any cs ov uuid4 fuel (VStr s) (VDict meta)
  = option_map Ok (DocumentService.create_chunks cs ov uuid4 fuel s meta).
Proof. apply create_chunks_loop_any_string. Qed.
End StringChunks.

Lemma document_chunks_make_document cs ov uuid4 fuel pos text (m : pydict) :
  document_chunks cs ov uuid4 fuel pos (DocumentService.make_document text m)
  = default [] (DocumentService.create_chunks cs ov (uuid4 pos) fuel text m).
Proof.
  assert (H1 : DocumentService.make_document text m !! "content" = Some (VStr text))
    by (unfold DocumentService.make_document; by simplify_map_eq).
  assert (H2 : DocumentService.make_document text m !! "metadata" = Some (VDict m))
    by (unfold DocumentService.make_document; by simplify_map_eq).
  unfold document_chunks. rewrite H1, H2, create_chunks_any_string.
  destruct (DocumentService.create_chunks cs ov (uuid4 pos) fuel text m); reflexivity.
Qed.

Lemma elem_of_all_document_chunks cs ov uuid4 fuel (docs : list pydict) :
  forall pos c,
    c ∈ all_document_chunks cs ov uuid4 fuel pos docs ->
    exists i doc, docs !! i = Some doc
                  /\ c ∈ document_chunks cs ov uuid4 fuel (pos + i) doc.
Proof.
  induction docs as [|d docs IH]; intros pos c Hc; [inversion Hc|].
  simpl in Hc. apply elem_of_app in Hc as [Hc|Hc].
  - exists 0%nat, d. rewrite Nat.add_0_r. auto.
  - apply IH in Hc as (i & doc & Hi & Hc). exists (S i), doc.
    replace (pos + S i)%nat with (S pos + i)%nat by lia. auto.
Qed.

(** X12. [process_all] on the documents [process_documents_parallel]
    loaded: with positive chunk and batch sizes (and enough fuel for the
    longest text) it returns chunks, and every chunk comes from a listed
    PDF that has a catalog entry and a readable text: its content is a
    slice of that text, its metadata names that file and holds every
    entry of the catalog entry outside the four position keys. *)
Theorem process_all_chunks (cs ov bs : Z) (uuid4 : nat -> Z -> string)
    (fuel : nat) (pdf_dir : string) (read_pdf : string -> result string)
    (catalog : list pydict) (names : list string) :
  0 < cs -> 0 < bs ->
  (forall f text, read_pdf (DocumentService.path_join pdf_dir f) = Ok text ->
                  (String.length text < fuel)%nat) ->
  exists chunks,
    DocumentPipeline.process_all cs ov bs uuid4 fuel
      (DocumentService.process_documents_parallel pdf_dir read_pdf
         (Ok catalog) (Ok names))
    = Some (Ok chunks)
    /\ forall c, c ∈ chunks ->
         exists f m text a b,
           f ∈ names
           /\ endswith f ".pdf" = true
           /\ DocumentService.find_metadata catalog f = Ok (Some m)
           /\ read_pdf (DocumentService.path_join pdf_dir f) = Ok text
           /\ DocumentService.chunk_field "filename" c = Some (VStr f)
           /\ (forall k, k ∉ position_keys ->
                         DocumentService.chunk_field k c = m !! k)
           /\ c !! "content" = Some (VStr (py_slice text a b)).
Proof.
  intros Hcs Hbs Hfuel.
  change (DocumentService.process_documents_parallel pdf_dir read_pdf
            (Ok catalog) (Ok names))
    with (Ok (loaded pdf_dir read_pdf catalog names) : result (list pydict)).
  set (docs := loaded pdf_dir read_pdf catalog names).
  assert (Hdocs : forall i doc, docs !! i = Some doc ->
            exists f m text,
              f ∈ names /\ endswith f ".pdf" = true
              /\ DocumentService.find_metadata catalog f = Ok (Some m)
              /\ read_pdf (DocumentService.path_join pdf_dir f) = Ok text
              /\ doc = DocumentService.make_document text m).
  { intros i doc Hi. apply list_elem_of_lookup_2 in Hi.
    apply elem_of_loaded in Hi as (f & Hf & Hd).
    apply process_single_document_some in Hd as (m & text & ? & ? & ? & ?).
    exists f, m, text. auto. }
  eexists. split.
  - unfold DocumentPipeline.process_all.
    apply process_chunks_in_batches_result; [assumption|].
    intros i doc Hi. destruct (Hdocs i doc Hi) as (f & m & text & _ & _ & _ & Hr & ->).
    exists (VStr text), (VDict m).
    eexists. split; [|split].
    + unfold DocumentService.make_document. by simplify_map_eq.
    + unfold DocumentService.make_document. by simplify_map_eq.
    + rewrite create_chunks_any_string.
      rewrite (create_chunks_closed_form (uuid4 i) cs ov text m fuel Hcs
                 (Hfuel f text Hr)).
      reflexivity.
  - intros c Hc.
    apply elem_of_all_document_chunks in Hc as (i & doc & Hi & Hc).
    destruct (Hdocs i doc Hi) as (f & m & text & Hf & Hpdf & Hfind & Hr & ->).
    rewrite (document_chunks_make_document cs ov uuid4 fuel (0 + i) text m) in Hc.
    rewrite (create_chunks_closed_form (uuid4 (0 + i)%nat) cs ov text m fuel Hcs
               (Hfuel f text Hr)) in Hc.
    simpl in Hc. apply list_elem_of_fmap in Hc as (j & -> & _).
    assert (Hkeep : forall k, k ∉ position_keys ->
              DocumentService.chunk_field k
                (chunk_at cs ov (uuid4 i) text m (Z.of_nat j)) = m !! k).
    { intros k Hk. unfold DocumentService.chunk_field, DocumentService.chunk_meta,
        chunk_at, DocumentService.make_chunk.
      assert (k <> "chunk_index" /\ k <> "is_first_chunk" /\ k <> "chunk_start"
              /\ k <> "chunk_end") as (? & ? & ? & ?).
      { unfold position_keys in Hk. repeat split; intros ->; apply Hk; set_solver. }
      by simplify_map_eq. }
    exists f, m, text, (chunk_start_at cs ov (Z.of_nat j)), ((Z.of_nat j + 1) * cs).
    split; [exact Hf|]. split; [exact Hpdf|]. split; [exact Hfind|].
    split; [exact Hr|]. split; [|split; [exact Hkeep|]].
    + rewrite Hkeep.
      * by apply find_metadata_some in Hfind as [_ ?].
      * unfold position_keys. intros H.
        repeat (apply elem_of_cons in H as [H|H]; [discriminate|]). inversion H.
    + unfold chunk_at, DocumentService.make_chunk. by simplify_map_eq.
Qed.

Lemma process_all_chunks_witness :
  exists chunks,
    DocumentPipeline.process_all 4 1 2 example_uuid4_at 20
      (DocumentService.process_documents_parallel "pdfs" example_read_pdf
         (Ok example_catalog) (Ok example_names))
    = Some (Ok chunks)
    /\ forall c, c ∈ chunks ->
         exists f, f ∈ example_names
                   /\ DocumentService.chunk_field "filename" c = Some (VStr f).
Proof.
  destruct (process_all_chunks 4 1 2 example_uuid4_at 20 "pdfs" example_read_pdf
              example_catalog example_names) as (chunks & Hrun & Hall);
    [lia | lia | |].
  - intros f text H. unfold example_read_pdf in H.
    destruct (String.eqb _ _); [injection H as <-; simpl; lia | discriminate].
  - exists chunks. split; [exact Hrun|].
    intros c Hc. destruct (Hall c Hc) as (f & _ & _ & _ & _ & Hf & _ & _ & _ & Hname & _).
    exists f. auto.
Defined.

(** ** The ingestion service as it is written, and its loops *)

(** X13. [process_chunks_to_vectors] as it is written makes no call to
    the index or to the embedding endpoint, whatever it is given. With a
    batch size of zero it raises [ValueError]; with a negative one, or
    with no chunks, it returns the empty list; otherwise it stops at the
    first chunk: [KeyError] when that chunk has no [chunk_id], and else
    [TypeError] from the existence check, which is called without the
    index. *)
Theorem process_chunks_to_vectors_outcomes (batch_size : Z)
    (fetch_error : list BootstrapService.event -> list value -> option exn)
    (openai_embeddings : list BootstrapService.event -> list value -> result (list value))
    (time_time : list BootstrapService.event -> Z)
    (chunks : list pydict) (index : value) (w : BootstrapService.world) :
  let run := BootstrapService.process_chunks_to_vectors batch_size fetch_error
               openai_embeddings time_time chunks index w in
  snd run = w
  /\ (batch_size = 0 -> exists msg, fst run = Raise (ValueError msg))
  /\ (batch_size < 0 -> fst run = Ok [])
  /\ (0 < batch_size -> chunks = [] -> fst run = Ok [])
  /\ (0 < batch_size ->
      forall c rest, chunks = c :: rest ->
        match c !! "chunk_id" with
        | Some _ => exists msg, fst run = Raise (TypeError msg)
        | None => fst run = Raise (KeyError "chunk_id")
        end).
Proof.
  cbv zeta.
  unfold BootstrapService.process_chunks_to_vectors,
    BootstrapService.process_chunks_to_vectors_with, bind, lift,
    BootstrapService.batches.
  destruct (Z.eqb_spec batch_size 0) as [H0|H0].
  { simpl. split; [reflexivity|]. repeat split; try lia. eauto. }
  destruct (Z.ltb_spec batch_size 0) as [Hneg|Hpos].
  { simpl. split; [reflexivity|]. repeat split; try lia; reflexivity. }
  destruct chunks as [|c l].
  { simpl. split; [reflexivity|]. repeat split; try lia; try reflexivity.
    intros _ c rest [=]. }
  destruct (Z.to_nat batch_size) as [|k] eqn:Hk; [lia|].
  cbn [length BootstrapService.batches_fuel take
       BootstrapService.process_batches BootstrapService.select_new_chunks].
  unfold bind, lift, getitem.
  destruct (c !! "chunk_id") as [id|] eqn:Hid.
  - simpl. split; [reflexivity|]. repeat split; try lia; try discriminate.
    intros _ c' rest [= <- <-]. rewrite Hid. eauto.
  - simpl. split; [reflexivity|]. repeat split; try lia; try discriminate.
    intros _ c' rest [= <- <-]. rewrite Hid. reflexivity.
Qed.

Lemma process_chunks_to_vectors_outcomes_witness :
  exists msg,
    fst (BootstrapService.process_chunks_to_vectors 3 IngestionExample.no_error
           IngestionExample.embed_ok IngestionExample.clock
           [IngestionExample.c1; IngestionExample.c2] IngestionExample.index
           IngestionExample.empty_index)
    = Raise (TypeError msg).
Proof.
  destruct (process_chunks_to_vectors_outcomes 3 IngestionExample.no_error
              IngestionExample.embed_ok IngestionExample.clock
              [IngestionExample.c1; IngestionExample.c2] IngestionExample.index
              IngestionExample.empty_index) as (_ & _ & _ & _ & H).
  exact (H ltac:(lia) IngestionExample.c1 [IngestionExample.c2] eq_refl).
Defined.


(** X14. With a positive batch size, [bootstrap] succeeds only on an
    empty corpus, with all three counters at zero; for any other list of
    chunks it raises, and in both cases nothing is fetched, embedded or
    upserted. *)
Theorem bootstrap_succeeds_only_without_chunks (batch_size : Z)
    (fetch_error : list BootstrapService.event -> list value -> option exn)
    (openai_embeddings : list BootstrapService.event -> list value -> result (list value))
    (upsert_error : list BootstrapService.event -> list value -> option exn)
    (time_time : list BootstrapService.event -> Z)
    (index : value) (chunks : list pydict) (w : BootstrapService.world) :
  0 < batch_size ->
  let run := BootstrapService.bootstrap batch_size fetch_error openai_embeddings
               upsert_error time_time (Ok index) (Ok chunks) w in
  snd run = w
  /\ (chunks = [] ->
      fst run = Ok {| BootstrapService.chunks_processed := 0;
                      BootstrapService.new_vectors_created := 0;
                      BootstrapService.batches_processed := 0 |})
  /\ (chunks <> [] -> exists e, fst run = Raise e).
Proof.
  intros Hpos. cbv zeta.
  destruct chunks as [|c l].
  - unfold BootstrapService.bootstrap, BootstrapService.bootstrap_with,
      BootstrapService.process_chunks_to_vectors_with, bind, lift,
      BootstrapService.batches.
    destruct (Z.eqb_spec batch_size 0) as [?|_]; [lia|].
    destruct (Z.ltb_spec batch_size 0) as [?|_]; [lia|].
    simpl. repeat split; congruence.
  - destruct (process_chunks_to_vectors_raises batch_size fetch_error
                openai_embeddings time_time (c :: l) index w Hpos
                ltac:(discriminate)) as [e He].
    unfold BootstrapService.bootstrap, BootstrapService.bootstrap_with, bind, lift.
    unfold BootstrapService.process_chunks_to_vectors in He. rewrite He.
    simpl. repeat split; [discriminate | eauto].
Qed.

Lemma bootstrap_succeeds_only_without_chunks_witness :
  let run := BootstrapService.bootstrap 3 IngestionExample.no_error
               IngestionExample.embed_ok IngestionExample.no_error
               IngestionExample.clock (Ok IngestionExample.index)
               (Ok [IngestionExample.c1]) IngestionExample.empty_index in
  snd run = IngestionExample.empty_index
  /\ ([IngestionExample.c1] = [] ->
      fst run = Ok {| BootstrapService.chunks_processed := 0;
                      BootstrapService.new_vectors_created := 0;
                      BootstrapService.batches_processed := 0 |})
  /\ ([IngestionExample.c1] <> [] -> exists e, fst run = Raise e).
Proof.
  apply (bootstrap_succeeds_only_without_chunks 3 IngestionExample.no_error
           IngestionExample.embed_ok IngestionExample.no_error
           IngestionExample.clock IngestionExample.index
           [IngestionExample.c1] IngestionExample.empty_index).
  lia.
Defined.


Section UpsertLoop.
Import BootstrapService.
Variable upsert_error : list event -> list value -> option exn.
Variable name : string.

Lemma upserted_app t1 t2 : upserted (t1 ++ t2) = upserted t1 ++ upserted t2.
Proof. unfold upserted. apply flat_map_app. Qed.

Lemma upsert_calls_app t1 t2 :
  upsert_calls (t1 ++ t2) = (upsert_calls t1 + upsert_calls t2)%nat.
Proof. unfold upsert_calls. by rewrite List.filter_app, length_app. Qed.

Lemma upsert_vectors_batch_ok batch w :
  batch <> [] ->
  upsert_error (trace w) batch = None ->
  upsert_vectors_batch upsert_error (VIndex name) batch w
  = (Ok true, {| store := store_upsert (store w) batch;
                 trace := trace w ++ [Upsert batch] |}).
Proof.
  intros Hne He. destruct batch as [|v l]; [congruence|].
  unfold upsert_vectors_batch, bind, index_upsert, ret. rewrite He. reflexivity.
Qed.

Lemma upsert_vectors_batch_fails batch w e :
  batch <> [] ->
  upsert_error (trace w) batch = Some e ->
  upsert_vectors_batch upsert_error (VIndex name) batch w
  = (Raise e, record_event (Upsert batch) w).
Proof.
  intros Hne He. destruct batch as [|v l]; [congruence|].
  unfold upsert_vectors_batch, bind, index_upsert. rewrite He. reflexivity.
Qed.

Lemma upsert_all_ok (todo : list (list value)) : forall n w,
  Forall (fun b => b <> []) todo ->
  (forall t b, b ∈ todo -> upsert_error t b = None) ->
  exists w',
    upsert_all upsert_error (VIndex name) todo n w
    = (Ok (n + Z.of_nat (length todo)), w')
    /\ trace w' = trace w ++ map Upsert todo
    /\ store w' = foldl store_upsert (store w) todo.
Proof.
  induction todo as [|b rest IH]; intros n w Hne Hok.
  - exists w. simpl. unfold ret. rewrite Z.add_0_r, app_nil_r. auto.
  - inversion Hne as [|? ? Hb Hrest]; subst.
    cbn [upsert_all]. unfold bind at 1.
    rewrite upsert_vectors_batch_ok; [|assumption|apply Hok; left].
    destruct (IH (n + 1)
                {| store := store_upsert (store w) b;
                   trace := trace w ++ [Upsert b] |} Hrest)
      as (w' & Hrun & Ht & Hs).
    { intros t b' Hb'. apply Hok. by right. }
    exists w'. rewrite Hrun. split; [f_equal; f_equal; simpl; lia|].
    simpl in Ht, Hs. split; [by rewrite Ht, <- app_assoc | exact Hs].
Qed.

Lemma upserted_map_upsert (todo : list (list value)) :
  upserted (map Upsert todo) = concat todo.
Proof. induction todo as [|b rest IH]; simpl; [reflexivity|]. by rewrite IH. Qed.

Lemma upsert_calls_map_upsert (todo : list (list value)) :
  upsert_calls (map Upsert todo) = length todo.
Proof. induction todo as [|b rest IH]; simpl; [reflexivity|]. unfold upsert_calls in *. simpl. by rewrite IH. Qed.

Lemma batches_fuel_nonempty {A} (n : nat) : forall fuel (l : list A),
  (0 < n)%nat -> Forall (fun b => b <> []) (batches_fuel fuel n l).
Proof.
  induction fuel as [|fuel IH]; intros l Hn; [constructor|].
  destruct l as [|a l]; [constructor|]. cbn [batches_fuel]. constructor.
  - destruct n; [lia|]. discriminate.
  - by apply IH.
Qed.
End UpsertLoop.

(** X15. The upsert loop of [bootstrap]: with a positive batch size and
    an index whose upserts succeed, the vectors are cut into batches that
    are neither empty nor longer than the batch size, every batch is
    handed to [index.upsert] once, the vectors reach the index in their
    order, each one exactly once, and the counter of batches ends at the
    number of batches. *)
Theorem upsert_loop_sends_every_vector (batch_size : Z)
    (upsert_error : list BootstrapService.event -> list value -> option exn)
    (name : string) (vectors : list value) (w : BootstrapService.world) :
  0 < batch_size ->
  (forall t b, upsert_error t b = None) ->
  exists todo w',
    BootstrapService.batches batch_size vectors = Ok todo
    /\ BootstrapService.upsert_all upsert_error (VIndex name) todo 0 w
       = (Ok (Z.of_nat (length todo)), w')
    /\ BootstrapService.upserted (BootstrapService.trace w')
       = BootstrapService.upserted (BootstrapService.trace w) ++ vectors
    /\ BootstrapService.upsert_calls (BootstrapService.trace w')
       = (BootstrapService.upsert_calls (BootstrapService.trace w) + length todo)%nat
    /\ Forall (fun b => (0 < length b)%nat /\ Z.of_nat (length b) <= batch_size) todo.
Proof.
  intros Hpos Hok. unfold BootstrapService.batches.
  destruct (Z.eqb_spec batch_size 0) as [?|_]; [lia|].
  destruct (Z.ltb_spec batch_size 0) as [?|_]; [lia|].
  set (todo := BootstrapService.batches_fuel (length vectors)
                 (Z.to_nat batch_size) vectors).
  destruct (upsert_all_ok upsert_error name todo 0 w) as (w' & Hrun & Ht & _).
  { apply batches_fuel_nonempty. lia. }
  { intros t b _. apply Hok. }
  exists todo, w'. split; [reflexivity|]. split; [exact Hrun|].
  rewrite Ht, upserted_app, upsert_calls_app, upserted_map_upsert,
    upsert_calls_map_upsert.
  split; [|split; [reflexivity|]].
  - f_equal. apply batches_fuel_concat; lia.
  - subst todo. clear - Hpos. set (n := length vectors) at 1. clearbody n. revert vectors.
    induction n as [|n IH]; intros vectors; [constructor|].
    destruct vectors as [|v l]; [constructor|].
    cbn [BootstrapService.batches_fuel]. constructor; [|apply IH].
    rewrite length_take. simpl length.
    destruct (Z.to_nat batch_size) eqn:E; lia.
Qed.

Lemma upsert_loop_sends_every_vector_witness :
  exists todo w',
    BootstrapService.batches 2
      [IngestionExample.vector "id1" "one"; IngestionExample.vector "id2" "two";
       IngestionExample.vector "id3" "three"] = Ok todo
    /\ BootstrapService.upsert_all IngestionExample.no_error (VIndex "cases")
         todo 0 IngestionExample.empty_index
       = (Ok (Z.of_nat (length todo)), w')
    /\ BootstrapService.upserted (BootstrapService.trace w')
       = BootstrapService.upserted
           (BootstrapService.trace IngestionExample.empty_index)
         ++ [IngestionExample.vector "id1" "one"; IngestionExample.vector "id2" "two";
             IngestionExample.vector "id3" "three"]
    /\ BootstrapService.upsert_calls (BootstrapService.trace w')
       = (BootstrapService.upsert_calls
            (BootstrapService.trace IngestionExample.empty_index)
          + length todo)%nat
    /\ Forall (fun b => (0 < length b)%nat /\ Z.of_nat (length b) <= 2) todo.
Proof.
  apply (upsert_loop_sends_every_vector 2 IngestionExample.no_error "cases"
           [IngestionExample.vector "id1" "one"; IngestionExample.vector "id2" "two";
            IngestionExample.vector "id3" "three"] IngestionExample.empty_index).
  - lia.
  - reflexivity.
Defined.


Section UpsertFailure.
Import BootstrapService.
Variable upsert_error : list event -> list value -> option exn.
Variable name : string.

Lemma upsert_all_fails (pre : list (list value)) b post : forall n w e,
  Forall (fun b => b <> []) pre -> b <> [] ->
  (forall t b', b' ∈ pre -> upsert_error t b' = None) ->
  upsert_error (trace w ++ map Upsert pre) b = Some e ->
  exists w',
    upsert_all upsert_error (VIndex name) (pre ++ b :: post) n w = (Raise e, w')
    /\ trace w' = trace w ++ map Upsert pre ++ [Upsert b]
    /\ store w' = foldl store_upsert (store w) pre.
Proof.
  induction pre as [|b0 pre IH]; intros n w e Hne Hb Hok He.
  - simpl in *. rewrite app_nil_r in He. unfold bind.
    destruct b as [|v l]; [congruence|].
    unfold upsert_vectors_batch, bind, index_upsert. rewrite He. simpl.
    eexists. split; [reflexivity|]. simpl. auto.
  - inversion Hne as [|? ? Hb0 Hpre]; subst.
    cbn [app upsert_all]. unfold bind at 1.
    rewrite upsert_vectors_batch_ok; [|assumption|apply Hok; left].
    destruct (IH (n + 1)
                {| store := store_upsert (store w) b0;
                   trace := trace w ++ [Upsert b0] |} e Hpre Hb)
      as (w' & Hrun & Ht & Hs).
    { intros t b' Hb'. apply Hok. by right. }
    { simpl. rewrite <- app_assoc. exact He. }
    exists w'. split; [exact Hrun|]. simpl in Ht, Hs.
    split; [rewrite Ht, <- app_assoc; reflexivity | exact Hs].
Qed.
End UpsertFailure.

(** X16. When the upsert of a batch fails, the loop of [bootstrap] stops
    with the exception of that upsert: the batches before it stay in the
    index, and no batch after it is sent. *)
Theorem upsert_failure_aborts_the_loop
    (upsert_error : list BootstrapService.event -> list value -> option exn)
    (name : string) (pre : list (list value)) (b : list value)
    (post : list (list value)) (w : BootstrapService.world) (e : exn) :
  Forall (fun b => b <> []) pre -> b <> [] ->
  (forall t b', b' ∈ pre -> upsert_error t b' = None) ->
  upsert_error (BootstrapService.trace w ++ map BootstrapService.Upsert pre) b = Some e ->
  exists w',
    BootstrapService.upsert_all upsert_error (VIndex name) (pre ++ b :: post) 0 w
    = (Raise e, w')
    /\ BootstrapService.trace w'
       = BootstrapService.trace w ++ map BootstrapService.Upsert pre
         ++ [BootstrapService.Upsert b]
    /\ BootstrapService.store w'
       = foldl BootstrapService.store_upsert (BootstrapService.store w) pre.
Proof. intros. by apply upsert_all_fails. Qed.

Lemma upsert_failure_aborts_the_loop_witness :
  exists w',
    BootstrapService.upsert_all upsert_fails_on_single (VIndex "cases")
      ([[IngestionExample.vector "id1" "one"; IngestionExample.vector "id2" "two"]]
       ++ [IngestionExample.vector "id3" "three"]
       :: [[IngestionExample.vector "id2" "two"; IngestionExample.vector "id1" "one"]])
      0 IngestionExample.empty_index
    = (Raise (ProviderError "write failed"), w')
    /\ BootstrapService.trace w'
       = BootstrapService.trace IngestionExample.empty_index
         ++ map BootstrapService.Upsert
              [[IngestionExample.vector "id1" "one"; IngestionExample.vector "id2" "two"]]
         ++ [BootstrapService.Upsert [IngestionExample.vector "id3" "three"]]
    /\ BootstrapService.store w'
       = foldl BootstrapService.store_upsert
           (BootstrapService.store IngestionExample.empty_index)
           [[IngestionExample.vector "id1" "one"; IngestionExample.vector "id2" "two"]].
Proof.
  apply (upsert_failure_aborts_the_loop upsert_fails_on_single "cases").
  - repeat constructor; discriminate.
  - discriminate.
  - intros t b' Hb'. apply list_elem_of_singleton in Hb'. subst. reflexivity.
  - reflexivity.
Defined.

Section Embedding.
Import BootstrapService.
Variable openai_embeddings : list event -> list value -> result (list value).
Variable time_time : list event -> Z.

Lemma build_vectors_all_made now pairs : forall made vector,
  Forall2 (fun p v => make_vector now (fst p) (snd p) = Ok v) pairs made ->
  build_vectors now pairs vector = (last_assigned vector made, None).
Proof.
  induction pairs as [|[c emb] pairs IH]; intros made vector H.
  - apply Forall2_nil_inv_l in H as ->. reflexivity.
  - apply Forall2_cons_inv_l in H as (v & made' & Hv & Hrest & ->).
    simpl in Hv. cbn [build_vectors]. rewrite Hv.
    rewrite (IH made' (Some v) Hrest). f_equal.
    unfold last_assigned. destruct made' as [|v' made']; [reflexivity|].
    rewrite last_cons_cons.
    destruct (last (v' :: made')) eqn:Hl; [reflexivity|].
    by apply last_None in Hl.
Qed.

Lemma build_vectors_raises now pairs : forall vector c emb e,
  (c, emb) ∈ pairs -> make_vector now c emb = Raise e ->
  exists v e', build_vectors now pairs vector = (v, Some e').
Proof.
  induction pairs as [|[c0 emb0] pairs IH]; intros vector c emb e Hin He.
  - inversion Hin.
  - cbn [build_vectors].
    destruct (make_vector now c0 emb0) as [v0|e0] eqn:H0; [|eauto].
    apply elem_of_cons in Hin as [[= -> ->]|Hin]; [congruence|].
    eapply IH; eauto.
Qed.

Lemma make_vector_missing_key now c emb :
  c !! "chunk_id" = None \/ c !! "metadata" = None \/ c !! "content" = None ->
  exists e, make_vector now c emb = Raise e.
Proof.
  intros H. unfold make_vector, getitem.
  destruct (c !! "chunk_id") as [id|]; [|eauto].
  destruct (c !! "metadata") as [md|]; [|eauto].
  destruct (as_mapping md) as [d|e]; [|eauto].
  destruct (c !! "content") as [ct|]; [|eauto].
  destruct H as [H|[H|H]]; discriminate.
Qed.
End Embedding.

(** X17. When the embedding call of a batch answers and a vector can be
    built for every pair of a new chunk and an embedding, the batch adds
    one vector to the result and no more: the vector of the last pair.
    When there is no pair at all, it is the vector an earlier batch left
    in the variable that is appended again, and nothing if there is
    none. *)
Theorem embed_new_chunks_keeps_last_vector
    (openai_embeddings : list BootstrapService.event -> list value -> result (list value))
    (time_time : list BootstrapService.event -> Z)
    (new_chunks : list pydict) (texts embeddings made vectors : list value)
    (vector : option value) (w : BootstrapService.world) :
  texts <> [] ->
  openai_embeddings (BootstrapService.trace w) texts = Ok embeddings ->
  Forall2 (fun p v =>
             BootstrapService.make_vector
               (time_time (BootstrapService.trace w
                           ++ [BootstrapService.EmbeddingsCreate texts]))
               (fst p) (snd p) = Ok v)
    (zip new_chunks embeddings) made ->
  BootstrapService.embed_new_chunks openai_embeddings time_time
    new_chunks texts vectors vector w
  = ((appended vectors (last_assigned vector made), last_assigned vector made),
     BootstrapService.record_event (BootstrapService.EmbeddingsCreate texts) w).
Proof.
  intros Hne He Hmade.
  unfold BootstrapService.embed_new_chunks, BootstrapService.create_embeddings_batch.
  destruct texts as [|t texts]; [congruence|]. rewrite He.
  cbn [BootstrapService.record_event BootstrapService.trace].
  rewrite (build_vectors_all_made _ _ made vector Hmade).
  destruct (last_assigned vector made); reflexivity.
Qed.

(** X18. A new chunk that was sent to the embedding endpoint and lacks
    one of the keys [chunk_id], [metadata] and [content] costs its whole
    batch: the embedding call has been made, no vector of the batch is
    added to the result, and nothing is raised. *)
Theorem malformed_chunk_costs_its_batch
    (openai_embeddings : list BootstrapService.event -> list value -> result (list value))
    (time_time : list BootstrapService.event -> Z)
    (new_chunks : list pydict) (texts embeddings vectors : list value)
    (vector : option value) (w : BootstrapService.world)
    (c : pydict) (emb : value) :
  texts <> [] ->
  openai_embeddings (BootstrapService.trace w) texts = Ok embeddings ->
  (c, emb) ∈ zip new_chunks embeddings ->
  c !! "chunk_id" = None \/ c !! "metadata" = None \/ c !! "content" = None ->
  let r := BootstrapService.embed_new_chunks openai_embeddings time_time
             new_chunks texts vectors vector w in
  fst (fst r) = vectors
  /\ snd r = BootstrapService.record_event (BootstrapService.EmbeddingsCreate texts) w.
Proof.
  intros Hne He Hin Hkey.
  destruct (make_vector_missing_key
              (time_time (BootstrapService.trace w
                          ++ [BootstrapService.EmbeddingsCreate texts]))
              c emb Hkey) as [e Hraise].
  destruct (build_vectors_raises _ _ vector c emb e Hin Hraise) as (v & e' & Hb).
  unfold BootstrapService.embed_new_chunks, BootstrapService.create_embeddings_batch.
  destruct texts as [|t texts]; [congruence|]. rewrite He.
  cbn [BootstrapService.record_event BootstrapService.trace].
  rewrite Hb. destruct v; split; reflexivity.
Qed.

Lemma embed_new_chunks_keeps_last_vector_witness :
  BootstrapService.embed_new_chunks IngestionExample.embed_ok IngestionExample.clock
    [IngestionExample.c1; IngestionExample.c2] [VStr "one"; VStr "two"] [] None
    IngestionExample.empty_index
  = ((appended [] (last_assigned None
                     [IngestionExample.vector "id1" "one";
                      IngestionExample.vector "id2" "two"]),
      last_assigned None
        [IngestionExample.vector "id1" "one"; IngestionExample.vector "id2" "two"]),
     BootstrapService.record_event
       (BootstrapService.EmbeddingsCreate [VStr "one"; VStr "two"])
       IngestionExample.empty_index).
Proof.
  apply (embed_new_chunks_keeps_last_vector IngestionExample.embed_ok
           IngestionExample.clock [IngestionExample.c1; IngestionExample.c2]
           [VStr "one"; VStr "two"] [VList [VStr "one"]; VList [VStr "two"]]).
  - discriminate.
  - reflexivity.
  - repeat constructor; vm_compute; reflexivity.
Defined.

Lemma malformed_chunk_costs_its_batch_witness :
  let r := BootstrapService.embed_new_chunks IngestionExample.embed_ok
             IngestionExample.clock
             [IngestionExample.c1; chunk_without_content]
             [VStr "one"; VStr "nine"] [] None IngestionExample.empty_index in
  fst (fst r) = []
  /\ snd r = BootstrapService.record_event
               (BootstrapService.EmbeddingsCreate [VStr "one"; VStr "nine"])
               IngestionExample.empty_index.
Proof.
  apply (malformed_chunk_costs_its_batch IngestionExample.embed_ok
           IngestionExample.clock
           [IngestionExample.c1; chunk_without_content]
           [VStr "one"; VStr "nine"] [VList [VStr "one"]; VList [VStr "nine"]]
           [] None IngestionExample.empty_index
           chunk_without_content (VList [VStr "nine"])).
  - discriminate.
  - reflexivity.
  - simpl. right. left.
  - right. right. vm_compute. reflexivity.
Defined.

Lemma length_batches_fuel {A} (n : nat) : forall fuel (l : list A),
  (0 < n)%nat -> (length l <= fuel)%nat ->
  Z.of_nat (length (BootstrapService.batches_fuel fuel n l))
  = (Z.of_nat (length l) + Z.of_nat n - 1) / Z.of_nat n.
Proof.
  induction fuel as [|fuel IH]; intros l Hn Hl.
  - destruct l; [|simpl in Hl; lia]. simpl.
    symmetry. apply Z.div_small. lia.
  - destruct l as [|a l].
    + simpl. symmetry. apply Z.div_small. lia.
    + cbn [BootstrapService.batches_fuel].
      assert (Hlen : (1 <= length (a :: l))%nat) by (simpl; lia).
      set (l0 := a :: l) in *. clearbody l0.
      rewrite length_cons, Nat2Z.inj_succ, IH;
        [|assumption|rewrite length_drop; lia].
      rewrite length_drop.
      set (len := length l0) in *. clearbody len.
      destruct (Nat.le_gt_cases len n) as [Hle|Hgt].
      * replace (len - n)%nat with 0%nat by lia.
        rewrite (Z.div_small (Z.of_nat 0 + Z.of_nat n - 1)) by lia.
        apply Z.div_unique with (r := Z.of_nat len - 1); lia.
      * rewrite Nat2Z.inj_sub by lia.
        replace (Z.of_nat len + Z.of_nat n - 1)
          with (Z.of_nat len - Z.of_nat n + Z.of_nat n - 1 + 1 * Z.of_nat n) by lia.
        rewrite Z.div_add by lia. lia.
Qed.

(** X19. Whatever the existence check answers, a run of
    [process_chunks_to_vectors] that returns gives at most one vector for
    each batch of chunks, that is at most the number of chunks divided by
    the batch size, rounded up. *)
Theorem one_vector_per_batch_at_most (batch_size : Z)
    (openai_embeddings : list BootstrapService.event -> list value -> result (list value))
    (time_time : list BootstrapService.event -> Z)
    (check : value -> M BootstrapService.world bool)
    (chunks : list pydict) (index : value) (w w' : BootstrapService.world)
    (vectors : list value) :
  0 < batch_size ->
  BootstrapService.process_chunks_to_vectors_with batch_size openai_embeddings
    time_time check chunks index w = (Ok vectors, w') ->
  Z.of_nat (length vectors)
  <= (Z.of_nat (length chunks) + batch_size - 1) / batch_size.
Proof.
  intros Hpos. unfold BootstrapService.process_chunks_to_vectors_with,
    BootstrapService.batches, bind, lift.
  destruct (Z.eqb_spec batch_size 0) as [?|_]; [lia|].
  destruct (Z.ltb_spec batch_size 0) as [?|_]; [lia|].
  intros H. apply process_batches_at_most_one_per_batch in H.
  simpl in H. apply Nat2Z.inj_le in H.
  rewrite length_batches_fuel in H by lia.
  rewrite Z2Nat.id in H by lia. exact H.
Qed.

Lemma one_vector_per_batch_at_most_witness :
  Z.of_nat (length [IngestionExample.vector "id2" "two"])
  <= (Z.of_nat (length [IngestionExample.c1; IngestionExample.c2]) + 3 - 1) / 3.
Proof.
  apply (one_vector_per_batch_at_most 3 IngestionExample.embed_ok
           IngestionExample.clock
           (IngestionExample.check IngestionExample.no_error)
           [IngestionExample.c1; IngestionExample.c2] IngestionExample.index
           IngestionExample.empty_index
           (snd (BootstrapService.process_chunks_to_vectors_with 3
                   IngestionExample.embed_ok IngestionExample.clock
                   (IngestionExample.check IngestionExample.no_error)
                   [IngestionExample.c1; IngestionExample.c2]
                   IngestionExample.index IngestionExample.empty_index))).
  - lia.
  - vm_compute. reflexivity.
Defined.

Section ReadOnly.
Import BootstrapService.
Variable openai_embeddings : list event -> list value -> result (list value).
Variable time_time : list event -> Z.
Variable check : value -> M world bool.
Hypothesis check_reads : forall id w,
  store (snd (check id w)) = store w
  /\ upserted (trace (snd (check id w))) = upserted (trace w).

Lemma select_new_chunks_reads batch : forall nc nt w,
  store (snd (select_new_chunks check batch nc nt w)) = store w
  /\ upserted (trace (snd (select_new_chunks check batch nc nt w)))
     = upserted (trace w).
Proof.
  induction batch as [|chunk rest IH]; intros nc nt w; [by simpl|].
  cbn [select_new_chunks]. unfold bind, lift.
  destruct (getitem chunk "chunk_id") as [id|e]; [|by simpl].
  pose proof (check_reads id w) as [Hs Ht].
  destruct (check id w) as [[[|]|e] w1]; simpl in Hs, Ht; simpl.
  - destruct (IH nc nt w1) as [H1 H2]. by rewrite H1, H2.
  - destruct (getitem chunk "context") as [text|e]; [|by simpl].
    destruct (IH (nc ++ [chunk]) (nt ++ [text]) w1) as [H1 H2]. by rewrite H1, H2.
  - auto.
Qed.

Lemma embed_new_chunks_reads new_chunks texts vectors vector w :
  store (snd (embed_new_chunks openai_embeddings time_time new_chunks texts
                vectors vector w)) = store w
  /\ upserted (trace (snd (embed_new_chunks openai_embeddings time_time
                             new_chunks texts vectors vector w)))
     = upserted (trace w).
Proof.
  unfold embed_new_chunks, create_embeddings_batch.
  destruct texts as [|t texts]; [by simpl|].
  assert (Hu : upserted (trace w ++ [EmbeddingsCreate (t :: texts)])
               = upserted (trace w)).
  { unfold upserted. rewrite flat_map_app. simpl. apply app_nil_r. }
  destruct (openai_embeddings (trace w) (t :: texts)); simpl; [|auto].
  destruct (build_vectors _ _ _) as [[v'|] [e|]]; simpl; auto.
Qed.

Lemma process_batches_reads todo : forall vectors vector w,
  store (snd (process_batches openai_embeddings time_time check todo
                vectors vector w)) = store w
  /\ upserted (trace (snd (process_batches openai_embeddings time_time check
                             todo vectors vector w)))
     = upserted (trace w).
Proof.
  induction todo as [|batch rest IH]; intros vectors vector w; [by simpl|].
  cbn [process_batches]. unfold bind.
  pose proof (select_new_chunks_reads batch [] [] w) as [Hs Ht].
  destruct (select_new_chunks check batch [] [] w) as [[sel|e] w1];
    simpl in Hs, Ht; [|by simpl].
  destruct (fst sel) as [|c0 l0].
  - destruct (IH vectors vector w1) as [H1 H2]. by rewrite H1, H2.
  - pose proof (embed_new_chunks_reads (c0 :: l0) (snd sel) vectors vector w1)
      as [Hs2 Ht2].
    destruct (embed_new_chunks openai_embeddings time_time (c0 :: l0)
                (snd sel) vectors vector w1) as [[vectors' vector'] w2].
    simpl in Hs2, Ht2.
    destruct (IH vectors' vector' w2) as [H1 H2].
    rewrite H1, H2, Hs2, Ht2. auto.
Qed.
End ReadOnly.

Lemma check_embedding_status_reads fetch_error index id w :
  BootstrapService.store (snd (BootstrapService.check_embedding_status fetch_error id index w))
  = BootstrapService.store w
  /\ BootstrapService.upserted
       (BootstrapService.trace
          (snd (BootstrapService.check_embedding_status fetch_error id index w)))
     = BootstrapService.upserted (BootstrapService.trace w).
Proof.
  unfold BootstrapService.check_embedding_status, try_except, bind,
    BootstrapService.index_fetch, raise, ret.
  destruct index; simpl; auto.
  assert (Hu : BootstrapService.upserted
                 (BootstrapService.trace w ++ [BootstrapService.Fetch [id]])
               = BootstrapService.upserted (BootstrapService.trace w)).
  { unfold BootstrapService.upserted. rewrite flat_map_app. simpl. apply app_nil_r. }
  destruct (fetch_error (BootstrapService.trace w) [id]); simpl; auto.
Qed.

(** X20. [process_chunks_to_vectors], checking with
    [check_embedding_status], only reads the index: whether it returns or
    raises, the store is what it was and no vector has been upserted. *)
Theorem process_chunks_to_vectors_only_reads (batch_size : Z)
    (fetch_error : list BootstrapService.event -> list value -> option exn)
    (openai_embeddings : list BootstrapService.event -> list value -> result (list value))
    (time_time : list BootstrapService.event -> Z)
    (chunks : list pydict) (index : value) (w : BootstrapService.world) :
  let run := BootstrapService.process_chunks_to_vectors_with batch_size
               openai_embeddings time_time
               (fun chunk_id =>
                  BootstrapService.check_embedding_status fetch_error chunk_id index)
               chunks index w in
  BootstrapService.store (snd run) = BootstrapService.store w
  /\ BootstrapService.upserted (BootstrapService.trace (snd run))
     = BootstrapService.upserted (BootstrapService.trace w).
Proof.
  cbv zeta. unfold BootstrapService.process_chunks_to_vectors_with, bind, lift.
  destruct (BootstrapService.batches batch_size chunks) as [todo|e]; [|by simpl].
  apply process_batches_reads. intros id w0. apply check_embedding_status_reads.
Qed.

(** ** The search service and the routes *)

Section SearchOutcomes.
Import SearchService.
Variable config : Config.t.
Variable openai_embedding : list event -> string -> result value * Z.
Variable index_query : list event -> value -> Z -> result (list index_match) * Z.
Variable format_seconds : Z -> string.

Lemma execute_search_hit_returns query top_k w :
  TTLCache.contains (now w) (cache w) (cache_key query top_k) = true ->
  exists r w', _execute_search config openai_embedding index_query
                 format_seconds query top_k w = (Ok r, w').
Proof.
  intros Hc. apply contains_true in Hc as (e & Hf & Hlive).
  destruct (execute_search_hit config openai_embedding index_query
              format_seconds query top_k w e Hf Hlive) as (w' & H & _).
  eauto.
Qed.

Lemma execute_search_failure query top_k w e w' :
  1 <= TTLCache.maxsize (cache w) ->
  _execute_search config openai_embedding index_query format_seconds
    query top_k w = (Raise e, w') ->
  cache w' = cache w
  /\ TTLCache.contains (now w) (cache w) (cache_key query top_k) = false.
Proof.
  intros Hsize Hrun.
  destruct (TTLCache.contains (now w) (cache w) (cache_key query top_k)) eqn:Hc.
  { destruct (execute_search_hit_returns query top_k w Hc) as (r & w2 & H).
    rewrite H in Hrun. discriminate. }
  split; [|reflexivity].
  unfold _execute_search in Hrun. rewrite Hc in Hrun.
  unfold bind, create_embedding, external, lift in Hrun. simpl in Hrun.
  destruct (openai_embedding (trace w) query) as [[embedding|e1] d1];
    simpl in Hrun; [|by injection Hrun as _ <-].
  destruct (top_k_or_default config top_k) as [k|e2]; simpl in Hrun;
    [|by injection Hrun as _ <-].
  destruct (index_query _ embedding k) as [[results|e3] d2]; simpl in Hrun;
    [|by injection Hrun as _ <-].
  unfold TTLCache.setitem in Hrun. simpl in Hrun.
  destruct (Z.ltb_spec (TTLCache.maxsize (cache w)) 1); [lia|].
  discriminate.
Qed.
End SearchOutcomes.

(** X21. A search that raises leaves the cache of a service that can hold
    at least one entry exactly as it was, and it was not answered from
    the cache: only a search that returns a response stores one. *)
Theorem failed_search_caches_nothing (config : Config.t)
    (openai_embedding : list SearchService.event -> string -> result value * Z)
    (index_query : list SearchService.event -> value -> Z
                   -> result (list SearchService.index_match) * Z)
    (format_seconds : Z -> string)
    (query : string) (top_k : option Z)
    (w w' : SearchService.world) (e : exn) :
  1 <= TTLCache.maxsize (SearchService.cache w) ->
  SearchService._execute_search config openai_embedding index_query
    format_seconds query top_k w = (Raise e, w') ->
  SearchService.cache w' = SearchService.cache w
  /\ TTLCache.contains (SearchService.now w) (SearchService.cache w)
       (SearchService.cache_key query top_k) = false.
Proof. apply execute_search_failure. Qed.

Lemma failed_search_caches_nothing_witness :
  SearchService.cache
    (snd (SearchService._execute_search Config.default
            SearchExample.openai_embedding SearchExample.index_query
            SearchExample.format_seconds SearchExample.query None
            SearchExample.start))
  = SearchService.cache SearchExample.start
  /\ TTLCache.contains (SearchService.now SearchExample.start)
       (SearchService.cache SearchExample.start)
       (SearchService.cache_key SearchExample.query None) = false.
Proof.
  apply (failed_search_caches_nothing Config.default
           SearchExample.openai_embedding SearchExample.index_query
           SearchExample.format_seconds SearchExample.query None
           SearchExample.start _
           (AttributeError "type object 'DevelopmentConfig' has no attribute 'DEFAULT_TOP_K'")).
  - simpl. lia.
  - vm_compute. reflexivity.
Defined.

(** X22. With a configuration that declares no [DEFAULT_TOP_K], as the
    one of the source, a search without [top_k], or with [top_k] zero,
    that misses the cache never answers: it makes its embedding call and
    then raises, with the exception of that call or else with
    [AttributeError]; the index is not queried and nothing is cached. *)
Theorem search_without_top_k_never_answers (config : Config.t)
    (openai_embedding : list SearchService.event -> string -> result value * Z)
    (index_query : list SearchService.event -> value -> Z
                   -> result (list SearchService.index_match) * Z)
    (format_seconds : Z -> string)
    (query : string) (top_k : option Z) (w : SearchService.world) :
  Config.DEFAULT_TOP_K config = None ->
  top_k = None \/ top_k = Some 0 ->
  TTLCache.contains (SearchService.now w) (SearchService.cache w)
    (SearchService.cache_key query top_k) = false ->
  let run := SearchService._execute_search config openai_embedding index_query
               format_seconds query top_k w in
  match fst (openai_embedding (SearchService.trace w) query) with
  | Raise e => fst run = Raise e
  | Ok _ => exists msg, fst run = Raise (AttributeError msg)
  end
  /\ SearchService.trace (snd run)
     = SearchService.trace w ++ [SearchService.EmbeddingCreate query]
  /\ SearchService.cache (snd run) = SearchService.cache w.
Proof.
  intros Hcfg Hk Hc. cbv zeta. unfold SearchService._execute_search.
  rewrite Hc.
  unfold bind, SearchService.create_embedding, SearchService.external, lift.
  simpl.
  destruct (openai_embedding (SearchService.trace w) query)
    as [[embedding|e1] d1]; simpl; [|auto].
  assert (Hd : exists msg, SearchService.top_k_or_default config top_k
                           = Raise (AttributeError msg)).
  { unfold SearchService.top_k_or_default, SearchService.default_top_k.
    rewrite Hcfg. destruct Hk as [->| ->]; simpl; eauto. }
  destruct Hd as [msg ->]. simpl. eauto.
Qed.

Lemma search_without_top_k_never_answers_witness :
  let run := SearchService._execute_search Config.default
               SearchExample.openai_embedding SearchExample.index_query
               SearchExample.format_seconds SearchExample.query None
               SearchExample.start in
  match fst (SearchExample.openai_embedding
               (SearchService.trace SearchExample.start) SearchExample.query) with
  | Raise e => fst run = Raise e
  | Ok _ => exists msg, fst run = Raise (AttributeError msg)
  end
  /\ SearchService.trace (snd run)
     = SearchService.trace SearchExample.start
       ++ [SearchService.EmbeddingCreate SearchExample.query]
  /\ SearchService.cache (snd run) = SearchService.cache SearchExample.start.
Proof.
  apply (search_without_top_k_never_answers Config.default
           SearchExample.openai_embedding SearchExample.index_query
           SearchExample.format_seconds SearchExample.query None
           SearchExample.start).
  - reflexivity.
  - left. reflexivity.
  - vm_compute. reflexivity.
Defined.

Section CacheKeys.
Import TTLCache.

Lemma find_elem_of k (es : list entry) e :
  List.find (has_key k) es = Some e -> e ∈ es /\ key e = k.
Proof.
  intros H. apply List.find_some in H as [Hin Hk].
  split; [by apply list_elem_of_In|].
  unfold has_key in Hk. by apply String.eqb_eq in Hk.
Qed.

Lemma find_app_other k (es : list entry) e0 e :
  key e0 <> k ->
  List.find (has_key k) (es ++ [e0]) = Some e ->
  List.find (has_key k) es = Some e.
Proof.
  intros Hk. induction es as [|e1 es IH]; simpl.
  - unfold has_key at 1. destruct (String.eqb_spec (key e0) k); [done|discriminate].
  - destruct (has_key k e1); [done|exact IH].
Qed.

Lemma elem_of_remove k (es : list entry) e : e ∈ remove k es -> e ∈ es.
Proof.
  unfold remove. rewrite !list_elem_of_In, List.filter_In. tauto.
Qed.

Lemma elem_of_expire now (es : list entry) e : e ∈ expire now es -> e ∈ es.
Proof.
  unfold expire. rewrite !list_elem_of_In, List.filter_In. tauto.
Qed.

Lemma elem_of_drop_list {A} n (l : list A) x : x ∈ drop n l -> x ∈ l.
Proof.
  intros H. apply list_elem_of_lookup in H as [i Hi].
  rewrite lookup_drop in Hi. apply list_elem_of_lookup. eauto.
Qed.

(** After [cache[k] = v], an entry under another key was in the cache
    before. *)
Lemma setitem_other now c k v r c' k' e :
  setitem now c k v = (r, c') -> k <> k' ->
  find k' c' = Some e -> e ∈ entries c.
Proof.
  unfold setitem, find. intros Hset Hk Hf.
  destruct (maxsize c <? 1).
  - injection Hset as _ <-. simpl in Hf.
    apply find_elem_of in Hf as [Hin _]. by apply elem_of_expire in Hin.
  - injection Hset as _ <-. simpl in Hf.
    apply find_app_other in Hf; [|exact Hk].
    apply find_elem_of in Hf as [Hin _].
    destruct (List.find (has_key k) (expire now (entries c))).
    + apply elem_of_remove in Hin. by apply elem_of_expire in Hin.
    + apply elem_of_drop_list in Hin. by apply elem_of_expire in Hin.
Qed.

Lemma getitem_other now c k r c' k' e :
  getitem now c k = (r, c') ->
  find k' c' = Some e -> e ∈ entries c.
Proof.
  unfold getitem, find. intros Hget Hf.
  destruct (List.find (has_key k) (entries c)) as [e0|] eqn:Hf0.
  - destruct (now <? expires e0).
    + injection Hget as _ <-. simpl in Hf.
      apply find_elem_of in Hf as [Hin _].
      apply elem_of_app in Hin as [Hin|Hin].
      * by apply elem_of_remove in Hin.
      * apply list_elem_of_singleton in Hin as ->.
        by apply find_elem_of in Hf0 as [? _].
    + injection Hget as _ <-. by apply find_elem_of in Hf as [? _].
  - injection Hget as _ <-. by apply find_elem_of in Hf as [? _].
Qed.
End CacheKeys.

(** X23. A search writes to the cache under its own key only: whatever
    its outcome, an entry found afterwards under the key of another query
    or another [top_k] was in the cache before. *)
Theorem search_stores_under_its_own_key_only (config : Config.t)
    (openai_embedding : list SearchService.event -> string -> result value * Z)
    (index_query : list SearchService.event -> value -> Z
                   -> result (list SearchService.index_match) * Z)
    (format_seconds : Z -> string)
    (query query' : string) (top_k top_k' : option Z)
    (w : SearchService.world) (e : TTLCache.entry) :
  (query', top_k') <> (query, top_k) ->
  TTLCache.find (SearchService.cache_key query' top_k')
    (SearchService.cache
       (snd (SearchService._execute_search config openai_embedding index_query
               format_seconds query top_k w))) = Some e ->
  e ∈ TTLCache.entries (SearchService.cache w).
Proof.
  intros Hne.
  assert (Hk : SearchService.cache_key query top_k
               <> SearchService.cache_key query' top_k').
  { intros H. apply cache_key_inj in H as [-> ->]. by apply Hne. }
  unfold SearchService._execute_search.
  destruct (TTLCache.contains _ _ _).
  - destruct (TTLCache.getitem _ _ _) as [r c] eqn:Hget. simpl.
    by apply getitem_other with (1 := Hget).
  - unfold bind, SearchService.create_embedding, SearchService.external, lift.
    simpl.
    destruct (openai_embedding (SearchService.trace w) query)
      as [[embedding|e1] d1]; simpl;
      [|intros H; by apply find_elem_of in H as [? _]].
    destruct (SearchService.top_k_or_default config top_k) as [k|e2]; simpl;
      [|intros H; by apply find_elem_of in H as [? _]].
    destruct (index_query _ embedding k) as [[results|e3] d2]; simpl;
      [|intros H; by apply find_elem_of in H as [? _]].
    destruct (TTLCache.setitem _ _ _ _) as [r c] eqn:Hset.
    simpl in Hset. intros Hf.
    apply setitem_other with (1 := Hset) (k' := SearchService.cache_key query' top_k');
      [exact Hk|].
    destruct r; exact Hf.
Qed.

Lemma search_stores_under_its_own_key_only_witness :
  {| TTLCache.key := "breach of contract:3";
     TTLCache.val := SearchExample.response;
     TTLCache.expires := 165 |}
  ∈ TTLCache.entries (SearchService.cache SearchExample.after_first).
Proof.
  apply (search_stores_under_its_own_key_only Config.default
           SearchExample.openai_embedding SearchExample.index_query
           SearchExample.format_seconds "negligence" SearchExample.query
           (Some 3) (Some 3) SearchExample.after_first).
  - discriminate.
  - vm_compute. reflexivity.
Defined.

Lemma health_check_returns
    (openai_embedding : list SearchService.event -> string -> result value * Z)
    (index_stats : list SearchService.event -> result unit * Z)
    (w : SearchService.world) :
  exists v w', SearchService.health_check openai_embedding index_stats w = (Ok v, w').
Proof.
  unfold SearchService.health_check, try_except, bind,
    SearchService.create_embedding, SearchService.external, ret.
  destruct (openai_embedding (SearchService.trace w) "test")
    as [[test_embedding|e] d1]; simpl; [|eauto].
  destruct (truthy test_embedding); simpl; [|eauto].
  destruct (index_stats _) as [[[]|e] d2]; simpl; eauto.
Qed.

(** X24. A search with a [top_k] other than zero that misses the cache
    makes one embedding call for the query and then one index query with
    that embedding and that [top_k]; when both answer, the response lists
    the formatted matches in the order of the index, [total_results] is
    their number, and the processing time is the time the two calls
    took. *)
Theorem search_miss_response (config : Config.t)
    (openai_embedding : list SearchService.event -> string -> result value * Z)
    (index_query : list SearchService.event -> value -> Z
                   -> result (list SearchService.index_match) * Z)
    (format_seconds : Z -> string)
    (query : string) (k : Z) (w : SearchService.world)
    (embedding : value) (matches : list SearchService.index_match) (d1 d2 : Z) :
  k <> 0 ->
  1 <= TTLCache.maxsize (SearchService.cache w) ->
  TTLCache.contains (SearchService.now w) (SearchService.cache w)
    (SearchService.cache_key query (Some k)) = false ->
  openai_embedding (SearchService.trace w) query = (Ok embedding, d1) ->
  index_query (SearchService.trace w ++ [SearchService.EmbeddingCreate query])
    embedding k = (Ok matches, d2) ->
  let run := SearchService._execute_search config openai_embedding index_query
               format_seconds query (Some k) w in
  fst run = Ok (VDict
              {[ "results" := VList (map SearchService.format_match matches);
                 "total_results" := VInt (Z.of_nat (length matches));
                 "processing_time" := VStr (format_seconds (d1 + d2)) ]})
  /\ SearchService.trace (snd run)
     = SearchService.trace w
       ++ [SearchService.EmbeddingCreate query; SearchService.IndexQuery embedding k]
  /\ SearchService.now (snd run) = SearchService.now w + d1 + d2.
Proof.
  intros Hk Hsize Hc He Hq. cbv zeta. unfold SearchService._execute_search.
  rewrite Hc.
  unfold bind, SearchService.create_embedding, SearchService.external, lift.
  simpl. rewrite He. simpl.
  destruct (Z.eqb_spec k 0) as [?|_]; [contradiction|]. simpl.
  rewrite Hq. simpl.
  unfold TTLCache.setitem. simpl.
  destruct (Z.ltb_spec (TTLCache.maxsize (SearchService.cache w)) 1); [lia|].
  simpl. unfold SearchService.make_response. rewrite length_map.
  replace (SearchService.now w + d1 + d2 - SearchService.now w) with (d1 + d2) by lia.
  rewrite <- app_assoc. auto.
Qed.

Lemma search_miss_response_witness :
  let run := SearchService._execute_search Config.default
               SearchExample.openai_embedding SearchExample.index_query
               SearchExample.format_seconds SearchExample.query (Some 3)
               SearchExample.start in
  fst run = Ok (VDict
              {[ "results" := VList (map SearchService.format_match
                                       [SearchExample.a_match]);
                 "total_results" := VInt (Z.of_nat (length [SearchExample.a_match]));
                 "processing_time" := VStr (SearchExample.format_seconds (2 + 3)) ]})
  /\ SearchService.trace (snd run)
     = SearchService.trace SearchExample.start
       ++ [SearchService.EmbeddingCreate SearchExample.query;
           SearchService.IndexQuery SearchExample.embedding 3]
  /\ SearchService.now (snd run) = SearchService.now SearchExample.start + 2 + 3.
Proof.
  apply (search_miss_response Config.default
           SearchExample.openai_embedding SearchExample.index_query
           SearchExample.format_seconds SearchExample.query 3
           SearchExample.start SearchExample.embedding
           [SearchExample.a_match] 2 3).
  - lia.
  - simpl. lia.
  - vm_compute. reflexivity.
  - reflexivity.
  - reflexivity.
Defined.

(** X25. [POST /search/] never raises and never answers with status 200:
    the status is 400 or 500, and a 400 carries the message that no query
    was provided and is given before the service is constructed. *)
Theorem search_route_never_answers_200
    (construct : M SearchService.world unit)
    (call_attribute : string -> list value -> M SearchService.world value)
    (request_json : value) (w : SearchService.world) :
  exists body code w',
    SearchRoutes.search construct call_attribute request_json w
    = (Ok (body, code), w')
    /\ (code = 400 \/ code = 500)
    /\ (code = 400 ->
        w' = w /\ body = SearchRoutes.error_body "No query provided").
Proof.
  unfold SearchRoutes.search, try_except, bind, lift, ret.
  destruct (SearchRoutes.json_get request_json "query") as [query|e]; simpl.
  - destruct (truthy query); simpl.
    + destruct (construct w) as [[[]|e] w1]; simpl.
      * eexists _, 500, _. split; [reflexivity|]. split; [by right|]. discriminate.
      * eexists _, 500, _. split; [reflexivity|]. split; [by right|]. discriminate.
    + eexists _, 400, _. split; [reflexivity|]. split; [by left|]. auto.
  - eexists _, 500, _. split; [reflexivity|]. split; [by right|]. discriminate.
Qed.

(** X26. [GET /search/health] answers with status 200 and the report of
    [health_check] whenever the service can be constructed, whatever the
    report says; it answers 500, with the message of the exception, only
    when the construction of the service raises. *)
Theorem health_route_status
    (construct : M SearchService.world unit)
    (openai_embedding : list SearchService.event -> string -> result value * Z)
    (index_stats : list SearchService.event -> result unit * Z)
    (w : SearchService.world) :
  match construct w with
  | (Ok _, w1) =>
      exists report w',
        SearchService.health_check openai_embedding index_stats w1 = (Ok report, w')
        /\ ServiceRoutes.health_check construct openai_embedding index_stats w
           = (Ok (report, 200), w')
  | (Raise e, w1) =>
      ServiceRoutes.health_check construct openai_embedding index_stats w
      = (Ok (SearchRoutes.error_body (str_exn e), 500), w1)
  end.
Proof.
  unfold ServiceRoutes.health_check, try_except, bind, ret.
  destruct (construct w) as [[[]|e] w1]; [|reflexivity].
  destruct (health_check_returns openai_embedding index_stats w1)
    as (v & w' & Hh).
  exists v, w'. split; [exact Hh|]. rewrite Hh. reflexivity.
Qed.

(** X27. [POST /bootstrap/] answers with status 500 and an error message
    for every corpus that is not empty, whenever the batch size is
    positive and the service can be constructed; nothing has been
    fetched, embedded or upserted by then. *)
Theorem bootstrap_route_answers_500 (batch_size : Z)
    (fetch_error : list BootstrapService.event -> list value -> option exn)
    (openai_embeddings : list BootstrapService.event -> list value -> result (list value))
    (upsert_error : list BootstrapService.event -> list value -> option exn)
    (time_time : list BootstrapService.event -> Z)
    (construct : M BootstrapService.world unit)
    (index : value) (chunks : list pydict) (w w1 : BootstrapService.world) :
  0 < batch_size ->
  chunks <> [] ->
  construct w = (Ok tt, w1) ->
  exists message,
    ServiceRoutes.initialize_system batch_size fetch_error openai_embeddings
      upsert_error time_time construct (Ok index) (Ok chunks) w
    = (Ok (SearchRoutes.error_body message, 500), w1).
Proof.
  intros Hpos Hne Hc.
  destruct (process_chunks_to_vectors_raises batch_size fetch_error
              openai_embeddings time_time chunks index w1 Hpos Hne) as [e He].
  exists (str_exn e).
  unfold ServiceRoutes.initialize_system, try_except, bind, ret. rewrite Hc.
  unfold BootstrapService.bootstrap, BootstrapService.bootstrap_with, bind, lift.
  unfold BootstrapService.process_chunks_to_vectors in He. rewrite He.
  reflexivity.
Qed.

Lemma bootstrap_route_answers_500_witness :
  exists message,
    ServiceRoutes.initialize_system 3 IngestionExample.no_error
      IngestionExample.embed_ok IngestionExample.no_error IngestionExample.clock
      (ret tt) (Ok IngestionExample.index) (Ok IngestionExample.pipeline_chunks)
      IngestionExample.empty_index
    = (Ok (SearchRoutes.error_body message, 500), IngestionExample.empty_index).
Proof.
  apply (bootstrap_route_answers_500 3 IngestionExample.no_error
           IngestionExample.embed_ok IngestionExample.no_error IngestionExample.clock
           (ret tt) IngestionExample.index IngestionExample.pipeline_chunks
           IngestionExample.empty_index IngestionExample.empty_index).
  - lia.
  - vm_compute. discriminate.
  - reflexivity.
Defined.

(** ** The index and its status *)

Lemma creations_app t1 t2 : creations (t1 ++ t2) = creations t1 ++ creations t2.
Proof. unfold creations. apply flat_map_app. Qed.

(** X28. [initialize_or_validate_index], once the client is initialised
    and the indexes are listed, asks for the creation of the index exactly
    when its name is not among the listed ones, once, with dimension 1536
    and the cosine metric, whatever happens afterwards; and when that
    creation raises, the method raises the same exception without opening
    the index. *)
Theorem index_created_only_if_absent (PINECONE_INDEX : option string)
    (pinecone_init : list BootstrapIndex.event -> result unit)
    (list_indexes : list BootstrapIndex.event -> result (list string))
    (create_index : list BootstrapIndex.event -> result unit)
    (pinecone_Index : list BootstrapIndex.event -> result value)
    (describe_index_stats : list BootstrapIndex.event -> result BootstrapIndex.index_stats)
    (t : list BootstrapIndex.event) (names : list string) :
  pinecone_init t = Ok tt ->
  list_indexes (t ++ [BootstrapIndex.PineconeInit]) = Ok names ->
  let run := BootstrapIndex.initialize_or_validate_index PINECONE_INDEX
               pinecone_init list_indexes create_index pinecone_Index
               describe_index_stats t in
  creations (snd run)
  = creations t
    ++ (if BootstrapIndex.listed PINECONE_INDEX names then []
        else [(PINECONE_INDEX, 1536, "cosine")])
  /\ (forall e,
        BootstrapIndex.listed PINECONE_INDEX names = false ->
        create_index (t ++ [BootstrapIndex.PineconeInit; BootstrapIndex.ListIndexes])
        = Raise e ->
        fst run = Raise e
        /\ snd run = t ++ [BootstrapIndex.PineconeInit; BootstrapIndex.ListIndexes;
                           BootstrapIndex.CreateIndex PINECONE_INDEX 1536 "cosine"]).
Proof.
  intros Hinit Hlist. cbv zeta.
  unfold BootstrapIndex.initialize_or_validate_index, bind, BootstrapIndex.call, ret.
  rewrite Hinit, Hlist.
  destruct (BootstrapIndex.listed PINECONE_INDEX names) eqn:Hl;
    cbn [negb].
  - split; [|discriminate].
    destruct (pinecone_Index _) as [index|e1];
      [destruct (describe_index_stats _) as [stats|e2]|];
      cbn [fst snd]; rewrite !creations_app; simpl; by rewrite !app_nil_r.
  - rewrite <- !app_assoc. cbn [app].
    destruct (create_index _) as [[]|e0] eqn:Hc.
    + split; [|discriminate].
      destruct (pinecone_Index _) as [index|e1];
        [destruct (describe_index_stats _) as [stats|e2]|];
        cbn [fst snd]; rewrite !creations_app; simpl; by rewrite ?app_nil_r.
    + cbn [fst snd].
      split; [rewrite !creations_app; simpl; by rewrite ?app_nil_r|].
      intros e _ [= <-]. auto.
Qed.

Lemma index_created_only_if_absent_witness :
  let run := BootstrapIndex.initialize_or_validate_index (Some "cases")
               (fun _ => Ok tt) (fun _ => Ok ["drafts"])
               (fun _ => Raise (ProviderError "quota exceeded"))
               (fun _ => Ok (VIndex "cases"))
               (fun _ => Ok {| BootstrapIndex.total_vector_count := VInt 0;
                               BootstrapIndex.index_fullness := VFloat 0 |}) [] in
  creations (snd run)
  = creations []
    ++ (if BootstrapIndex.listed (Some "cases") ["drafts"] then []
        else [(Some "cases", 1536, "cosine")])
  /\ (forall e,
        BootstrapIndex.listed (Some "cases") ["drafts"] = false ->
        @Raise unit (ProviderError "quota exceeded") = Raise e ->
        fst run = Raise e
        /\ snd run = [] ++ [BootstrapIndex.PineconeInit; BootstrapIndex.ListIndexes;
                            BootstrapIndex.CreateIndex (Some "cases") 1536 "cosine"]).
Proof.
  apply (index_created_only_if_absent (Some "cases")
           (fun _ => Ok tt) (fun _ => Ok ["drafts"])
           (fun _ => Raise (ProviderError "quota exceeded"))
           (fun _ => Ok (VIndex "cases"))
           (fun _ => Ok {| BootstrapIndex.total_vector_count := VInt 0;
                           BootstrapIndex.index_fullness := VFloat 0 |})
           [] ["drafts"]).
  - reflexivity.
  - reflexivity.
Defined.

(** X29. [get_status] never raises and never asks for the creation of an
    index: it reports [error] with the message of the first call that
    raises, [index_not_found] when the name of the index is not listed, and
    else [active] with the two figures of the index statistics.
    [GET /bootstrap/status] passes that report on with status 200 whenever
    the service can be constructed, also when the report is an error. *)
Theorem status_route_outcomes (PINECONE_INDEX : option string)
    (pinecone_init : list BootstrapIndex.event -> result unit)
    (list_indexes : list BootstrapIndex.event -> result (list string))
    (pinecone_Index : list BootstrapIndex.event -> result value)
    (describe_index_stats : list BootstrapIndex.event -> result BootstrapIndex.index_stats)
    (construct : M (list BootstrapIndex.event) unit)
    (t t1 : list BootstrapIndex.event) :
  construct t = (Ok tt, t1) ->
  exists report t',
    BootstrapIndex.get_status PINECONE_INDEX pinecone_init list_indexes
      pinecone_Index describe_index_stats t1 = (Ok report, t')
    /\ BootstrapIndex.get_status_route PINECONE_INDEX pinecone_init list_indexes
         pinecone_Index describe_index_stats construct t
       = (Ok (report, 200), t')
    /\ creations t' = creations t1
    /\ match pinecone_init t1 with
       | Raise e => report = BootstrapIndex.error (str_exn e)
       | Ok _ =>
           match list_indexes (t1 ++ [BootstrapIndex.PineconeInit]) with
           | Raise e => report = BootstrapIndex.error (str_exn e)
           | Ok names =>
               if BootstrapIndex.listed PINECONE_INDEX names then
                 match pinecone_Index
                         (t1 ++ [BootstrapIndex.PineconeInit;
                                 BootstrapIndex.ListIndexes]) with
                 | Raise e => report = BootstrapIndex.error (str_exn e)
                 | Ok _ =>
                     match describe_index_stats
                             (t1 ++ [BootstrapIndex.PineconeInit;
                                     BootstrapIndex.ListIndexes;
                                     BootstrapIndex.OpenIndex PINECONE_INDEX]) with
                     | Raise e => report = BootstrapIndex.error (str_exn e)
                     | Ok stats => report = BootstrapIndex.active stats
                     end
                 end
               else report = BootstrapIndex.index_not_found
           end
       end.
Proof.
  intros Hc.
  unfold BootstrapIndex.get_status_route, BootstrapIndex.get_status,
    try_except, bind, BootstrapIndex.call, ret.
  rewrite Hc.
  destruct (pinecone_init t1) as [[]|e0].
  2:{ eexists _, _. split; [reflexivity|]. split; [reflexivity|].
      split; [|reflexivity]. rewrite creations_app. simpl. apply app_nil_r. }
  destruct (list_indexes _) as [names|e1].
  2:{ eexists _, _. split; [reflexivity|]. split; [reflexivity|].
      split; [|reflexivity]. rewrite !creations_app. simpl. by rewrite !app_nil_r. }
  destruct (BootstrapIndex.listed PINECONE_INDEX names).
  2:{ eexists _, _. split; [reflexivity|]. split; [reflexivity|].
      split; [|reflexivity]. rewrite !creations_app. simpl. by rewrite !app_nil_r. }
  cbv beta iota. rewrite <- !app_assoc. cbn [app].
  destruct (pinecone_Index _) as [index|e2].
  2:{ eexists _, _. split; [reflexivity|]. split; [reflexivity|].
      split; [|reflexivity]. rewrite !creations_app. simpl. by rewrite !app_nil_r. }
  cbv beta iota. rewrite <- ?app_assoc. cbn [app].
  destruct (describe_index_stats _) as [stats|e3];
    (eexists _, _; split; [reflexivity|]; split; [reflexivity|];
     split; [|reflexivity]; rewrite !creations_app; simpl; by rewrite !app_nil_r).
Qed.

Lemma status_route_outcomes_witness :
  exists report t',
    BootstrapIndex.get_status (Some "cases") (fun _ => Ok tt)
      (fun _ => Raise (ProviderError "connection refused"))
      (fun _ => Ok (VIndex "cases"))
      (fun _ => Ok {| BootstrapIndex.total_vector_count := VInt 0;
                      BootstrapIndex.index_fullness := VFloat 0 |}) []
    = (Ok report, t')
    /\ BootstrapIndex.get_status_route (Some "cases") (fun _ => Ok tt)
         (fun _ => Raise (ProviderError "connection refused"))
         (fun _ => Ok (VIndex "cases"))
         (fun _ => Ok {| BootstrapIndex.total_vector_count := VInt 0;
                         BootstrapIndex.index_fullness := VFloat 0 |}) (ret tt) []
       = (Ok (report, 200), t')
    /\ creations t' = creations []
    /\ report = BootstrapIndex.error (str_exn (ProviderError "connection refused")).
Proof.
  apply (status_route_outcomes (Some "cases") (fun _ => Ok tt)
           (fun _ => Raise (ProviderError "connection refused"))
           (fun _ => Ok (VIndex "cases"))
           (fun _ => Ok {| BootstrapIndex.total_vector_count := VInt 0;
                           BootstrapIndex.index_fullness := VFloat 0 |})
           (ret tt) [] []).
  reflexivity.
Defined.
